(** * Multi-tenant authentication broker: tenant resolution, pools and guards

    A shallow embedding of the backend of the auth-system repository:
    - [backend/src/repo/connection/pools/auth.js] and [.../clientServers.js]
      (the control-plane pool and the per-schema pool cache),
    - [backend/src/services/clientServerService.js] (tenant registry and
      API tokens), with the module it imports as [repo],
      [backend/src/repo/adminRepository.js], and the repository under it,
      [backend/src/repo/repositories/clientServersRepository.js],
    - [backend/src/middleware/schemaDetection.js] (the resolver chain),
    - [backend/src/services/poolService.js], [backend/src/middleware/auth.js]
      (privilege guards),
    - [backend/src/services/auth.js] (end-user register / login).

    JavaScript values are modelled by [jsval]; asynchronous functions that
    touch module-level state or the database are functions in the monad
    [M], which threads a [World] and can throw an [error]. *)

From Stdlib Require Import String Ascii ZArith List Bool Lia DecimalString.
From stdpp Require Import base option gmap strings.

Set Warnings "-register-all".

Local Open Scope string_scope.
Local Open Scope Z_scope.
Local Open Scope list_scope.

(** ** JavaScript values *)

Module JS.

(** JSON-like values as they arrive in [req.body], [req.session] and in
    session metadata.  Numbers are integers here. *)
Inductive jsval : Type :=
| JUndefined
| JNull
| JBool (b : bool)
| JNum (n : Z)
| JStr (s : string)
| JArr (xs : list jsval)
| JObj (fields : list (string * jsval)).

(** [!!v] in JavaScript: [undefined], [null], [false], [0] and the empty
    string are falsy; arrays (also empty ones) and objects are truthy. *)
Definition truthy (v : jsval) : bool :=
  match v with
  | JUndefined | JNull => false
  | JBool b => b
  | JNum n => negb (n =? 0)
  | JStr s => negb (String.eqb s "")
  | JArr _ | JObj _ => true
  end.

(** [Array.isArray(v)] *)
Definition isArray (v : jsval) : bool :=
  match v with JArr _ => true | _ => false end.

(** [v === s] for a string literal [s] *)
Definition is_str (v : jsval) (s : string) : bool :=
  match v with JStr t => String.eqb t s | _ => false end.

(** Truthiness of a string-valued slot that may be absent. *)
Definition truthy_str (o : option string) : bool :=
  match o with Some s => negb (String.eqb s "") | None => false end.

(** [a || d] on an optional string with a string default. *)
Definition or_default (o : option string) (d : string) : string :=
  match o with
  | Some s => if String.eqb s "" then d else s
  | None => d
  end.

(** A plain object: its own enumerable properties, in insertion order. *)
Definition obj : Type := list (string * jsval).

(** [o.k]; a missing property reads as [undefined]. *)
Fixpoint obj_get (o : obj) (k : string) : jsval :=
  match o with
  | [] => JUndefined
  | (k', v) :: o' => if String.eqb k' k then v else obj_get o' k
  end.

Fixpoint has_key (o : obj) (k : string) : bool :=
  match o with
  | [] => false
  | (k', _) :: o' => String.eqb k' k || has_key o' k
  end.

(** [const { k, ...rest } = o]: the object without property [k]. *)
Fixpoint without (k : string) (o : obj) : obj :=
  match o with
  | [] => []
  | (k', v) :: o' => if String.eqb k' k then without k o' else (k', v) :: without k o'
  end.

(** The columns [cols] of a row object, as a [SELECT cols] returns them. *)
Definition project (cols : list string) (o : obj) : obj :=
  map (fun k => (k, obj_get o k)) cols.

(** [a || b] *)
Definition js_or (a b : jsval) : jsval := if truthy a then a else b.

Definition opt_str (o : option string) : jsval :=
  match o with Some s => JStr s | None => JNull end.

(** An array whose elements are all strings. *)
Fixpoint strings_of (xs : list jsval) : option (list string) :=
  match xs with
  | [] => Some []
  | JStr s :: xs' =>
      match strings_of xs' with Some l => Some (s :: l) | None => None end
  | _ => None
  end.

(** Character-wise string functions.  A [string] stands for a JavaScript
    string whose UTF-16 code units are all below 256: every [ascii] is one
    code unit (not a byte of a UTF-8 encoding), which is the unit
    [toLowerCase] and a regular expression without the [u] flag work on.
    Strings with a code unit of 256 or more are outside the model. *)
Fixpoint map_chars (f : ascii -> ascii) (s : string) : string :=
  match s with
  | EmptyString => EmptyString
  | String c s' => String (f c) (map_chars f s')
  end.

Fixpoint drop_char (c : ascii) (s : string) : string :=
  match s with
  | EmptyString => EmptyString
  | String c' s' => if Ascii.eqb c' c then drop_char c s' else String c' (drop_char c s')
  end.

(** [s.toLowerCase()]: the capital letters among the code units below
    256 are [A-Z] (65 to 90) and the Latin-1 capitals (192 to 222 without
    the multiplication sign, 215); each is 32 below its small letter. *)
Definition lower_char (c : ascii) : ascii :=
  let n := nat_of_ascii c in
  if (((65 <=? n) && (n <=? 90))
      || ((192 <=? n) && (n <=? 222) && negb (n =? 215)))%nat
  then ascii_of_nat (n + 32) else c.

Definition toLowerCase (s : string) : string := map_chars lower_char s.

(** [s.replace(/[^a-z0-9]/g, "_")]: one underscore for each code unit
    outside the class. *)
Definition keep_alnum (c : ascii) : ascii :=
  let n := nat_of_ascii c in
  if (((97 <=? n) && (n <=? 122)) || ((48 <=? n) && (n <=? 57)))%nat then c else "_"%char.

Definition sanitize (s : string) : string := map_chars keep_alnum s.

(** Decimal rendering of an integer inside a template string. *)
Definition decimal (z : Z) : string := NilZero.string_of_int (Z.to_int z).

End JS.
Export JS.

(** ** Errors *)

(** The error classes the backend throws ([middleware/errorHandler.js]),
    the two [jsonwebtoken] errors [verifyApiToken] looks for by name, the
    [TypeError] of a failed property access or method call, an error
    raised by the database driver, and a plain [Error]. *)
Inductive error : Type :=
| ValidationError (msg : string)
| AuthError (msg : string)
| NotFoundError (msg : string)
| JsonWebTokenError
| TokenExpiredError
| TypeError
| DatabaseError
| PlainError (msg : string).

Definition isValidationError (e : error) : bool :=
  match e with ValidationError _ => true | _ => false end.

(** ** Persisted rows *)

(** A row of [client_servers] (schemas/auth_internal/client_servers.js). *)
Record ClientRow : Type := mkClientRow {
  client_id : string;
  client_secret_hash : string;
  app_name : string;
  assigned_schema_name : string;
  allowed_return_urls : list string;
  user_id : option string;
  client_mode : string;
  created_at : Z;
  updated_at : Z
}.

(** A row of [<tenant>.users]. *)
Record UserRow : Type := mkUserRow {
  u_id : string;
  u_name : string;
  u_role : string;
  u_email : string;
  u_password_hash : string;
  u_created_at : Z
}.

(** A row of [<tenant>.sessions]. *)
Record SessionRow : Type := mkSessionRow {
  s_id : string;
  s_user_id : string;
  s_session_id : string
}.

(** ** The database *)

(** Statements the backend sends.  The DDL constructors stand for the
    template strings of the two [ddl] functions and of [initSchema]; the
    others for the parameterised queries of [connection/queries.js] and the
    inline queries of the services. *)
Inductive stmt : Type :=
| SqlBegin                                  (* begin; *)
| SqlCommit                                 (* commit; *)
| CreateSchemaRaw (name : string)           (* CREATE SCHEMA IF NOT EXISTS <name>; *)
| CreateSchemaIdent (name : string)         (* create schema if not exists ident(<name>); *)
| SetLocalSearchPath (name : string)        (* set local search_path to ident(<name>), public; *)
| CreateTableClientServers (name : string)  (* create table if not exists <name>.client_servers *)
| CreateTableUsers (name : string)          (* create table if not exists <name>.users *)
| CreateTableSessions (name : string)       (* create table if not exists <name>.sessions *)
| SetSearchPath (name : string)             (* set search_path to <name>, public *)
| SelectAllClientServers                    (* auth_internal.client_servers UNION ALL public.client_servers *)
| CountClientServersOfUser (uid : jsval)    (* SELECT COUNT( * ) ... WHERE user_id = $1 *)
| InsertClientServer (r : ClientRow)        (* INSERT INTO client_servers ... RETURNING *, on a tenant pool *)
| SelectClientServer (cid : string)         (* SELECT * FROM client_servers WHERE client_id = $1 *)
| SelectClientServersOfUser (uid : jsval)   (* ... WHERE user_id = $1 ORDER BY created_at DESC *)
| SelectClientServerOfUser (uid : jsval) (cid : string)
| InsertUser (schema : string) (r : UserRow)
| SelectUsers (schema : string)
| InsertSession (schema : string) (r : SessionRow).

(** Which of the two [client_servers] tables an unqualified reference on
    the control-plane connection resolves to is decided by the database's
    search path, not by the backend. *)
Inductive cs_table : Type := AuthInternalCS | PublicCS.

Record Db : Type := mkDb {
  reachable : bool;                      (* does [pool.connect()] succeed *)
  rejects : stmt -> bool;                (* statements the server answers with an error *)
  auth_internal_client_servers : list ClientRow;
  public_client_servers : list ClientRow;
  unqualified_client_servers : cs_table;
  users : gmap string (list UserRow);
  sessions_tbl : gmap string (list SessionRow);
  db_time : Z                            (* NOW() *)
}.

(** What a query hands back in [rows]. *)
Inductive rows : Type :=
| NoRows
| ClientRows (l : list ClientRow)
| CountRow (n : nat)
| UserRows (l : list UserRow)
| SessionRows (l : list SessionRow).

Definition cs_of (d : Db) : list ClientRow :=
  match unqualified_client_servers d with
  | AuthInternalCS => auth_internal_client_servers d
  | PublicCS => public_client_servers d
  end.

Definition set_public_cs (d : Db) (l : list ClientRow) : Db :=
  mkDb (reachable d) (rejects d) (auth_internal_client_servers d) l
       (unqualified_client_servers d) (users d) (sessions_tbl d) (db_time d).

Definition set_users (d : Db) (u : gmap string (list UserRow)) : Db :=
  mkDb (reachable d) (rejects d) (auth_internal_client_servers d)
       (public_client_servers d) (unqualified_client_servers d) u
       (sessions_tbl d) (db_time d).

Definition set_sessions_tbl (d : Db) (s : gmap string (list SessionRow)) : Db :=
  mkDb (reachable d) (rejects d) (auth_internal_client_servers d)
       (public_client_servers d) (unqualified_client_servers d) (users d)
       s (db_time d).

Definition owned_by (uid : string) (r : ClientRow) : bool :=
  match user_id r with Some u => String.eqb u uid | None => false end.

(** [ORDER BY created_at DESC]: insertion into a list kept in descending
    order of [created_at]. *)
Fixpoint insert_desc (r : ClientRow) (l : list ClientRow) : list ClientRow :=
  match l with
  | [] => [r]
  | x :: l' =>
      if created_at x <? created_at r then r :: x :: l'
      else x :: insert_desc r l'
  end.

Definition order_by_created_desc (l : list ClientRow) : list ClientRow :=
  fold_right insert_desc [] l.

Definition table_of {A} (m : gmap string (list A)) (schema : string) : list A :=
  default [] (m !! schema).

(** The effect and the answer of an accepted statement.  A [user_id]
    parameter goes into a UUID column: anything but a string is refused by
    the server.  The only insert into [client_servers] that the backend
    sends runs on a tenant pool (see [ClientServersRepo.createClientServer]),
    whose search path is [<schema>, public] (pools/clientServers.js); no
    tenant schema holds a [client_servers] table, so the unqualified name
    there is [public.client_servers]. *)
Definition answer (d : Db) (q : stmt) : error + (rows * Db) :=
  match q with
  | SqlBegin | SqlCommit | CreateSchemaRaw _ | CreateSchemaIdent _
  | SetLocalSearchPath _ | CreateTableClientServers _ | CreateTableUsers _
  | CreateTableSessions _ | SetSearchPath _ => inr (NoRows, d)
  | SelectAllClientServers =>
      inr (ClientRows (auth_internal_client_servers d ++ public_client_servers d), d)
  | CountClientServersOfUser (JStr uid) =>
      inr (CountRow (length (filter (fun r => owned_by uid r = true) (cs_of d))), d)
  | CountClientServersOfUser _ => inl DatabaseError
  | InsertClientServer r =>
      if existsb (fun x => String.eqb (client_id x) (client_id r)
                           || String.eqb (assigned_schema_name x) (assigned_schema_name r))
                 (public_client_servers d)
      then inl DatabaseError
      else
        let r' := mkClientRow (client_id r) (client_secret_hash r) (app_name r)
                    (assigned_schema_name r) (allowed_return_urls r) (user_id r)
                    (client_mode r) (db_time d) (db_time d) in
        inr (ClientRows [r'], set_public_cs d (public_client_servers d ++ [r']))
  | SelectClientServer cid =>
      inr (ClientRows (filter (fun r => String.eqb (client_id r) cid = true) (cs_of d)), d)
  | SelectClientServersOfUser (JStr uid) =>
      inr (ClientRows (order_by_created_desc
                         (filter (fun r => owned_by uid r = true) (cs_of d))), d)
  | SelectClientServersOfUser _ => inl DatabaseError
  | SelectClientServerOfUser (JStr uid) cid =>
      inr (ClientRows (filter (fun r => owned_by uid r && String.eqb (client_id r) cid = true)
                              (cs_of d)), d)
  | SelectClientServerOfUser _ _ => inl DatabaseError
  | InsertUser schema r =>
      if existsb (fun x => String.eqb (u_email x) (u_email r)
                           || String.eqb (u_id x) (u_id r))
                 (table_of (users d) schema)
      then inl DatabaseError
      else
        let r' := mkUserRow (u_id r) (u_name r) (u_role r) (u_email r)
                    (u_password_hash r) (db_time d) in
        inr (UserRows [r'],
             set_users d (<[schema := table_of (users d) schema ++ [r']]> (users d)))
  | SelectUsers schema => inr (UserRows (table_of (users d) schema), d)
  | InsertSession schema r =>
      inr (SessionRows [r],
           set_sessions_tbl d
             (<[schema := table_of (sessions_tbl d) schema ++ [r]]> (sessions_tbl d)))
  end.

(** ** Process state and the effect monad *)

(** A [pg.Pool] object, identified by its allocation number. *)
Record Handle : Type := mkHandle { hid : nat }.

(** [process.env] *)
Record Env : Type := mkEnv {
  SEED_SCHEMA : option string;
  JWT_SECRET : option string
}.

Record World : Type := mkWorld {
  pool : option Handle;            (* pools/auth.js: [let pool] *)
  schemas : gmap string Handle;    (* pools/clientServers.js: [const schemas = {}] *)
  pools : gmap string Handle;      (* repo/index: [const pools] *)
  next_handle : nat;               (* pools allocated so far *)
  db : Db;
  log : list (nat * stmt);         (* statements sent, oldest first, with the sending pool *)
  clock : Z;                       (* Date.now(), milliseconds *)
  entropy : nat;                   (* random draws made so far *)
  env : Env
}.

(** Computations over a state [S] that may throw. *)
Definition ST (S A : Type) : Type := S -> (error + A) * S.

(** Computations over the process state. *)
Abbreviation M := (ST World).

Definition ret {S A} (a : A) : ST S A := fun w => (inr a, w).

Definition throw {S A} (e : error) : ST S A := fun w => (inl e, w).

Definition bind {S A B} (m : ST S A) (k : A -> ST S B) : ST S B :=
  fun w =>
    match m w with
    | (inl e, w') => (inl e, w')
    | (inr a, w') => k a w'
    end.

(** [try { m } catch (e) { h e }]: the handler runs in the state the
    failing computation left behind. *)
Definition try_catch {S A} (m : ST S A) (h : error -> ST S A) : ST S A :=
  fun w =>
    match m w with
    | (inl e, w') => h e w'
    | (inr a, w') => (inr a, w')
    end.

Notation "'let*' x ':=' m 'in' k" := (bind m (fun x => k))
  (at level 10, x pattern, m at level 100, k at level 200).
Notation "m ';;' k" := (bind m (fun _ => k))
  (at level 100, k at level 200, right associativity).

Definition get_world : M World := fun w => (inr w, w).

Definition set_pool (o : option Handle) : M unit := fun w =>
  (inr tt, mkWorld o (schemas w) (pools w) (next_handle w) (db w) (log w)
                   (clock w) (entropy w) (env w)).

Definition set_schemas (s : gmap string Handle) : M unit := fun w =>
  (inr tt, mkWorld (pool w) s (pools w) (next_handle w) (db w) (log w)
                   (clock w) (entropy w) (env w)).

Definition set_pools (s : gmap string Handle) : M unit := fun w =>
  (inr tt, mkWorld (pool w) (schemas w) s (next_handle w) (db w) (log w)
                   (clock w) (entropy w) (env w)).

(** [new Pool(config.postgres)] *)
Definition new_Pool : M Handle := fun w =>
  (inr (mkHandle (next_handle w)),
   mkWorld (pool w) (schemas w) (pools w) (S (next_handle w)) (db w) (log w)
           (clock w) (entropy w) (env w)).

(** [await p.connect()] *)
Definition connect (p : Handle) : M unit := fun w =>
  if reachable (db w) then (inr tt, w) else (inl DatabaseError, w).

(** [await p.query(q)] *)
Definition query (p : Handle) (q : stmt) : M rows := fun w =>
  let w1 := mkWorld (pool w) (schemas w) (pools w) (next_handle w) (db w)
                    (log w ++ [(hid p, q)]) (clock w) (entropy w) (env w) in
  if rejects (db w) q then (inl DatabaseError, w1)
  else
    match answer (db w) q with
    | inl e => (inl e, w1)
    | inr (r, d') =>
        (inr r, mkWorld (pool w) (schemas w) (pools w) (next_handle w) d'
                        (log w ++ [(hid p, q)]) (clock w) (entropy w) (env w))
    end.

(** [for (const stmt of statements) await p.query(stmt)] *)
Fixpoint query_each (p : Handle) (qs : list stmt) : M unit :=
  match qs with
  | [] => ret tt
  | q :: qs' => query p q;; query_each p qs'
  end.

(** ** Connection pools *)

Module AuthPool.

(** schemas/auth_internal/client_servers.js: [ddl(tenant = "auth_internal")] *)
Definition ddl (tenant : string) : list stmt :=
  [ SqlBegin; CreateSchemaIdent tenant; SetLocalSearchPath tenant;
    CreateTableClientServers tenant; SqlCommit ].

(** pools/auth.js: [initSchema] runs the statements on the module-level
    [pool]. *)
Definition initSchema : M unit :=
  let* w := get_world in
  match pool w with
  | Some p => query_each p (ddl "auth_internal")
  | None => throw TypeError
  end.

(** pools/auth.js: [getPool] *)
Definition getPool : M Handle :=
  let* w := get_world in
  match pool w with
  | Some p => ret p
  | None =>
      let* p := new_Pool in
      set_pool (Some p);;
      connect p;;
      initSchema;;
      ret p
  end.

End AuthPool.

Module TenantPool.

(** schemas/client_servers/client_server_template.js:
    [ddl(tenant = "client_template")] *)
Definition ddl (tenant : string) : list stmt :=
  [ SqlBegin; CreateSchemaIdent tenant; SetLocalSearchPath tenant;
    CreateTableUsers tenant; CreateTableSessions tenant; SqlCommit ].

(** pools/clientServers.js: [initSchema] *)
Definition initSchema (currentPool : Handle) (schemaName : string) : M unit :=
  query currentPool (CreateSchemaRaw schemaName);;
  if String.eqb schemaName "client_template" then ret tt
  else query_each currentPool (ddl schemaName).

(** pools/clientServers.js: [getPoolForSchema].  [schemas[schemaName]] of
    a stored pool object is always truthy.  The cache is a plain object:
    names that are properties of [Object.prototype] (["constructor"], ...)
    are outside this model. *)
Definition getPoolForSchema (schemaName : string) : M Handle :=
  let* w := get_world in
  match schemas w !! schemaName with
  | Some p => ret p
  | None =>
      let* localPool := new_Pool in
      connect localPool;;
      initSchema localPool schemaName;;
      let* w1 := get_world in
      set_schemas (<[schemaName := localPool]> (schemas w1));;
      query localPool (SetSearchPath schemaName);;
      ret localPool
  end.

End TenantPool.


(** ** Libraries *)

(** The claims of a token ([jsonwebtoken] payload). *)
Record JwtPayload : Type := mkJwtPayload {
  jwt_client_id : string;
  jwt_schema : string;
  jwt_type : option string;
  jwt_iat : Z;
  jwt_exp : option Z
}.

(** The randomness and cryptography the services import: [uuid],
    [bcrypt] and the signing and serialisation of [jsonwebtoken]. *)
Class Libs : Type := mkLibs {
  uuid_of : nat -> string;                       (* the n-th random UUID *)
  bcrypt_hash : string -> nat -> string;         (* hash under the n-th random salt *)
  bcrypt_compare : string -> string -> bool;
  hmac : string -> JwtPayload -> string;         (* signature of the claims under a secret *)
  jwt_encode : JwtPayload -> string -> string;   (* compact serialisation *)
  jwt_decode : string -> option (JwtPayload * string)
}.

Definition draw : M nat := fun w =>
  (inr (entropy w),
   mkWorld (pool w) (schemas w) (pools w) (next_handle w) (db w) (log w)
           (clock w) (S (entropy w)) (env w)).

(** [uuidv4()] *)
Definition uuidv4 `{L : Libs} : M string :=
  let* n := draw in ret (uuid_of n).

(** [await bcrypt.hash(s, 12)] *)
Definition bcrypt_hash_12 `{L : Libs} (s : string) : M string :=
  let* n := draw in ret (bcrypt_hash s n).

(** [Date.now()] *)
Definition Date_now : M Z := fun w => (inr (clock w), w).

(** The clock of [jsonwebtoken], in seconds. *)
Definition jwt_clock : M Z := fun w => (inr (clock w / 1000), w).

(** [jwt.sign(claims, secret, { expiresIn })], [expiresIn] in seconds. *)
Definition jwt_sign `{L : Libs} (cid schema ty : string) (secret : string) (expiresIn : Z)
  : M string :=
  let* t := jwt_clock in
  let p := mkJwtPayload cid schema (Some ty) t (Some (t + expiresIn)) in
  ret (jwt_encode p (hmac secret p)).

(** [jwt.verify(token, secret)]: a token that does not parse or whose
    signature does not match throws [JsonWebTokenError]; one whose [exp] is
    not in the future throws [TokenExpiredError]. *)
Definition jwt_verify `{L : Libs} (token : string) (secret : string) : M JwtPayload :=
  match jwt_decode token with
  | None => throw JsonWebTokenError
  | Some (p, sig) =>
      if String.eqb sig (hmac secret p) then
        let* t := jwt_clock in
        match jwt_exp p with
        | Some e => if e <=? t then throw TokenExpiredError else ret p
        | None => ret p
        end
      else throw JsonWebTokenError
  end.

(** ** Requests and sessions *)

(** [req.session]: the fields the backend reads and writes. *)
Record Session : Type := mkSession {
  userId : jsval;
  role : jsval;
  poolContext : option string;
  schema : option string;
  poolMetadata : option obj
}.

(** What [verifyApiToken] returns and [req.clientContext] holds. *)
Record ClientInfo : Type := mkClientInfo {
  ci_client_id : string;
  ci_schema : string;
  ci_app_name : string;
  ci_allowed_return_urls : list string
}.

Record Request : Type := mkRequest {
  authorization : option string;     (* req.headers.authorization *)
  body : obj;                        (* req.body *)
  session : option Session;          (* req.session *)
  req_schema : option string;        (* req.schema *)
  clientContext : option ClientInfo  (* req.clientContext *)
}.

(** [req.session?.userId] and the like. *)
Definition userId_of (req : Request) : jsval :=
  match session req with Some s => userId s | None => JUndefined end.

Definition role_of (req : Request) : jsval :=
  match session req with Some s => role s | None => JUndefined end.

Definition poolContext_of (req : Request) : option string :=
  match session req with Some s => poolContext s | None => None end.

Definition schema_of (req : Request) : option string :=
  match session req with Some s => schema s | None => None end.

Definition poolMetadata_of (req : Request) : option obj :=
  match session req with Some s => poolMetadata s | None => None end.

(** The [{ message, data }] objects the services return. *)
Record Response : Type := mkResponse {
  message : string;
  data : jsval
}.

(** ** The tenant registry and API tokens (services/clientServerService.js) *)

(** A [client_servers] row as the driver hands it to JavaScript. *)
Definition row_obj (r : ClientRow) : obj :=
  [ ("client_id", JStr (client_id r));
    ("client_secret_hash", JStr (client_secret_hash r));
    ("app_name", JStr (app_name r));
    ("assigned_schema_name", JStr (assigned_schema_name r));
    ("allowed_return_urls", JArr (map JStr (allowed_return_urls r)));
    ("user_id", opt_str (user_id r));
    ("client_mode", JStr (client_mode r));
    ("created_at", JNum (created_at r));
    ("updated_at", JNum (updated_at r)) ].

(** The rows of an answer that carries [client_servers] rows. *)
Definition client_rows (r : rows) : list ClientRow :=
  match r with ClientRows l => l | _ => [] end.

(** ** Pool resolution for a request (middleware/schemaDetection.js,
    services/poolService.js) *)

(** [resolvePoolFromSession(req)]:
    [req.session?.poolContext || POOL_CONTEXTS.DEFAULT] and
    [req.session?.schema || process.env.SEED_SCHEMA || "client_template"];
    the [switch] sends the control-plane context ["auth_internal"] to
    [getPool] and every other context to [getPoolForSchema]. *)
Definition resolvePoolFromSession (req : Request) : M Handle :=
  let poolContext := or_default (poolContext_of req) "default" in
  let* w := get_world in
  let schema_name :=
    if truthy_str (schema_of req) then default "" (schema_of req)
    else or_default (SEED_SCHEMA (env w)) "client_template" in
  if String.eqb poolContext "auth_internal" then AuthPool.getPool
  else TenantPool.getPoolForSchema schema_name.

(** [getPoolForRequest(req)] *)
Definition getPoolForRequest (req : Request) : M Handle :=
  try_catch (resolvePoolFromSession req)
            (fun _ =>
               let* w := get_world in
               TenantPool.getPoolForSchema
                 (or_default (SEED_SCHEMA (env w)) "client_template")).

(** A [pg.Pool] handed over where a request is expected: it has no
    [session] (nor headers or body) for the callee to read. *)
Definition pool_as_request (p : Handle) : Request :=
  mkRequest None [] None None None.

(** ** The registry's repositories *)

Module ClientServersRepo.

(** The parameters of the insert go into [VARCHAR], [TEXT[]] and [UUID]
    columns: the model passes strings, an array of strings and a string
    or [null] owner through and answers any other value with a database
    error. *)
Definition insert_params (c : obj) : M ClientRow :=
  match obj_get c "client_id", obj_get c "client_secret_hash", obj_get c "app_name",
        obj_get c "assigned_schema_name", obj_get c "allowed_return_urls",
        obj_get c "client_mode" with
  | JStr cid, JStr h, JStr n, JStr sn, JArr xs, JStr m =>
      match strings_of xs, obj_get c "user_id" with
      | Some l, JNull => ret (mkClientRow cid h n sn l None m 0 0)
      | Some l, JStr u => ret (mkClientRow cid h n sn l (Some u) m 0 0)
      | _, _ => throw DatabaseError
      end
  | _, _, _, _, _, _ => throw DatabaseError
  end.

(** repositories/clientServersRepository.js
    [createClientServer(req, clientServer)]: the pool of the request, the
    [createClientServer] query of connection/queries.js, [rows[0]]. *)
Definition createClientServer (req : Request) (clientServer : obj)
  : M (option ClientRow) :=
  let* pool := getPoolForRequest req in
  let* r := insert_params clientServer in
  let* rs := query pool (InsertClientServer r) in
  ret (head (client_rows rs)).

End ClientServersRepo.

(** repo/adminRepository.js, which the service imports as [repo]. *)
Module Repo.

(** [repo.createClientServer(req, clientServerData)].  Of the data it is
    handed it reads [app_name], [assigned_schema_name],
    [allowed_return_urls], [user_id] and [client_mode]; the client id, the
    secret and its hash are drawn here. *)
Definition createClientServer `{L : Libs} (req : Request) (clientServerData : obj)
  : M obj :=
  let app_name := obj_get clientServerData "app_name" in
  let assigned_schema_name := obj_get clientServerData "assigned_schema_name" in
  let allowed_return_urls := obj_get clientServerData "allowed_return_urls" in
  let user_id := obj_get clientServerData "user_id" in
  let client_mode :=
    match obj_get clientServerData "client_mode" with
    | JUndefined => JStr "frontend-login-proxy"
    | v => v
    end in
  let* u := uuidv4 in
  let client_id := ("client_" ++ drop_char "-" u)%string in
  let* client_secret := uuidv4 in
  let* client_secret_hash := bcrypt_hash_12 client_secret in
  if negb (truthy app_name) || negb (truthy assigned_schema_name)
     || negb (truthy allowed_return_urls)
  then throw (PlainError
                "app_name, assigned_schema_name, and allowed_return_urls are required")
  else
    let completeClientData :=
      [ ("client_id", JStr client_id);
        ("client_secret_hash", JStr client_secret_hash);
        ("app_name", app_name);
        ("assigned_schema_name", assigned_schema_name);
        ("allowed_return_urls", allowed_return_urls);
        ("user_id", js_or user_id JNull);
        ("client_mode", client_mode) ] in
    let* result := ClientServersRepo.createClientServer req completeClientData in
    ret ((match result with Some r => row_obj r | None => [] end)
         ++ [("client_secret", JStr client_secret)]).

(** [repo.getClientServer(pool, client_id)]: the module exports
    [getClientServerByClientId] and no [getClientServer], so this property
    of the namespace object is [undefined] and the call throws a
    [TypeError]. *)
Definition getClientServer (p : Handle) (cid : string) : M (option ClientRow) :=
  throw TypeError.

End Repo.

Module ClientServerService.

Definition getAuthInternalPool : M Handle := AuthPool.getPool.

Definition required_msg : string :=
  "app_name and allowed_return_urls (array) are required".

(** [`client_${app_name.toLowerCase().replace(/[^a-z0-9]/g, "_")}_${Date.now()}`];
    the method call throws on a value that is not a string. *)
Definition schema_name_for (app_name : jsval) : M string :=
  match app_name with
  | JStr n =>
      let* t := Date_now in
      ret ("client_" ++ sanitize (toLowerCase n) ++ "_" ++ decimal t)%string
  | _ => throw TypeError
  end.

(** The common tail of the two registration functions, from
    "Generate client credentials" to the returned object. *)
Definition create_client `{L : Libs} (app_name urls uid : jsval) (mode : string)
    (mode_in_reply : bool) : M Response :=
  let* u1 := uuidv4 in
  let client_id := ("client_" ++ drop_char "-" u1)%string in
  let* client_secret := uuidv4 in
  let* client_secret_hash := bcrypt_hash_12 client_secret in
  let* assigned_schema_name := schema_name_for app_name in
  let* p := getAuthInternalPool in
  let* clientServer :=
    Repo.createClientServer (pool_as_request p)
      [ ("client_id", JStr client_id);
        ("client_secret_hash", JStr client_secret_hash);
        ("app_name", app_name);
        ("assigned_schema_name", JStr assigned_schema_name);
        ("allowed_return_urls", urls);
        ("user_id", uid);
        ("client_mode", JStr mode) ] in
  let* _ := TenantPool.getPoolForSchema assigned_schema_name in
  ret (mkResponse "Client server registered successfully"
         (JObj ([ ("client_id", JStr client_id);
                  ("client_secret", JStr client_secret);
                  ("app_name", app_name);
                  ("assigned_schema_name", JStr assigned_schema_name);
                  ("allowed_return_urls", urls) ]
                ++ (if mode_in_reply then [("client_mode", JStr mode)] else [])))).

(** [registerClientServer(req)] *)
Definition registerClientServer `{L : Libs} (req : Request) : M Response :=
  let app_name := obj_get (body req) "app_name" in
  let allowed_return_urls := obj_get (body req) "allowed_return_urls" in
  if negb (truthy app_name) || negb (truthy allowed_return_urls)
     || negb (isArray allowed_return_urls)
  then throw (ValidationError required_msg)
  else create_client app_name allowed_return_urls JNull "api-auth-server" false.

(** [registerClientServerForUser(clientData, req)] *)
Definition registerClientServerForUser `{L : Libs} (clientData : obj) (req : Request)
  : M Response :=
  let app_name := obj_get clientData "app_name" in
  let allowed_return_urls := obj_get clientData "allowed_return_urls" in
  let client_mode :=
    match obj_get clientData "client_mode" with
    | JUndefined => JStr "frontend-login-proxy"
    | v => v
    end in
  let uid := userId_of req in
  if negb (truthy uid) then throw (ValidationError "User ID is required")
  else if negb (truthy app_name) || negb (truthy allowed_return_urls)
          || negb (isArray allowed_return_urls)
  then throw (ValidationError required_msg)
  else
    match client_mode with
    | JStr m =>
        if String.eqb m "frontend-login-proxy" || String.eqb m "api-auth-server"
        then create_client app_name allowed_return_urls uid m true
        else throw (ValidationError
               "client_mode must be 'frontend-login-proxy' or 'api-auth-server'")
    | _ => throw (ValidationError
               "client_mode must be 'frontend-login-proxy' or 'api-auth-server'")
    end.

(** The columns the owner-scoped queries select. *)
Definition owner_columns : list string :=
  [ "client_id"; "app_name"; "assigned_schema_name"; "allowed_return_urls";
    "client_mode"; "created_at"; "updated_at" ].

(** [getUserClientServers(req)] *)
Definition getUserClientServers (req : Request) : M Response :=
  let uid := userId_of req in
  if negb (truthy uid) then throw (ValidationError "User ID is required")
  else
    let* p := getAuthInternalPool in
    let* rs := query p (SelectClientServersOfUser uid) in
    ret (mkResponse "Client servers retrieved successfully"
           (JArr (map (fun r => JObj (project owner_columns (row_obj r)))
                      (client_rows rs)))).

(** [getUserClientServer(req, clientId)] *)
Definition getUserClientServer (req : Request) (clientId : string) : M Response :=
  let uid := userId_of req in
  if negb (truthy uid) || String.eqb clientId ""
  then throw (ValidationError "User ID and Client ID are required")
  else
    let* p := getAuthInternalPool in
    let* rs := query p (SelectClientServerOfUser uid clientId) in
    match client_rows rs with
    | [] => throw (NotFoundError "Client server not found or access denied")
    | r :: _ =>
        ret (mkResponse "Client server retrieved successfully"
               (JObj (project owner_columns (row_obj r))))
    end.

Definition jwt_secret : M string := fun w =>
  (inr (or_default (JWT_SECRET (env w)) "your-jwt-secret"), w).

(** [authenticateClientServer(req)]: the handshake that issues a token. *)
Definition authenticateClientServer `{L : Libs} (req : Request) : M Response :=
  match obj_get (body req) "client_id", obj_get (body req) "client_secret" with
  | JStr cid, JStr client_secret =>
      if String.eqb cid "" || String.eqb client_secret ""
      then throw (ValidationError "client_id and client_secret are required")
      else
        let* p := getAuthInternalPool in
        let* found := Repo.getClientServer p cid in
        match found with
        | None => throw (AuthError "Invalid client credentials")
        | Some clientServer =>
            if negb (bcrypt_compare client_secret (client_secret_hash clientServer))
            then throw (AuthError "Invalid client credentials")
            else
              let* secret := jwt_secret in
              let* token := jwt_sign cid (assigned_schema_name clientServer)
                                     "api_token" secret 86400 in
              ret (mkResponse "Authentication successful"
                     (JObj [ ("token", JStr token);
                             ("expires_in", JNum 86400);
                             ("schema", JStr (assigned_schema_name clientServer)) ]))
        end
  | a, b =>
      if negb (truthy a) || negb (truthy b)
      then throw (ValidationError "client_id and client_secret are required")
      else throw DatabaseError
  end.

(** [verifyApiToken(token)] *)
Definition verifyApiToken `{L : Libs} (token : string) : M ClientInfo :=
  try_catch
    (if String.eqb token "" then throw (AuthError "API token is required")
     else
       let* secret := jwt_secret in
       let* decoded := jwt_verify token secret in
       if negb (match jwt_type decoded with
                | Some t => String.eqb t "api_token"
                | None => false
                end)
       then throw (AuthError "Invalid token type")
       else
         let* p := getAuthInternalPool in
         let* found := Repo.getClientServer p (jwt_client_id decoded) in
         match found with
         | None => throw (AuthError "Client server not found")
         | Some clientServer =>
             ret (mkClientInfo (jwt_client_id decoded) (jwt_schema decoded)
                               (app_name clientServer)
                               (allowed_return_urls clientServer))
         end)
    (fun e =>
       match e with
       | JsonWebTokenError | TokenExpiredError =>
           throw (AuthError "Invalid or expired token")
       | _ => throw e
       end).

(** [getClientServerInfo(client_id)] *)
Definition getClientServerInfo (cid : string) : M Response :=
  if String.eqb cid "" then throw (ValidationError "client_id is required")
  else
    let* p := getAuthInternalPool in
    let* found := Repo.getClientServer p cid in
    match found with
    | None => throw (NotFoundError "Client server not found")
    | Some clientServer =>
        ret (mkResponse "Client server retrieved successfully"
               (JObj (without "client_secret_hash" (row_obj clientServer))))
    end.

End ClientServerService.

(** ** The resolver chain (middleware/schemaDetection.js) *)

(** A middleware mutates the request object it is handed and may touch the
    process state: a computation over both. *)
Abbreviation Mreq := (ST (Request * World)).

(** Running a service from inside a middleware. *)
Definition lift {A} (m : M A) : Mreq A :=
  fun st =>
    match m st.2 with
    | (r, w') => (r, (st.1, w'))
    end.

Definition get_req : Mreq Request := fun st => (inr st.1, st).

Definition put_req (r : Request) : Mreq unit := fun st => (inr tt, (r, st.2)).

(** [next()] *)
Definition next : Mreq unit := ret tt.

Module SchemaDetection.

(** [POOL_CONTEXTS] *)
Definition AUTH_INTERNAL : string := "auth_internal".
Definition CLIENT_TENANT : string := "client_tenant".
Definition API_CLIENT : string := "api_client".
Definition DEFAULT : string := "default".

(** [USER_ROLES] *)
Definition ADMIN : string := "admin".
Definition OWNER : string := "owner".
Definition USER : string := "user".

(** [process.env.SEED_SCHEMA || "client_template"] *)
Definition default_schema (w : World) : string :=
  or_default (SEED_SCHEMA (env w)) "client_template".

(** [setPoolContext(req, context, schema, metadata)]: three assignments
    to properties of [req.session]. *)
Definition setPoolContext (context schema : string) (metadata : obj) : Mreq unit :=
  let* req := get_req in
  match session req with
  | None => throw TypeError
  | Some s =>
      put_req (mkRequest (authorization req) (body req)
                 (Some (mkSession (userId s) (role s) (Some context) (Some schema)
                                  (Some metadata)))
                 (req_schema req) (clientContext req))
  end.

(** [allowedUrl && returnUrl && returnUrl.startsWith(allowedUrl)]; the
    method exists on strings only. *)
Definition url_matches (returnUrl : jsval) (allowedUrl : string) : error + bool :=
  if String.eqb allowedUrl "" then inr false
  else if negb (truthy returnUrl) then inr false
  else
    match returnUrl with
    | JStr r => inr (String.prefix allowedUrl r)
    | _ => inl TypeError
    end.

(** [urls.some(allowedUrl => ...)] *)
Fixpoint some_match (returnUrl : jsval) (urls : list string) : error + bool :=
  match urls with
  | [] => inr false
  | a :: urls' =>
      match url_matches returnUrl a with
      | inl e => inl e
      | inr true => inr true
      | inr false => some_match returnUrl urls'
      end
  end.

(** [clientServers.find(client => client.allowed_return_urls.some(...))] *)
Fixpoint find_client (returnUrl : jsval) (cs : list ClientRow) : error + option ClientRow :=
  match cs with
  | [] => inr None
  | c :: cs' =>
      match some_match returnUrl (allowed_return_urls c) with
      | inl e => inl e
      | inr true => inr (Some c)
      | inr false => find_client returnUrl cs'
      end
  end.

Definition of_result {S A} (r : error + A) : ST S A :=
  match r with inl e => throw e | inr a => ret a end.

(** [detectSchemaFromReturnUrl] *)
Definition detectSchemaFromReturnUrl : Mreq unit :=
  try_catch
    (let* req := get_req in
     let returnUrl := obj_get (body req) "returnUrl" in
     match returnUrl with
     | JNull | JUndefined => next
     | _ =>
         let* authInternalPool := lift AuthPool.getPool in
         let* rs := lift (query authInternalPool SelectAllClientServers) in
         let* matchingClient := of_result (find_client returnUrl (client_rows rs)) in
         match matchingClient with
         | Some c =>
             setPoolContext CLIENT_TENANT (assigned_schema_name c)
               [ ("client_id", JStr (client_id c));
                 ("app_name", JStr (app_name c));
                 ("client_mode", JStr (client_mode c));
                 ("return_url", returnUrl);
                 ("allowed_return_urls", JArr (map JStr (allowed_return_urls c)));
                 ("user_role", JStr USER) ];;
             next
         | None => next
         end
     end)
    (fun _ => next).

(** [s.substring(n)] *)
Fixpoint substring_from (n : nat) (s : string) : string :=
  match n, s with
  | O, _ => s
  | S n', String _ s' => substring_from n' s'
  | S _, EmptyString => EmptyString
  end.

(** The token of an [Authorization: Bearer <token>] header. *)
Definition bearer_token (req : Request) : option string :=
  match authorization req with
  | Some authHeader =>
      if negb (String.eqb authHeader "") && String.prefix "Bearer " authHeader
      then Some (substring_from 7 authHeader)
      else None
  | None => None
  end.

(** [detectSchemaFromApiToken] *)
Definition detectSchemaFromApiToken `{L : Libs} : Mreq unit :=
  try_catch
    (let* req := get_req in
     match bearer_token req with
     | Some token =>
         try_catch
           (let* clientInfo := lift (ClientServerService.verifyApiToken token) in
            setPoolContext API_CLIENT (ci_schema clientInfo)
              [ ("client_id", JStr (ci_client_id clientInfo));
                ("app_name", JStr (ci_app_name clientInfo));
                ("allowed_return_urls",
                 JArr (map JStr (ci_allowed_return_urls clientInfo)));
                ("token_type", JStr "api_token");
                ("user_role", JStr "api_client") ];;
            let* req1 := get_req in
            put_req (mkRequest (authorization req1) (body req1) (session req1)
                               (req_schema req1) (Some clientInfo)))
           (fun _ => ret tt);;
         next
     | None => next
     end)
    (fun _ => next).

(** [userClients[0]?.client_count] *)
Definition client_count (r : rows) : option nat :=
  match r with CountRow n => Some n | _ => None end.

(** [detectUserRole] *)
Definition detectUserRole : Mreq unit :=
  try_catch
    (let* req := get_req in
     if truthy (userId_of req) && negb (truthy_str (poolContext_of req)) then
       if is_str (role_of req) "admin" then
         setPoolContext AUTH_INTERNAL "auth_internal"
           [ ("user_id", userId_of req);
             ("user_role", JStr ADMIN);
             ("system_admin", JBool true) ];;
         next
       else
         let* authInternalPool := lift AuthPool.getPool in
         let* rs := lift (query authInternalPool (CountClientServersOfUser (userId_of req))) in
         match client_count rs with
         | Some (S n) =>
             setPoolContext AUTH_INTERNAL "auth_internal"
               [ ("user_id", userId_of req);
                 ("user_role", JStr OWNER);
                 ("owned_clients", JStr (decimal (Z.of_nat (S n)))) ];;
             next
         | _ =>
             let* w := lift get_world in
             setPoolContext DEFAULT (default_schema w)
               [ ("user_id", userId_of req);
                 ("user_role", JStr USER);
                 ("reason", JStr "regular_user") ];;
             next
         end
     else next)
    (fun _ => next).

(** [setDefaultSchema] *)
Definition setDefaultSchema : Mreq unit :=
  let* req := get_req in
  if negb (truthy_str (poolContext_of req)) then
    let* w := lift get_world in
    setPoolContext DEFAULT (default_schema w)
      [ ("fallback", JBool true);
        ("reason", JStr "no_specific_context");
        ("user_role", JStr USER) ];;
    next
  else if truthy_str (schema_of req) && negb (truthy_str (req_schema req)) then
    put_req (mkRequest (authorization req) (body req) (session req)
                       (schema_of req) (clientContext req));;
    next
  else next.

(** [detectSchema]: the combined middleware. *)
Definition detectSchema `{L : Libs} : Mreq unit :=
  try_catch
    (detectSchemaFromApiToken;;
     (let* req := get_req in
      if negb (truthy_str (poolContext_of req)) then detectSchemaFromReturnUrl
      else ret tt);;
     (let* req := get_req in
      if negb (truthy_str (poolContext_of req)) then detectUserRole
      else ret tt);;
     setDefaultSchema)
    (fun _ => setDefaultSchema).

(** [getSchemaFromRequest] *)
Definition getSchemaFromRequest (req : Request) (w : World) : string :=
  if truthy_str (req_schema req) then default "" (req_schema req)
  else if truthy_str (schema_of req) then default "" (schema_of req)
  else default_schema w.

(** [getUserRole]: [req.session?.poolMetadata?.user_role || USER_ROLES.USER] *)
Definition getUserRole (req : Request) : jsval :=
  js_or (match poolMetadata_of req with
         | Some m => obj_get m "user_role"
         | None => JUndefined
         end)
        (JStr USER).

Definition isSystemAdmin (req : Request) : bool := is_str (getUserRole req) ADMIN.

Definition isClientOwner (req : Request) : bool := is_str (getUserRole req) OWNER.

Definition isTenantUser (req : Request) : bool := is_str (getUserRole req) USER.

End SchemaDetection.

(** ** Guards (services/poolService.js, middleware/auth.js) *)

Module PoolService.

(** [hasAdminContext] *)
Definition hasAdminContext (req : Request) : bool :=
  match poolContext_of req with
  | Some c => String.eqb c SchemaDetection.AUTH_INTERNAL
  | None => false
  end.

(** [isApiClient] *)
Definition isApiClient (req : Request) : bool :=
  match poolContext_of req with
  | Some c => String.eqb c SchemaDetection.API_CLIENT
  | None => false
  end.

(** The text of a role inside a message template. *)
Definition role_text (v : jsval) : string :=
  match v with JStr s => s | _ => "" end.

(** [requireAdminContext] *)
Definition requireAdminContext (req : Request) : error + unit :=
  if negb (hasAdminContext req) then
    inl (PlainError ("Admin privileges required. Current role: "
                     ++ role_text (SchemaDetection.getUserRole req)))
  else inr tt.

(** [requireSystemAdmin] *)
Definition requireSystemAdmin (req : Request) : error + unit :=
  if negb (SchemaDetection.isSystemAdmin req) then
    inl (PlainError ("System admin privileges required. Current role: "
                     ++ role_text (SchemaDetection.getUserRole req)))
  else inr tt.

(** [requireClientOwner] *)
Definition requireClientOwner (req : Request) : error + unit :=
  if negb (SchemaDetection.isClientOwner req) then
    inl (PlainError ("Client server owner privileges required. Current role: "
                     ++ role_text (SchemaDetection.getUserRole req)))
  else inr tt.

(** [requireApiContext] *)
Definition requireApiContext (req : Request) : error + unit :=
  if negb (isApiClient req) then
    inl (PlainError "Valid API client credentials required for this operation")
  else inr tt.

End PoolService.

Module AuthMiddleware.

(** What a route middleware does with a request: hand it on with
    [next()], or answer it with a status and a JSON message. *)
Inductive outcome : Type :=
| Next
| Respond (status : Z) (msg : string).

(** [hasRole(role)]: [req.session.role !== role] compares a session value
    with the string the route was built with. *)
Definition hasRole (role_required : string) (req : Request) : outcome :=
  match session req with
  | None => Respond 401 "Authentication required"
  | Some s =>
      if negb (truthy (userId s)) then Respond 401 "Authentication required"
      else if negb (is_str (role s) role_required) && negb (is_str (role s) "admin")
      then Respond 401 "Insufficient permissions"
      else Next
  end.

(** [isNotAdmin] *)
Definition isNotAdmin (req : Request) : error + outcome :=
  match session req with
  | None => inl TypeError
  | Some s =>
      if is_str (role s) "admin"
      then inr (Respond 401 "Only for current user. Data protected")
      else inr Next
  end.

(** [isAuthenticated] / [checkSession] *)
Definition isAuthenticated (req : Request) : outcome :=
  match session req with
  | None => Respond 401 "Authentication required"
  | Some s =>
      if negb (truthy (userId s)) then Respond 401 "Authentication required" else Next
  end.

End AuthMiddleware.

(** ** End users (repo/index.js, repositories/*.js, services/auth.js) *)

(** A [users] row as the driver hands it to JavaScript. *)
Definition user_obj (u : UserRow) : obj :=
  [ ("id", JStr (u_id u));
    ("name", JStr (u_name u));
    ("role", JStr (u_role u));
    ("email", JStr (u_email u));
    ("password_hash", JStr (u_password_hash u));
    ("created_at", JNum (u_created_at u));
    ("updated_at", JNum (u_created_at u)) ].

Definition user_rows (r : rows) : list UserRow :=
  match r with UserRows l => l | _ => [] end.

Definition session_rows (r : rows) : list SessionRow :=
  match r with SessionRows l => l | _ => [] end.

Module UserRepo.

(** repositories/userRepository.js [createUser]: a client of the pool,
    [SET search_path], the insert, [rows[0]]. *)
Definition createUser (p : Handle) (schemaName : string) (r : UserRow)
  : M (option UserRow) :=
  connect p;;
  query p (SetSearchPath schemaName);;
  let* rs := query p (InsertUser schemaName r) in
  ret (head (user_rows rs)).

(** repositories/userRepository.js [getUsers] *)
Definition getUsers (p : Handle) (schemaName : string) : M (list UserRow) :=
  connect p;;
  query p (SetSearchPath schemaName);;
  let* rs := query p (SelectUsers schemaName) in
  ret (user_rows rs).

(** repositories/sessionRepository.js [createSession] *)
Definition createSession (p : Handle) (schemaName : string) (r : SessionRow)
  : M (option SessionRow) :=
  let* rs := query p (InsertSession schemaName r) in
  ret (head (session_rows rs)).

End UserRepo.

Module RepoIndex.

(** [check(schema)]: the repository's own cache of pools. *)
Definition check (schema_name : string) : M Handle :=
  let* w := get_world in
  match pools w !! schema_name with
  | Some p => ret p
  | None =>
      try_catch
        (let* p := TenantPool.getPoolForSchema schema_name in
         let* w1 := get_world in
         set_pools (<[schema_name := p]> (pools w1));;
         ret p)
        (fun e =>
           let* w1 := get_world in
           set_pools (delete schema_name (pools w1));;
           throw e)
  end.

(** The text a value contributes to a text column: strings pass through;
    the model answers any other value with a database error. *)
Definition text_param (v : jsval) : M string :=
  match v with JStr s => ret s | _ => throw DatabaseError end.

(** [createUser(schema, [name, role, email, password_hash])], returning
    [{ lastID: user.id }]. *)
Definition createUser `{L : Libs} (schema_name : string)
    (name role email password_hash : jsval) : M string :=
  let* p := check schema_name in
  let* id := uuidv4 in
  let* n := text_param name in
  let* r := text_param role in
  let* e := text_param email in
  let* h := text_param password_hash in
  let* user := UserRepo.createUser p schema_name (mkUserRow id n r e h 0) in
  match user with
  | Some u => ret (u_id u)
  | None => throw TypeError
  end.

(** [getUserByEmail(schema, email)]: all users of the schema, then
    [users.find(u => u.email === email)]. *)
Definition getUserByEmail (schema_name : string) (email : jsval) : M (option UserRow) :=
  let* p := check schema_name in
  let* us := UserRepo.getUsers p schema_name in
  ret (List.find (fun u => is_str email (u_email u)) us).

(** [createSession(schema, [user_id])] *)
Definition createSession `{L : Libs} (schema_name : string) (user : string)
  : M (option SessionRow) :=
  let* p := check schema_name in
  let* id := uuidv4 in
  let* session_id := uuidv4 in
  UserRepo.createSession p schema_name (mkSessionRow id user session_id).

End RepoIndex.

Module AuthService.

(** [req.session?.schema || process.env.SEED_SCHEMA || "client_template"] *)
Definition schema_for (req : Request) (w : World) : string :=
  if truthy_str (schema_of req) then default "" (schema_of req)
  else SchemaDetection.default_schema w.

(** [removePasswordFromUser] *)
Definition removePasswordFromUser (o : obj) : obj :=
  without "password_hash" (without "password" o).

(** [createSuccessResponse(message, data)] with an object for [data]. *)
Definition createSuccessResponse (msg : string) (d : obj) : Response :=
  mkResponse msg (JObj d).

(** A property of a value that must be an object. *)
Definition field (v : jsval) (k : string) : error + jsval :=
  match v with
  | JObj o => inr (obj_get o k)
  | JUndefined | JNull => inl TypeError
  | _ => inr JUndefined
  end.

(** [login(req)] *)
Definition login `{L : Libs} : Mreq Response :=
  let* req := get_req in
  let credentials := obj_get (body req) "credentials" in
  let* w := lift get_world in
  let schema_name := schema_for req w in
  let* email := SchemaDetection.of_result (field credentials "email") in
  let* password := SchemaDetection.of_result (field credentials "password") in
  if negb (truthy email) || negb (truthy password)
  then throw (ValidationError "Email and password are required")
  else
    let* found := lift (RepoIndex.getUserByEmail schema_name email) in
    match found with
    | None => throw (AuthError "Invalid credentials")
    | Some user =>
        if negb (is_str password (u_password_hash user))
        then throw (AuthError "Invalid credentials")
        else
          match session req with
          | None => throw TypeError
          | Some s =>
              put_req (mkRequest (authorization req) (body req)
                         (Some (mkSession (JStr (u_id user)) (JStr (u_role user))
                                          (poolContext s) (schema s) (poolMetadata s)))
                         (req_schema req) (clientContext req));;
              let* sessionId := lift uuidv4 in
              let* _ := lift (RepoIndex.createSession schema_name (u_id user)) in
              ret (createSuccessResponse "Login successful"
                     (removePasswordFromUser (user_obj user)
                      ++ [("poolMetadata",
                           match poolMetadata s with
                           | Some m => JObj m
                           | None => JNull
                           end)]))
          end
    end.

(** [register(req)] *)
Definition register `{L : Libs} : Mreq Response :=
  let* req := get_req in
  let userData := body req in
  let* w := lift get_world in
  let schema_name := schema_for req w in
  if negb (truthy (obj_get userData "name")) || negb (truthy (obj_get userData "email"))
     || negb (truthy (obj_get userData "password"))
  then throw (ValidationError "Name, email, and password are required")
  else
    let* existingUser :=
      lift (RepoIndex.getUserByEmail schema_name (obj_get userData "email")) in
    match existingUser with
    | Some _ => throw (ValidationError "User with this email already exists")
    | None =>
        let role := js_or (obj_get userData "role") (JStr "user") in
        let* lastID :=
          lift (RepoIndex.createUser schema_name (obj_get userData "name") role
                  (obj_get userData "email") (obj_get userData "password")) in
        ret (createSuccessResponse "Registration successful" [("userId", JStr lastID)])
    end.

End AuthService.

(** ** Sessions across requests (express-session, as set up in server.js) *)

Module ExpressSession.

(** A session nothing has been written to. *)
Definition empty_session : Session :=
  mkSession JUndefined JUndefined None None None.

(** What arrives from the network: the session cookie of the browser
    agent, the [Authorization] header and the parsed body. *)
Record Incoming : Type := mkIncoming {
  cookie : string;
  in_authorization : option string;
  in_body : obj
}.

(** The outcome of serving one request up to and including
    [app.use(detectSchema)]. *)
Record Served : Type := mkServed {
  result : error + unit;
  seen : Request;                    (* the request as the routes see it *)
  store_after : gmap string Session;
  world_after : World
}.

(** The session middleware makes [req.session] the stored session of the
    cookie, or an empty one; the session object the handlers wrote to is
    what the store holds for that cookie afterwards. *)
Definition serve `{L : Libs} (i : Incoming) (store : gmap string Session) (w : World)
  : Served :=
  let req := mkRequest (in_authorization i) (in_body i)
                       (Some (default empty_session (store !! cookie i))) None None in
  match SchemaDetection.detectSchema (req, w) with
  | (r, (req', w')) =>
      mkServed r req'
               (match session req' with
                | Some s => <[cookie i := s]> store
                | None => store
                end)
               w'
  end.

End ExpressSession.
Export ExpressSession.

(** ** Conditions on a request seen by the resolver *)

(** The request [req] with the context of its session [s] replaced. *)
Definition with_context (req : Request) (s : Session) (context schema_name : string)
    (metadata : obj) : Request :=
  mkRequest (authorization req) (body req)
            (Some (mkSession (userId s) (role s) (Some context) (Some schema_name)
                             (Some metadata)))
            (req_schema req) (clientContext req).

(** The rows the redirect step scans. *)
Definition scanned_clients (d : Db) : list ClientRow :=
  auth_internal_client_servers d ++ public_client_servers d.

(** The [returnUrl] of the request, if any, selects no tenant. *)
Definition no_redirect_match (req : Request) (w : World) : Prop :=
  forall c,
    SchemaDetection.find_client (obj_get (body req) "returnUrl")
                                (scanned_clients (db w)) <> inr (Some c).

(** The request carries no bearer token that [verifyApiToken] accepts. *)
Definition no_valid_bearer `{L : Libs} (req : Request) (w : World) : Prop :=
  match SchemaDetection.bearer_token req with
  | None => True
  | Some t => exists e w1, ClientServerService.verifyApiToken t w = (inl e, w1)
  end.

(** ** Properties of effectful computations *)

(** Statements that define schemas and tables or set the search path:
    they leave the rows of every table alone. *)
Definition is_ddl (q : stmt) : bool :=
  match q with
  | SqlBegin | SqlCommit | CreateSchemaRaw _ | CreateSchemaIdent _
  | SetLocalSearchPath _ | CreateTableClientServers _ | CreateTableUsers _
  | CreateTableSessions _ | SetSearchPath _ => true
  | _ => false
  end.

(** [m] never changes the database or the environment. *)
Definition keeps_db {A} (m : M A) : Prop :=
  forall w, db (m w).2 = db w /\ env (m w).2 = env w.

(** [m] never throws a [ValidationError]. *)
Definition no_validation_error {A} (m : M A) : Prop :=
  forall w e w', m w = (inl e, w') -> isValidationError e = false.

(** Neither the plaintext secret nor its hash is a property of [o]. *)
Definition secret_free (o : obj) : Prop :=
  has_key o "client_secret" = false /\ has_key o "client_secret_hash" = false.

(** The properties of the [data] object of a response. *)
Definition data_obj (r : Response) : obj :=
  match data r with JObj o => o | _ => [] end.

(** ** Conditions on a presented token *)

(** The signing secret in force: [process.env.JWT_SECRET || "your-jwt-secret"]. *)
Definition token_secret (w : World) : string :=
  or_default (JWT_SECRET (env w)) "your-jwt-secret".

(** The token does not parse, or its signature is not the one the secret
    in force gives its claims. *)
Definition signature_invalid `{L : Libs} (token : string) (w : World) : Prop :=
  match jwt_decode token with
  | None => True
  | Some (p, sig) => sig <> hmac (token_secret w) p
  end.

(** The token carries an expiry that the clock has reached. *)
Definition lifetime_elapsed `{L : Libs} (token : string) (w : World) : Prop :=
  exists p sig e,
    jwt_decode token = Some (p, sig) /\ jwt_exp p = Some e /\ e <= clock w / 1000.

(** The token parses and its [type] claim is not ["api_token"]. *)
Definition wrong_type `{L : Libs} (token : string) : Prop :=
  exists p sig, jwt_decode token = Some (p, sig) /\ jwt_type p <> Some "api_token".

(** ** Concrete databases and process states used in examples *)

Definition empty_db : Db :=
  mkDb true (fun _ => false) [] [] AuthInternalCS ∅ ∅ 1700000000.

(** A server that refuses to create the registry table. *)
Definition broken_registry_db : Db :=
  mkDb true
       (fun q => match q with CreateTableClientServers _ => true | _ => false end)
       [] [] AuthInternalCS ∅ ∅ 1700000000.

(** A server that refuses to create any [users] table. *)
Definition broken_users_db : Db :=
  mkDb true
       (fun q => match q with CreateTableUsers _ => true | _ => false end)
       [] [] AuthInternalCS ∅ ∅ 1700000000.

Definition fresh_world (d : Db) : World :=
  mkWorld None ∅ ∅ 0 d [] 1700000000000 0 (mkEnv None None).

(** A small instance of the libraries: UUIDs are numbered, the hash of a
    secret is the secret behind a prefix, and four token strings decode. *)
Definition toy_payload (ty : option string) (exp : Z) : JwtPayload :=
  mkJwtPayload "client_a" "client_acme_1" ty 1600000000 (Some exp).

Definition toy_hmac (secret : string) (p : JwtPayload) : string :=
  (secret ++ "/" ++ jwt_client_id p ++ "/" ++ jwt_schema p)%string.

Definition toy_libs : Libs :=
  mkLibs (fun n => ("0000-" ++ decimal (Z.of_nat n))%string)
         (fun s n => ("$2b$12$" ++ s)%string)
         (fun s h => String.eqb h ("$2b$12$" ++ s)%string)
         toy_hmac
         (fun p sig => ("jwt." ++ jwt_client_id p ++ "." ++ sig)%string)
         (fun t =>
            if String.eqb t "tok.expired" then
              Some (toy_payload (Some "api_token") 1600086400,
                    toy_hmac "your-jwt-secret" (toy_payload (Some "api_token") 1600086400))
            else if String.eqb t "tok.forged" then
              Some (toy_payload (Some "api_token") 1800000000, "forged")
            else if String.eqb t "tok.session" then
              Some (toy_payload (Some "session") 1800000000,
                    toy_hmac "your-jwt-secret" (toy_payload (Some "session") 1800000000))
            else if String.eqb t "tok.good" then
              Some (toy_payload (Some "api_token") 1800000000,
                    toy_hmac "your-jwt-secret" (toy_payload (Some "api_token") 1800000000))
            else None).

(** The registry row of tenant Acme, bound to partition [client_acme_1]. *)
Definition acme_row : ClientRow :=
  mkClientRow "client_a" "$2b$12$s3cret" "Acme" "client_acme_1"
              ["https://acme.example/"] None "api-auth-server" 1600000000 1600000000.

(** The registry row of tenant Beta, bound to partition [client_beta_2]. *)
Definition beta_row : ClientRow :=
  mkClientRow "client_b" "$2b$12$hunter2" "Beta" "client_beta_2"
              ["https://beta.example/"] None "frontend-login-proxy" 1600000001 1600000001.

Definition two_tenant_db : Db :=
  mkDb true (fun _ => false) [acme_row; beta_row] [] AuthInternalCS ∅ ∅ 1700000000.

Definition request_with (auth : option string) (b : obj) (s : Session) : Request :=
  mkRequest auth b (Some s) None None.

(** The handshake request of Acme. *)
Definition acme_handshake : Request :=
  request_with None [("client_id", JStr "client_a"); ("client_secret", JStr "s3cret")]
               empty_session.

(** A registration request for Acme with no redirect target at all. *)
Definition acme_no_redirects : Request :=
  request_with None [("app_name", JStr "Acme"); ("allowed_return_urls", JArr [])]
               empty_session.

(** A registration request for Acme with one redirect target. *)
Definition acme_registration : Request :=
  request_with None
    [("app_name", JStr "Acme");
     ("allowed_return_urls", JArr [JStr "https://acme.example/"])]
    empty_session.

(** A registration request without a name. *)
Definition nameless_registration : Request :=
  request_with None
    [("app_name", JStr ""); ("allowed_return_urls", JArr [JStr "https://acme.example/"])]
    empty_session.

(** Registering Acme on an empty registry. *)
Definition acme_registration_run : (error + Response) * World :=
  ClientServerService.registerClientServer (L := toy_libs) acme_registration
    (fresh_world empty_db).

(** The request of a system administrator after [detectUserRole]. *)
Definition admin_request : Request :=
  request_with None []
    (mkSession (JStr "u-admin") (JStr "admin") (Some "auth_internal")
               (Some "auth_internal")
               (Some [ ("user_id", JStr "u-admin"); ("user_role", JStr "admin");
                       ("system_admin", JBool true) ])).

(** The request of a tenant owner after [detectUserRole]. *)
Definition owner_request : Request :=
  request_with None []
    (mkSession (JStr "u-owner") (JStr "user") (Some "auth_internal")
               (Some "auth_internal")
               (Some [ ("user_id", JStr "u-owner"); ("user_role", JStr "owner");
                       ("owned_clients", JStr "2") ])).

(** A request without a session, and one whose session has no user. *)
Definition sessionless_request : Request := mkRequest None [] None None None.

Definition anonymous_request : Request := request_with None [] empty_session.

(** A browser agent opens Beta's login page, then sends a request without
    any credential; another agent sends that same request. *)
Definition beta_login_visit : Incoming :=
  mkIncoming "sid-1" None [("returnUrl", JStr "https://beta.example/login")].

Definition plain_visit (sid : string) : Incoming := mkIncoming sid None [].

Definition after_beta_login : Served :=
  serve (L := toy_libs) beta_login_visit ∅ (fresh_world two_tenant_db).

Definition later_same_agent : Served :=
  serve (L := toy_libs) (plain_visit "sid-1")
        (store_after after_beta_login) (world_after after_beta_login).

Definition later_other_agent : Served :=
  serve (L := toy_libs) (plain_visit "sid-2")
        (store_after after_beta_login) (world_after after_beta_login).

(** The same agent then asks for Acme's login page. *)
Definition later_acme_visit : Served :=
  serve (L := toy_libs)
        (mkIncoming "sid-1" None [("returnUrl", JStr "https://acme.example/login")])
        (store_after after_beta_login) (world_after after_beta_login).

(** An unauthenticated request whose session still holds the context of
    an earlier redirect resolution to Beta. *)
Definition stale_beta_request : Request :=
  request_with None []
    (mkSession JUndefined JUndefined (Some "client_tenant") (Some "client_beta_2")
       (Some [ ("client_id", JStr "client_b"); ("app_name", JStr "Beta");
               ("client_mode", JStr "frontend-login-proxy");
               ("return_url", JStr "https://beta.example/login");
               ("allowed_return_urls", JArr [JStr "https://beta.example/"]);
               ("user_role", JStr "user") ])).

(** A request with Acme's token and a [returnUrl] of Beta. *)
Definition acme_token_beta_url : Request :=
  request_with (Some "Bearer tok.good")
               [("returnUrl", JStr "https://beta.example/login")] empty_session.

(** Alice registers with Beta and then logs in, on Beta's partition. *)
Definition beta_session : Session :=
  mkSession JUndefined JUndefined (Some "client_tenant") (Some "client_beta_2") None.

Definition alice_registration : Request :=
  request_with None
    [ ("name", JStr "Alice"); ("email", JStr "alice@beta.example");
      ("password", JStr "correct horse") ]
    beta_session.

Definition alice_login : Request :=
  request_with None
    [ ("credentials",
       JObj [("email", JStr "alice@beta.example"); ("password", JStr "correct horse")]) ]
    beta_session.

Definition after_alice_registration : (error + Response) * (Request * World) :=
  AuthService.register (L := toy_libs) (alice_registration, fresh_world two_tenant_db).

(** ** Further conditions and operations *)

(** A database that is reachable and refuses no statement. *)
Definition healthy (d : Db) : Prop :=
  reachable d = true /\ forall q, rejects d q = false.

(** The process state after the statements [l] have been sent. *)
Definition sent (w : World) (l : list (nat * stmt)) : World :=
  mkWorld (pool w) (schemas w) (pools w) (next_handle w) (db w) (log w ++ l)
          (clock w) (entropy w) (env w).

(** The statements [qs] as pool [p] sends them. *)
Definition by_pool (p : Handle) (qs : list stmt) : list (nat * stmt) :=
  map (fun q => (hid p, q)) qs.

(** What [getPoolForSchema] sends for a name it has not seen. *)
Definition tenant_provisioning (name : string) : list stmt :=
  CreateSchemaRaw name ::
  (if String.eqb name "client_template" then [] else TenantPool.ddl name)
  ++ [SetSearchPath name].

(** A server that refuses every [set search_path]. *)
Definition no_search_path_db : Db :=
  mkDb true
       (fun q => match q with SetSearchPath _ => true | _ => false end)
       [] [] AuthInternalCS ∅ ∅ 1700000000.

(** Tenant [c] lists a non-empty prefix of the URL [r]. *)
Definition allows (r : string) (c : ClientRow) : bool :=
  existsb (fun a => negb (String.eqb a "") && String.prefix a r) (allowed_return_urls c).

(** Some scanned tenant lists a non-empty URL. *)
Definition lists_some_url (cs : list ClientRow) : bool :=
  existsb (fun c => existsb (fun a => negb (String.eqb a "")) (allowed_return_urls c)) cs.

(** The metadata [detectSchemaFromReturnUrl] stores for a matching tenant. *)
Definition tenant_metadata (c : ClientRow) (returnUrl : jsval) : obj :=
  [ ("client_id", JStr (client_id c));
    ("app_name", JStr (app_name c));
    ("client_mode", JStr (client_mode c));
    ("return_url", returnUrl);
    ("allowed_return_urls", JArr (map JStr (allowed_return_urls c)));
    ("user_role", JStr SchemaDetection.USER) ].

(** A property of requests that depends only on whether a session is
    attached. *)
Definition session_blind (P : Request -> Prop) : Prop :=
  forall r r', (is_Some (session r) <-> is_Some (session r')) -> P r -> P r'.

(** [m] keeps the property [P] of the request, whether it returns or
    throws. *)
Definition keeps_req (P : Request -> Prop) {A} (m : Mreq A) : Prop :=
  forall req w, P req -> P (m (req, w)).2.1.

(** The number of registry rows owned by account [u]. *)
Definition owned_count (d : Db) (u : string) : nat :=
  length (filter (fun r => owned_by u r = true) (cs_of d)).

(** The metadata [detectUserRole] stores. *)
Definition admin_metadata (uid : jsval) : obj :=
  [ ("user_id", uid); ("user_role", JStr SchemaDetection.ADMIN);
    ("system_admin", JBool true) ].

Definition owner_metadata (uid : jsval) (n : nat) : obj :=
  [ ("user_id", uid); ("user_role", JStr SchemaDetection.OWNER);
    ("owned_clients", JStr (decimal (Z.of_nat n))) ].

Definition regular_metadata (uid : jsval) : obj :=
  [ ("user_id", uid); ("user_role", JStr SchemaDetection.USER);
    ("reason", JStr "regular_user") ].

(** The metadata [setDefaultSchema] stores. *)
Definition fallback_metadata : obj :=
  [ ("fallback", JBool true); ("reason", JStr "no_specific_context");
    ("user_role", JStr SchemaDetection.USER) ].

(** Carol owns Gamma; Dave owns nothing.  Both are logged in. *)
Definition gamma_row : ClientRow :=
  mkClientRow "client_g" "$2b$12$gamma" "Gamma" "client_gamma_3"
              ["https://gamma.example/"] (Some "u-carol") "frontend-login-proxy"
              1600000002 1600000002.

Definition owned_tenant_db : Db :=
  mkDb true (fun _ => false) [acme_row; gamma_row] [] AuthInternalCS ∅ ∅ 1700000000.

Definition logged_in (uid role_name : string) : Request :=
  request_with None [] (mkSession (JStr uid) (JStr role_name) None None None).

(** A server that refuses the ownership count. *)
Definition no_count_db : Db :=
  mkDb true
       (fun q => match q with CountClientServersOfUser _ => true | _ => false end)
       [acme_row; gamma_row] [] AuthInternalCS ∅ ∅ 1700000000.

(** The first row with client id [cid] of the registry table that the
    control-plane connection reads. *)
Definition registry_row (d : Db) (cid : string) : option ClientRow :=
  head (filter (fun r => String.eqb (client_id r) cid = true) (cs_of d)).

(** A handshake request with the wrong secret, and one for an unknown
    client. *)
Definition wrong_secret_handshake : Request :=
  request_with None [("client_id", JStr "client_a"); ("client_secret", JStr "guess")]
               empty_session.

Definition unknown_client_handshake : Request :=
  request_with None [("client_id", JStr "client_z"); ("client_secret", JStr "s3cret")]
               empty_session.

(** The owner column of a stored row: [user_id || null]. *)
Definition owner_of (uid : jsval) : option string :=
  match js_or uid JNull with JStr u => Some u | _ => None end.

(** The row a registration leaves in the registry for the name [n], the
    redirect targets [l] and the owner [uid], started in the state [w].
    The service has drawn three times (its client id, its secret and the
    salt of its hash) when the admin repository draws the client id, the
    secret and the salt of the row. *)
Definition registered_row `{L : Libs} (n : string) (l : list string) (uid : jsval)
    (mode : string) (w : World) : ClientRow :=
  mkClientRow ("client_" ++ drop_char "-" (uuid_of (3 + entropy w)))%string
              (bcrypt_hash (uuid_of (4 + entropy w)) (5 + entropy w))
              n
              ("client_" ++ sanitize (toLowerCase n) ++ "_" ++ decimal (clock w))%string
              l
              (owner_of uid)
              mode (db_time (db w)) (db_time (db w)).

(** Characters of an unquoted lower-case SQL identifier: [a-z0-9_]. *)
Definition ident_char (c : ascii) : bool :=
  let n := nat_of_ascii c in
  ((((97 <=? n) && (n <=? 122)) || ((48 <=? n) && (n <=? 57))) || (n =? 95))%nat.

Fixpoint all_chars (f : ascii -> bool) (s : string) : bool :=
  match s with
  | EmptyString => true
  | String c s' => f c && all_chars f s'
  end.

(** The rows of the registry owned by account [u], and a row as the
    owner-scoped queries return it. *)
Definition owned_rows (d : Db) (u : string) : list ClientRow :=
  filter (fun r => owned_by u r = true) (cs_of d).

Definition owner_view (r : ClientRow) : jsval :=
  JObj (project ClientServerService.owner_columns (row_obj r)).

(** Rows in descending order of [created_at]. *)
Fixpoint descending_from (x : Z) (l : list ClientRow) : bool :=
  match l with
  | [] => true
  | y :: l' => (created_at y <=? x) && descending_from (created_at y) l'
  end.

Definition descending (l : list ClientRow) : bool :=
  match l with
  | [] => true
  | x :: l' => descending_from (created_at x) l'
  end.

(** Carol asks for her tenants; Carol registers another one. *)
Definition carol_session : Session :=
  mkSession (JStr "u-carol") (JStr "user") None None None.

Definition carol_request : Request := request_with None [] carol_session.

Definition delta_data : obj :=
  [ ("app_name", JStr "Delta Shop");
    ("allowed_return_urls", JArr [JStr "https://delta.example/"]) ].

Definition delta_registration_run : (error + Response) * World :=
  ClientServerService.registerClientServerForUser (L := toy_libs) delta_data carol_request
    (fresh_world owned_tenant_db).

(** A registration whose name is a number. *)
Definition numeric_name_registration : Request :=
  request_with None
    [("app_name", JNum 7); ("allowed_return_urls", JArr [JStr "https://acme.example/"])]
    empty_session.

(** [m] draws no random number. *)
Definition keeps_entropy {A} (m : M A) : Prop :=
  forall w, entropy (m w).2 = entropy w.

(** [m] leaves the repository's own cache of pools as it is. *)
Definition keeps_index {A} (m : M A) : Prop :=
  forall w, pools (m w).2 = pools w.

(** The request after [login] has written the account into its session. *)
Definition logged_in_as (req : Request) (s : Session) (user : UserRow) : Request :=
  mkRequest (authorization req) (body req)
            (Some (mkSession (JStr (u_id user)) (JStr (u_role user))
                             (poolContext s) (schema s) (poolMetadata s)))
            (req_schema req) (clientContext req).

(** The row of the account whose e-mail address is [email], as [login]
    and [register] look it up in the partition [sn]. *)
Definition account (d : Db) (sn : string) (email : jsval) : option UserRow :=
  List.find (fun u => is_str email (u_email u)) (table_of (users d) sn).

(** The reply of a successful [login]. *)
Definition login_reply (user : UserRow) (s : Session) : Response :=
  AuthService.createSuccessResponse "Login successful"
    (AuthService.removePasswordFromUser (user_obj user)
     ++ [("poolMetadata",
          match poolMetadata s with Some m => JObj m | None => JNull end)]).

(** A request that registers Mallory with Beta and names its own role. *)
Definition mallory_registration : Request :=
  request_with None
    [ ("name", JStr "Mallory"); ("email", JStr "mallory@beta.example");
      ("password", JStr "pw"); ("role", JStr "admin") ]
    beta_session.

Definition after_mallory_registration : (error + Response) * (Request * World) :=
  AuthService.register (L := toy_libs) (mallory_registration, fresh_world two_tenant_db).

(** A server that refuses to store session rows. *)
Definition no_sessions_db (d : Db) : Db :=
  mkDb (reachable d)
       (fun q => match q with InsertSession _ _ => true | _ => rejects d q end)
       (auth_internal_client_servers d) (public_client_servers d)
       (unqualified_client_servers d) (users d) (sessions_tbl d) (db_time d).

Definition with_db (w : World) (d : Db) : World :=
  mkWorld (pool w) (schemas w) (pools w) (next_handle w) d (log w)
          (clock w) (entropy w) (env w).

(** Alice logs in with a wrong password; Bob, who has no account, tries
    to log in. *)
Definition alice_wrong_password : Request :=
  request_with None
    [ ("credentials",
       JObj [("email", JStr "alice@beta.example"); ("password", JStr "wrong")]) ]
    beta_session.

Definition bob_login : Request :=
  request_with None
    [ ("credentials",
       JObj [("email", JStr "bob@beta.example"); ("password", JStr "correct horse")]) ]
    beta_session.

(** ** Owners (services/ownerService.js) *)

Module OwnerService.

(** [verifyClientOwnership(req, clientId)]; both lookups are [SELECT *],
    so the row comes back whole. *)
Definition verifyClientOwnership (req : Request) (clientId : string) : M ClientRow :=
  let userId := userId_of req in
  if negb (truthy userId) then throw (PlainError "Authentication required")
  else if SchemaDetection.isSystemAdmin req then
    let* authPool := AuthPool.getPool in
    let* rs := query authPool (SelectClientServer clientId) in
    match client_rows rs with
    | [] => throw (PlainError "Client server not found")
    | r :: _ => ret r
    end
  else if SchemaDetection.isClientOwner req then
    let* authPool := AuthPool.getPool in
    let* rs := query authPool (SelectClientServerOfUser userId clientId) in
    match client_rows rs with
    | [] => throw (PlainError "Client server not found or access denied")
    | r :: _ => ret r
    end
  else throw (PlainError "Owner or admin privileges required").

End OwnerService.

(** The state after [login] has looked the account up on pool [p]. *)
Definition looked_up (req : Request) (w : World) (p : Handle) : World :=
  sent (sent w [(hid p, SetSearchPath (AuthService.schema_for req w))])
       [(hid p, SelectUsers (AuthService.schema_for req w))].

(** A server that cannot create Beta's [users] table. *)
Definition beta_broken_db : Db :=
  mkDb true
       (fun q => match q with
                 | CreateTableUsers n => String.eqb n "client_beta_2"
                 | _ => false
                 end)
       [acme_row; beta_row] [] AuthInternalCS ∅ ∅ 1700000000.

(** Carol as the resolver leaves her: owner on the control plane. *)
Definition carol_owner_request : Request :=
  request_with None []
    (mkSession (JStr "u-carol") (JStr "user") (Some "auth_internal")
               (Some "auth_internal") (Some (owner_metadata (JStr "u-carol") 1))).
(** ** Facts about the pools *)

(** Stepping through [bind] and [try_catch]. *)

Lemma bind_inr {S A B} (m : ST S A) (k : A -> ST S B) w a w' :
  m w = (inr a, w') -> bind m k w = k a w'.
Proof. intros H. unfold bind. by rewrite H. Qed.

Lemma bind_inl {S A B} (m : ST S A) (k : A -> ST S B) w e w' :
  m w = (inl e, w') -> bind m k w = (inl e, w').
Proof. intros H. unfold bind. by rewrite H. Qed.

Lemma try_catch_inr {S A} (m : ST S A) h w a w' :
  m w = (inr a, w') -> try_catch m h w = (inr a, w').
Proof. intros H. unfold try_catch. by rewrite H. Qed.

Lemma try_catch_inl {S A} (m : ST S A) h w e w' :
  m w = (inl e, w') -> try_catch m h w = h e w'.
Proof. intros H. unfold try_catch. by rewrite H. Qed.

Lemma bind_inv_inr {S A B} (m : ST S A) (k : A -> ST S B) w b w' :
  bind m k w = (inr b, w') ->
  exists a w1, m w = (inr a, w1) /\ k a w1 = (inr b, w').
Proof.
  unfold bind. destruct (m w) as [[e | a] w1]; intros H; [discriminate |].
  by exists a, w1.
Qed.

Lemma bind_inv_inl {S A B} (m : ST S A) (k : A -> ST S B) w e w' :
  bind m k w = (inl e, w') ->
  m w = (inl e, w') \/ exists a w1, m w = (inr a, w1) /\ k a w1 = (inl e, w').
Proof.
  unfold bind. destruct (m w) as [[e0 | a] w1]; intros H.
  - left. by inversion H.
  - right. by exists a, w1.
Qed.

Lemma try_catch_inv_inr {S A} (m : ST S A) h w a w' :
  try_catch m h w = (inr a, w') ->
  m w = (inr a, w') \/ exists e w1, m w = (inl e, w1) /\ h e w1 = (inr a, w').
Proof.
  unfold try_catch. destruct (m w) as [[e | a0] w1]; intros H.
  - right. by exists e, w1.
  - left. exact H.
Qed.

Lemma try_catch_inv_inl {S A} (m : ST S A) h w e w' :
  try_catch m h w = (inl e, w') ->
  exists e0 w1, m w = (inl e0, w1) /\ h e0 w1 = (inl e, w').
Proof.
  unfold try_catch. destruct (m w) as [[e0 | a0] w1]; intros H; [| discriminate].
  by exists e0, w1.
Qed.

Ltac step := erewrite bind_inr by reflexivity; cbv beta.

Section PoolFacts.

(** The part of the process state that statements sent to the database
    leave alone. *)
Definition same_caches (w w' : World) : Prop :=
  pool w' = pool w /\ schemas w' = schemas w /\ pools w' = pools w /\
  next_handle w' = next_handle w /\ env w' = env w.

Lemma same_caches_refl w : same_caches w w.
Proof. by repeat split. Qed.

Lemma same_caches_trans w1 w2 w3 :
  same_caches w1 w2 -> same_caches w2 w3 -> same_caches w1 w3.
Proof.
  intros (a1 & a2 & a3 & a4 & a5) (b1 & b2 & b3 & b4 & b5).
  repeat split; congruence.
Qed.

Lemma answer_rejects d q r d' :
  answer d q = inr (r, d') -> rejects d' = rejects d /\ reachable d' = reachable d.
Proof.
  destruct q; simpl; intros H;
    repeat match type of H with
           | context [match ?x with _ => _ end] => destruct x eqn:?; simpl in H
           | context [if ?x then _ else _] => destruct x eqn:?; simpl in H
           end;
    try discriminate; inversion H; subst; clear H; done.
Qed.

Lemma query_frame p q w :
  same_caches w (query p q w).2 /\
  rejects (db (query p q w).2) = rejects (db w) /\
  reachable (db (query p q w).2) = reachable (db w).
Proof.
  unfold query. destruct (rejects (db w) q) eqn:Hr; simpl.
  - by repeat split.
  - destruct (answer (db w) q) as [e | [r d']] eqn:Ha; simpl.
    + by repeat split.
    + apply answer_rejects in Ha as [? ?]. by repeat split.
Qed.

Lemma query_rejected p q w :
  rejects (db w) q = true -> (query p q w).1 = inl DatabaseError.
Proof. intros H. unfold query. by rewrite H. Qed.

(** A batch that contains a statement the server refuses does not run to
    completion, and leaves the caches as they were. *)
Lemma query_each_rejected p qs : forall w,
  Exists (fun q => rejects (db w) q = true) qs ->
  (exists e, (query_each p qs w).1 = inl e) /\ same_caches w (query_each p qs w).2.
Proof.
  induction qs as [| q qs IH]; intros w Hex.
  - inversion Hex.
  - simpl. unfold bind.
    destruct (query_frame p q w) as (Hc & Hrej & _).
    destruct (query p q w) as [[e | r] w1] eqn:Hq; simpl in *.
    + split; [by exists e | done].
    + assert (Hex' : Exists (fun q0 => rejects (db w1) q0 = true) qs).
      { inversion Hex as [? ? Hhd | ? ? Htl]; subst.
        - pose proof (query_rejected p q w Hhd) as Hbad.
          rewrite Hq in Hbad. discriminate.
        - rewrite Hrej. exact Htl. }
      destruct (IH w1 Hex') as [He Hc'].
      split; [exact He | eapply same_caches_trans; eassumption].
Qed.

Lemma query_each_frame p qs : forall w, same_caches w (query_each p qs w).2.
Proof.
  induction qs as [| q qs IH]; intros w; simpl.
  - apply same_caches_refl.
  - unfold bind.
    destruct (query_frame p q w) as (Hc & _ & _).
    destruct (query p q w) as [[e | r] w1] eqn:Hq; simpl in *; [done |].
    eapply same_caches_trans; [exact Hc | apply IH].
Qed.

End PoolFacts.

(** ** Provisioning failures and the two caches *)

Section Provisioning.

(** Tenant pools: when a provisioning statement is refused,
    [getPoolForSchema] fails and [schemas] is left as it was, so the next
    call for the same name provisions again. *)
Lemma getPoolForSchema_failure_not_cached (name : string) (w : World) :
  schemas w !! name = None ->
  reachable (db w) = true ->
  Exists (fun q => rejects (db w) q = true)
         (CreateSchemaRaw name ::
          (if String.eqb name "client_template" then [] else TenantPool.ddl name)) ->
  exists e w',
    TenantPool.getPoolForSchema name w = (inl e, w') /\
    schemas w' = schemas w /\ schemas w' !! name = None.
Proof.
  intros Hnone Hreach Hex.
  unfold TenantPool.getPoolForSchema. step. rewrite Hnone. step.
  set (h := mkHandle (next_handle w)).
  set (w1 := mkWorld _ _ _ _ _ _ _ _ _).
  erewrite (bind_inr (connect h)) by (unfold connect; simpl; by rewrite Hreach).
  assert (Hfail : exists e w2, TenantPool.initSchema h name w1 = (inl e, w2)
                              /\ same_caches w1 w2).
  { unfold TenantPool.initSchema.
    pose proof (query_frame h (CreateSchemaRaw name) w1) as (Hc1 & Hrej1 & _).
    destruct (query h (CreateSchemaRaw name) w1) as [[e | r] w2] eqn:Hq;
      cbn [fst snd] in *.
    { exists e, w2. split; [by erewrite bind_inl | done]. }
    erewrite bind_inr by eassumption.
    inversion Hex as [? ? Hhd | ? ? Htl]; subst.
    { pose proof (query_rejected h (CreateSchemaRaw name) w1 Hhd) as Hbad.
      rewrite Hq in Hbad. discriminate. }
    destruct (String.eqb name "client_template"); [inversion Htl |].
    assert (Hex2 : Exists (fun q => rejects (db w2) q = true) (TenantPool.ddl name)).
    { rewrite Hrej1. exact Htl. }
    destruct (query_each_rejected h _ w2 Hex2) as [[e He] Hc2].
    destruct (query_each h (TenantPool.ddl name) w2) as [[e' | u] w3];
      cbn [fst snd] in *; [| discriminate].
    exists e', w3. split; [done |]. eapply same_caches_trans; eassumption. }
  destruct Hfail as (e & w2 & Hinit & (_ & Hs & _)).
  exists e, w2. split; [by erewrite bind_inl | ].
  rewrite Hs. by split.
Qed.

Lemma getPoolForSchema_failure_not_cached_witness :
  exists e w',
    TenantPool.getPoolForSchema "client_acme_1" (fresh_world broken_users_db) = (inl e, w') /\
    schemas w' = schemas (fresh_world broken_users_db) /\
    schemas w' !! "client_acme_1" = None.
Proof.
  apply getPoolForSchema_failure_not_cached; [reflexivity | reflexivity |].
  do 4 apply Exists_cons_tl. apply Exists_cons_hd. reflexivity.
Defined.

(** C7, control-plane pool.  [getPool] stores the new pool in the
    module-level variable before it connects and provisions: when a
    provisioning statement is refused the call fails, yet the handle stays
    cached, and the next call returns it without sending any statement. *)
Theorem getPool_keeps_handle_after_failed_provisioning (w : World) :
  pool w = None ->
  reachable (db w) = true ->
  Exists (fun q => rejects (db w) q = true) (AuthPool.ddl "auth_internal") ->
  exists e w',
    AuthPool.getPool w = (inl e, w') /\
    pool w' = Some (mkHandle (next_handle w)) /\
    AuthPool.getPool w' = (inr (mkHandle (next_handle w)), w').
Proof.
  intros Hnone Hreach Hex.
  unfold AuthPool.getPool at 1. step. rewrite Hnone. step. step.
  set (h := mkHandle (next_handle w)).
  set (w1 := mkWorld _ _ _ _ _ _ _ _ _).
  erewrite (bind_inr (connect h)) by (unfold connect; simpl; by rewrite Hreach).
  assert (Hinit : AuthPool.initSchema w1 = query_each h (AuthPool.ddl "auth_internal") w1)
    by reflexivity.
  assert (Hex1 : Exists (fun q => rejects (db w1) q = true) (AuthPool.ddl "auth_internal"))
    by exact Hex.
  destruct (query_each_rejected h _ w1 Hex1) as [[e He] (Hp & _)].
  destruct (query_each h (AuthPool.ddl "auth_internal") w1) as [[e' | u] w2] eqn:Hq;
    cbn [fst snd] in *; [| discriminate].
  exists e', w2. split; [by erewrite bind_inl |]. split; [exact Hp |].
  unfold AuthPool.getPool. step. by rewrite Hp.
Qed.

Lemma getPool_keeps_handle_after_failed_provisioning_witness :
  exists e w',
    AuthPool.getPool (fresh_world broken_registry_db) = (inl e, w') /\
    pool w' = Some (mkHandle 0) /\
    AuthPool.getPool w' = (inr (mkHandle 0), w').
Proof.
  apply (getPool_keeps_handle_after_failed_provisioning (fresh_world broken_registry_db));
    [reflexivity | reflexivity |].
  do 3 apply Exists_cons_tl. apply Exists_cons_hd. reflexivity.
Defined.

End Provisioning.

(** ** Which computations touch the tables, and which can reject input *)


Lemma keeps_db_ret {A} (a : A) : keeps_db (ret a).
Proof. by intros w. Qed.

Lemma keeps_db_throw {A} e : keeps_db (throw (S := World) (A := A) e).
Proof. by intros w. Qed.

Lemma keeps_db_bind {A B} (m : M A) (k : A -> M B) :
  keeps_db m -> (forall a, keeps_db (k a)) -> keeps_db (bind m k).
Proof.
  intros Hm Hk w. unfold bind. destruct (Hm w) as [Hd He].
  destruct (m w) as [[e | a] w1]; simpl in *; [done |].
  destruct (Hk a w1) as [Hd' He']. split; congruence.
Qed.

Lemma keeps_db_get_world : keeps_db get_world.
Proof. by intros w. Qed.

Lemma keeps_db_set_pool o : keeps_db (set_pool o).
Proof. by intros w. Qed.

Lemma keeps_db_set_schemas s : keeps_db (set_schemas s).
Proof. by intros w. Qed.

Lemma keeps_db_new_Pool : keeps_db new_Pool.
Proof. by intros w. Qed.

Lemma keeps_db_connect p : keeps_db (connect p).
Proof. intros w. unfold connect. by destruct (reachable (db w)). Qed.

Lemma keeps_db_try_catch {A} (m : M A) h :
  keeps_db m -> (forall e, keeps_db (h e)) -> keeps_db (try_catch m h).
Proof.
  intros Hm Hh w. unfold try_catch. destruct (Hm w) as [Hd He].
  destruct (m w) as [[e | a] w1]; simpl in *; [| done].
  destruct (Hh e w1) as [Hd' He']. split; congruence.
Qed.

Lemma keeps_db_query_ddl p q : is_ddl q = true -> keeps_db (query p q).
Proof.
  intros Hq w. unfold query. destruct (rejects (db w) q); [done |].
  destruct q; try discriminate; done.
Qed.

Lemma keeps_db_query_each p qs :
  forallb is_ddl qs = true -> keeps_db (query_each p qs).
Proof.
  induction qs as [| q qs IH]; simpl; intros H.
  - apply keeps_db_ret.
  - apply andb_prop in H as [Hq Hqs].
    apply keeps_db_bind; [by apply keeps_db_query_ddl | intros _; by apply IH].
Qed.

Lemma keeps_db_getPool : keeps_db AuthPool.getPool.
Proof.
  unfold AuthPool.getPool.
  apply keeps_db_bind; [apply keeps_db_get_world |]. intros w.
  destruct (pool w); [apply keeps_db_ret |].
  apply keeps_db_bind; [apply keeps_db_new_Pool |]. intros p.
  apply keeps_db_bind; [apply keeps_db_set_pool |]. intros _.
  apply keeps_db_bind; [apply keeps_db_connect |]. intros _.
  apply keeps_db_bind; [| intros _; apply keeps_db_ret].
  unfold AuthPool.initSchema.
  apply keeps_db_bind; [apply keeps_db_get_world |]. intros w1.
  destruct (pool w1); [by apply keeps_db_query_each | apply keeps_db_throw].
Qed.

Lemma keeps_db_getPoolForSchema name : keeps_db (TenantPool.getPoolForSchema name).
Proof.
  unfold TenantPool.getPoolForSchema.
  apply keeps_db_bind; [apply keeps_db_get_world |]. intros w.
  destruct (schemas w !! name); [apply keeps_db_ret |].
  apply keeps_db_bind; [apply keeps_db_new_Pool |]. intros p.
  apply keeps_db_bind; [apply keeps_db_connect |]. intros _.
  apply keeps_db_bind.
  { unfold TenantPool.initSchema.
    apply keeps_db_bind; [by apply keeps_db_query_ddl |]. intros _.
    destruct (String.eqb name "client_template");
      [apply keeps_db_ret | by apply keeps_db_query_each]. }
  intros _. apply keeps_db_bind; [apply keeps_db_get_world |]. intros w1.
  apply keeps_db_bind; [apply keeps_db_set_schemas |]. intros _.
  apply keeps_db_bind; [by apply keeps_db_query_ddl | intros _; apply keeps_db_ret].
Qed.

Lemma keeps_db_run {A} (m : M A) w r w' : keeps_db m -> m w = (r, w') -> db w' = db w.
Proof. intros Hm Hr. destruct (Hm w) as [Hd _]. by rewrite Hr in Hd. Qed.

Lemma keeps_env_run {A} (m : M A) w r w' : keeps_db m -> m w = (r, w') -> env w' = env w.
Proof. intros Hm Hr. destruct (Hm w) as [_ He]. by rewrite Hr in He. Qed.

Lemma keeps_db_getPoolForRequest req : keeps_db (getPoolForRequest req).
Proof.
  unfold getPoolForRequest. apply keeps_db_try_catch.
  - unfold resolvePoolFromSession.
    apply keeps_db_bind; [apply keeps_db_get_world |]. intros w.
    destruct (String.eqb _ _); [apply keeps_db_getPool | apply keeps_db_getPoolForSchema].
  - intros _. apply keeps_db_bind; [apply keeps_db_get_world |]. intros w.
    apply keeps_db_getPoolForSchema.
Qed.

(** Neither the pools nor the database draw random numbers. *)
Lemma keeps_entropy_ret {A} (a : A) : keeps_entropy (ret a).
Proof. by intros w. Qed.

Lemma keeps_entropy_throw {A} e : keeps_entropy (throw (S := World) (A := A) e).
Proof. by intros w. Qed.

Lemma keeps_entropy_bind {A B} (m : M A) (k : A -> M B) :
  keeps_entropy m -> (forall a, keeps_entropy (k a)) -> keeps_entropy (bind m k).
Proof.
  intros Hm Hk w. unfold bind. pose proof (Hm w) as H1.
  destruct (m w) as [[e | a] w1]; simpl in *; [done |].
  pose proof (Hk a w1) as H2. congruence.
Qed.

Lemma keeps_entropy_query p q : keeps_entropy (query p q).
Proof.
  intros w. unfold query. destruct (rejects (db w) q); [done |].
  by destruct (answer (db w) q) as [e | [r d']].
Qed.

Lemma keeps_entropy_query_each p qs : keeps_entropy (query_each p qs).
Proof.
  induction qs as [| q qs IH]; simpl; [apply keeps_entropy_ret |].
  apply keeps_entropy_bind; [apply keeps_entropy_query | intros _; exact IH].
Qed.

Lemma keeps_entropy_connect p : keeps_entropy (connect p).
Proof. intros w. unfold connect. by destruct (reachable (db w)). Qed.

Lemma keeps_entropy_getPool : keeps_entropy AuthPool.getPool.
Proof.
  unfold AuthPool.getPool.
  apply keeps_entropy_bind; [by intros w |]. intros w.
  destruct (pool w); [apply keeps_entropy_ret |].
  apply keeps_entropy_bind; [by intros w0 |]. intros p.
  apply keeps_entropy_bind; [by intros w0 |]. intros _.
  apply keeps_entropy_bind; [apply keeps_entropy_connect |]. intros _.
  apply keeps_entropy_bind; [| intros _; apply keeps_entropy_ret].
  unfold AuthPool.initSchema.
  apply keeps_entropy_bind; [by intros w0 |]. intros w1.
  destruct (pool w1); [apply keeps_entropy_query_each | apply keeps_entropy_throw].
Qed.

Lemma keeps_entropy_run {A} (m : M A) w r w' :
  keeps_entropy m -> m w = (r, w') -> entropy w' = entropy w.
Proof. intros Hm Hr. pose proof (Hm w) as H. by rewrite Hr in H. Qed.

(** Reading the registry does not change it. *)
Lemma keeps_db_query_select p q :
  match q with
  | SelectAllClientServers | CountClientServersOfUser _ | SelectClientServer _
  | SelectClientServersOfUser _ | SelectClientServerOfUser _ _ | SelectUsers _ => True
  | _ => False
  end -> keeps_db (query p q).
Proof.
  intros Hq w. unfold query. destruct (rejects (db w) q); [done |].
  destruct q; try contradiction; simpl; try done;
    destruct uid; done.
Qed.

Lemma nve_ret {A} (a : A) : no_validation_error (ret a).
Proof. intros w e w' H. discriminate. Qed.

Lemma nve_throw {A} e : isValidationError e = false -> no_validation_error (throw (S := World) (A := A) e).
Proof. intros He w e' w' H. inversion H; by subst. Qed.

Lemma nve_bind {A B} (m : M A) (k : A -> M B) :
  no_validation_error m -> (forall a, no_validation_error (k a)) ->
  no_validation_error (bind m k).
Proof.
  intros Hm Hk w e w' H.
  apply bind_inv_inl in H as [H | (a & w1 & _ & H)]; [by eapply Hm | by eapply Hk].
Qed.

Lemma nve_total {A} (m : M A) :
  (forall w, exists a w', m w = (inr a, w')) -> no_validation_error m.
Proof. intros Hm w e w' H. destruct (Hm w) as (a & w1 & Ha). congruence. Qed.

Ltac nve_pure := apply nve_total; intros ?; eexists _, _; reflexivity.

Lemma nve_connect p : no_validation_error (connect p).
Proof.
  intros w e w' H. unfold connect in H.
  destruct (reachable (db w)); inversion H; by subst.
Qed.

Lemma answer_no_validation d q e : answer d q = inl e -> e = DatabaseError.
Proof.
  destruct q; simpl; intros H;
    repeat match type of H with
           | context [match ?x with _ => _ end] => destruct x; simpl in H
           | context [if ?x then _ else _] => destruct x; simpl in H
           end; try discriminate; by inversion H.
Qed.

Lemma nve_query p q : no_validation_error (query p q).
Proof.
  intros w e w' H. unfold query in H.
  destruct (rejects (db w) q); [inversion H; by subst |].
  destruct (answer (db w) q) as [e0 | [r d']] eqn:Ha; [| discriminate].
  apply answer_no_validation in Ha. inversion H; by subst.
Qed.

Lemma nve_query_each p qs : no_validation_error (query_each p qs).
Proof.
  induction qs as [| q qs IH]; simpl.
  - apply nve_ret.
  - apply nve_bind; [apply nve_query | intros _; apply IH].
Qed.

Lemma nve_getPool : no_validation_error AuthPool.getPool.
Proof.
  unfold AuthPool.getPool.
  apply nve_bind; [nve_pure |]. intros w.
  destruct (pool w); [apply nve_ret |].
  apply nve_bind; [nve_pure |]. intros p.
  apply nve_bind; [nve_pure |]. intros _.
  apply nve_bind; [apply nve_connect |]. intros _.
  apply nve_bind; [| intros _; apply nve_ret].
  unfold AuthPool.initSchema.
  apply nve_bind; [nve_pure |]. intros w1.
  destruct (pool w1); [apply nve_query_each | by apply nve_throw].
Qed.

Lemma nve_getPoolForSchema name : no_validation_error (TenantPool.getPoolForSchema name).
Proof.
  unfold TenantPool.getPoolForSchema.
  apply nve_bind; [nve_pure |]. intros w.
  destruct (schemas w !! name); [apply nve_ret |].
  apply nve_bind; [nve_pure |]. intros p.
  apply nve_bind; [apply nve_connect |]. intros _.
  apply nve_bind.
  { unfold TenantPool.initSchema.
    apply nve_bind; [apply nve_query |]. intros _.
    destruct (String.eqb name "client_template"); [apply nve_ret | apply nve_query_each]. }
  intros _. apply nve_bind; [nve_pure |]. intros w1.
  apply nve_bind; [nve_pure |]. intros _.
  apply nve_bind; [apply nve_query | intros _; apply nve_ret].
Qed.

Lemma nve_try_catch {A} (m : M A) h :
  (forall e, no_validation_error (h e)) -> no_validation_error (try_catch m h).
Proof.
  intros Hh w e w' H.
  apply try_catch_inv_inl in H as (e0 & w1 & _ & H). by eapply Hh.
Qed.

Lemma nve_getPoolForRequest req : no_validation_error (getPoolForRequest req).
Proof.
  unfold getPoolForRequest. apply nve_try_catch. intros _.
  apply nve_bind; [nve_pure |]. intros w. apply nve_getPoolForSchema.
Qed.


(** ** API tokens *)

Section Tokens.

Context `{L : Libs}.

Lemma verifyApiToken_empty w :
  ClientServerService.verifyApiToken "" w = (inl (AuthError "API token is required"), w).
Proof. reflexivity. Qed.

(** The three ways [jwt.verify] or the type check can refuse a token all
    end in an [AuthError], before the database is touched. *)
Lemma verifyApiToken_refused (token : string) (w : World) :
  signature_invalid token w \/ lifetime_elapsed token w \/ wrong_type token ->
  exists msg, ClientServerService.verifyApiToken token w = (inl (AuthError msg), w).
Proof.
  intros Hbad.
  destruct (String.eqb token "") eqn:Hempty.
  { apply String.eqb_eq in Hempty. subst. eexists. apply verifyApiToken_empty. }
  unfold ClientServerService.verifyApiToken, try_catch. rewrite Hempty.
  unfold bind at 1. unfold ClientServerService.jwt_secret at 1.
  fold (token_secret w).
  unfold bind at 1. unfold jwt_verify.
  destruct (jwt_decode token) as [[p sig] |] eqn:Hdec.
  2:{ eexists. reflexivity. }
  destruct (String.eqb sig (hmac (token_secret w) p)) eqn:Hsig.
  2:{ eexists. reflexivity. }
  apply String.eqb_eq in Hsig.
  unfold bind at 1. unfold jwt_clock at 1.
  destruct (jwt_exp p) as [e |] eqn:Hexp.
  - destruct (e <=? clock w / 1000) eqn:Hle.
    { eexists. reflexivity. }
    apply Z.leb_gt in Hle.
    destruct Hbad as [Hinv | [Hel | Hty]].
    + unfold signature_invalid in Hinv. rewrite Hdec in Hinv. contradiction.
    + destruct Hel as (p' & sig' & e' & Hdec' & Hexp' & Hle').
      rewrite Hdec in Hdec'. inversion Hdec'; subst. rewrite Hexp in Hexp'.
      inversion Hexp'; subst. lia.
    + destruct Hty as (p' & sig' & Hdec' & Hty).
      rewrite Hdec in Hdec'. inversion Hdec'; subst.
      unfold ret at 1. cbv beta iota.
      destruct (jwt_type p') as [t |] eqn:Ht; [| eexists; reflexivity].
      destruct (String.eqb t "api_token") eqn:Heq; [| eexists; reflexivity].
      apply String.eqb_eq in Heq. subst. contradiction.
  - destruct Hbad as [Hinv | [Hel | Hty]].
    + unfold signature_invalid in Hinv. rewrite Hdec in Hinv. contradiction.
    + destruct Hel as (p' & sig' & e' & Hdec' & Hexp' & Hle').
      rewrite Hdec in Hdec'. inversion Hdec'; subst. congruence.
    + destruct Hty as (p' & sig' & Hdec' & Hty).
      rewrite Hdec in Hdec'. inversion Hdec'; subst.
      unfold ret at 1. cbv beta iota.
      destruct (jwt_type p') as [t |] eqn:Ht; [| eexists; reflexivity].
      destruct (String.eqb t "api_token") eqn:Heq; [| eexists; reflexivity].
      apply String.eqb_eq in Heq. subst. contradiction.
Qed.

(** [repo.getClientServer] is not a function: the call throws before any
    statement is sent. *)
Lemma getClientServer_throws p cid w :
  Repo.getClientServer p cid w = (inl TypeError, w).
Proof. reflexivity. Qed.

Lemma jwt_verify_signed tok w pl :
  jwt_decode tok = Some (pl, hmac (token_secret w) pl) ->
  jwt_verify tok (token_secret w) w
  = (match jwt_exp pl with
     | Some e => if e <=? clock w / 1000 then inl TokenExpiredError else inr pl
     | None => inr pl
     end, w).
Proof.
  intros H. unfold jwt_verify. rewrite H, String.eqb_refl.
  unfold bind, jwt_clock, ret, throw.
  destruct (jwt_exp pl) as [e |]; [destruct (e <=? clock w / 1000) |]; reflexivity.
Qed.

(** What [verifyApiToken] answers to a token that carries a valid
    signature, once the control-plane pool is there. *)
Lemma verifyApiToken_signed tok w pl p w1 :
  tok <> "" ->
  jwt_decode tok = Some (pl, hmac (token_secret w) pl) ->
  AuthPool.getPool w = (inr p, w1) ->
  ClientServerService.verifyApiToken tok w
  = if match jwt_exp pl with Some e => e <=? clock w / 1000 | None => false end
    then (inl (AuthError "Invalid or expired token"), w)
    else if negb (match jwt_type pl with
                  | Some t => String.eqb t "api_token"
                  | None => false
                  end)
    then (inl (AuthError "Invalid token type"), w)
    else (inl TypeError, w1).
Proof.
  intros Hne Hdec Hp.
  apply String.eqb_neq in Hne.
  pose proof (jwt_verify_signed tok w pl Hdec) as Hv.
  unfold ClientServerService.verifyApiToken. rewrite Hne.
  assert (Hs : ClientServerService.jwt_secret w = (inr (token_secret w), w))
    by reflexivity.
  destruct (match jwt_exp pl with Some e => e <=? clock w / 1000 | None => false end)
    eqn:Hexp.
  - erewrite try_catch_inl;
      [| erewrite bind_inr by exact Hs; cbv beta;
         erewrite bind_inl; [reflexivity |]; rewrite Hv;
         destruct (jwt_exp pl); [by rewrite Hexp | discriminate]].
    reflexivity.
  - assert (Hv' : jwt_verify tok (token_secret w) w = (inr pl, w)).
    { rewrite Hv. destruct (jwt_exp pl); [by rewrite Hexp | done]. }
    destruct (negb _) eqn:Hty.
    + erewrite try_catch_inl;
        [| erewrite bind_inr by exact Hs; cbv beta;
           erewrite bind_inr by exact Hv'; cbv beta; rewrite Hty; reflexivity].
      reflexivity.
    + erewrite try_catch_inl;
        [| erewrite bind_inr by exact Hs; cbv beta;
           erewrite bind_inr by exact Hv'; cbv beta; rewrite Hty;
           erewrite bind_inr by exact Hp; cbv beta;
           erewrite bind_inl; [reflexivity |]; apply getClientServer_throws].
      reflexivity.
Qed.

(** The handshake with well-formed credentials, once the control-plane
    pool is there. *)
Lemma handshake_run req w cid sec p w1 :
  obj_get (body req) "client_id" = JStr cid ->
  obj_get (body req) "client_secret" = JStr sec ->
  cid <> "" -> sec <> "" ->
  AuthPool.getPool w = (inr p, w1) ->
  ClientServerService.authenticateClientServer req w = (inl TypeError, w1).
Proof.
  intros Hcid Hsec Hc Hs Hp.
  unfold ClientServerService.authenticateClientServer. rewrite Hcid, Hsec.
  apply String.eqb_neq in Hc, Hs. rewrite Hc, Hs. cbn [orb].
  erewrite bind_inr by exact Hp. cbv beta.
  erewrite bind_inl; [reflexivity |]. apply getClientServer_throws.
Qed.

Lemma authenticateClientServer_never_replies (req : Request) (w : World) resp w' :
  ClientServerService.authenticateClientServer req w <> (inr resp, w').
Proof.
  unfold ClientServerService.authenticateClientServer.
  destruct (obj_get (body req) "client_id") as [| | b | n | cid | xs | o];
    destruct (obj_get (body req) "client_secret") as [| | b' | n' | sec | xs' | o'];
    try (intros H; cbv [truthy negb orb] in H;
         repeat match type of H with
                | context [if ?c then _ else _] => destruct c
                end; discriminate).
  destruct (String.eqb cid "" || String.eqb sec ""); [discriminate |].
  intros H.
  apply bind_inv_inr in H as (p & w1 & _ & H).
  apply bind_inv_inr in H as (found & w2 & H2 & _).
  discriminate.
Qed.

End Tokens.

(** C8.  [verifyApiToken] answers a token whose lifetime has elapsed, whose
    signature is invalid, or whose type claim is not ["api_token"] with an
    [AuthError], and leaves the process state as it was.  The handshake,
    whose call of [jwt.sign] asks for a lifetime of 24 hours, never gets as
    far as signing: with a well-formed client id and secret it throws a
    [TypeError] as soon as the control-plane pool is there, whatever the
    registry holds, and no run of it returns a reply. *)
Theorem verify_rejects_with_AuthError_but_handshake_issues_nothing `{L : Libs} :
  (forall (token : string) (w : World),
      lifetime_elapsed token w \/ signature_invalid token w \/ wrong_type token ->
      exists msg,
        ClientServerService.verifyApiToken token w = (inl (AuthError msg), w)) /\
  (forall (req : Request) (w : World) (cid sec : string) (p : Handle) (w1 : World),
      obj_get (body req) "client_id" = JStr cid ->
      obj_get (body req) "client_secret" = JStr sec ->
      cid <> "" -> sec <> "" ->
      AuthPool.getPool w = (inr p, w1) ->
      ClientServerService.authenticateClientServer req w = (inl TypeError, w1)) /\
  (forall (req : Request) (w : World) resp w',
      ClientServerService.authenticateClientServer req w <> (inr resp, w')).
Proof.
  split; [| split].
  - intros token w H. apply verifyApiToken_refused. tauto.
  - intros req w cid sec p w1. apply handshake_run.
  - intros req w resp w'. apply authenticateClientServer_never_replies.
Qed.

Lemma verify_rejects_with_AuthError_but_handshake_issues_nothing_witness :
  (exists msg,
      ClientServerService.verifyApiToken (L := toy_libs) "tok.expired"
        (fresh_world two_tenant_db) = (inl (AuthError msg), fresh_world two_tenant_db)) /\
  (exists msg,
      ClientServerService.verifyApiToken (L := toy_libs) "tok.session"
        (fresh_world two_tenant_db) = (inl (AuthError msg), fresh_world two_tenant_db)) /\
  bcrypt_compare (Libs := toy_libs) "s3cret" (client_secret_hash acme_row) = true /\
  exists w1,
    ClientServerService.authenticateClientServer (L := toy_libs) acme_handshake
      (fresh_world two_tenant_db) = (inl TypeError, w1).
Proof.
  destruct (verify_rejects_with_AuthError_but_handshake_issues_nothing (L := toy_libs))
    as (Hverify & Hrun & _).
  split; [| split; [| split]].
  - apply Hverify.
    left. eexists _, _, _. split; [reflexivity |]. split; [reflexivity |].
    vm_compute. discriminate.
  - apply Hverify.
    right. right. eexists _, _. split; [reflexivity |]. vm_compute. discriminate.
  - reflexivity.
  - assert (Hc : "client_a" <> "") by discriminate.
    assert (Hs : "s3cret" <> "") by discriminate.
    assert (Hp : AuthPool.getPool (fresh_world two_tenant_db) = (inr ?[p], ?[w1]))
      by (vm_compute; reflexivity).
    eexists.
    exact (Hrun acme_handshake (fresh_world two_tenant_db) "client_a" "s3cret" _ _
             eq_refl eq_refl Hc Hs Hp).
Defined.

(** ** Registering a tenant *)

Section Registration.

Context `{L : Libs}.

Lemma nve_insert_params c : no_validation_error (ClientServersRepo.insert_params c).
Proof.
  intros w e w' H. unfold ClientServersRepo.insert_params in H.
  repeat match type of H with
         | context [match ?x with _ => _ end] => destruct x
         end;
    cbv [ret throw] in H; try discriminate; inversion H; subst; reflexivity.
Qed.

Lemma nve_createClientServer req clientServerData :
  no_validation_error (Repo.createClientServer req clientServerData).
Proof.
  unfold Repo.createClientServer.
  apply nve_bind; [nve_pure |]. intros u.
  apply nve_bind; [nve_pure |]. intros secret.
  apply nve_bind; [nve_pure |]. intros hash.
  destruct (_ || _); [by apply nve_throw |].
  apply nve_bind; [| intros ?; apply nve_ret].
  unfold ClientServersRepo.createClientServer.
  apply nve_bind; [apply nve_getPoolForRequest |]. intros p.
  apply nve_bind; [apply nve_insert_params |]. intros r.
  apply nve_bind; [apply nve_query | intros ?; apply nve_ret].
Qed.

Lemma nve_create_client app_name urls uid mode flag :
  no_validation_error (ClientServerService.create_client app_name urls uid mode flag).
Proof.
  unfold ClientServerService.create_client.
  apply nve_bind; [nve_pure |]. intros u1.
  apply nve_bind; [nve_pure |]. intros secret.
  apply nve_bind; [nve_pure |]. intros hash.
  apply nve_bind.
  { unfold ClientServerService.schema_name_for.
    destruct app_name; try (by apply nve_throw). nve_pure. }
  intros sn. apply nve_bind; [apply nve_getPool |]. intros p.
  apply nve_bind; [apply nve_createClientServer |].
  intros cs. apply nve_bind; [apply nve_getPoolForSchema | intros ?; apply nve_ret].
Qed.

(** C9, as the code has it.  Both registration functions answer a missing
    or empty name, and a redirect list that is missing or not an array,
    with a [ValidationError] (for a logged-in account the one that asks for
    a name and an array); an array passes the guard whatever its length,
    the empty one included, and nothing that follows throws a
    [ValidationError]. *)
Theorem register_rejects_missing_name_or_non_array :
  (forall (req : Request) (w : World),
      truthy (obj_get (body req) "app_name") = false \/
      truthy (obj_get (body req) "allowed_return_urls") = false \/
      isArray (obj_get (body req) "allowed_return_urls") = false ->
      ClientServerService.registerClientServer req w
      = (inl (ValidationError ClientServerService.required_msg), w)) /\
  (forall (clientData : obj) (req : Request) (w : World),
      truthy (obj_get clientData "app_name") = false \/
      truthy (obj_get clientData "allowed_return_urls") = false \/
      isArray (obj_get clientData "allowed_return_urls") = false ->
      exists msg,
        ClientServerService.registerClientServerForUser clientData req w
        = (inl (ValidationError msg), w) /\
        (truthy (userId_of req) = true -> msg = ClientServerService.required_msg)) /\
  (forall (req : Request) (w : World) (xs : list jsval),
      truthy (obj_get (body req) "app_name") = true ->
      obj_get (body req) "allowed_return_urls" = JArr xs ->
      ClientServerService.registerClientServer req w
      = ClientServerService.create_client (obj_get (body req) "app_name") (JArr xs)
          JNull "api-auth-server" false w /\
      forall msg w',
        ClientServerService.registerClientServer req w <> (inl (ValidationError msg), w')) /\
  (forall (clientData : obj) (req : Request) (w : World) (xs : list jsval),
      truthy (userId_of req) = true ->
      truthy (obj_get clientData "app_name") = true ->
      obj_get clientData "allowed_return_urls" = JArr xs ->
      obj_get clientData "client_mode" = JUndefined ->
      forall msg w',
        ClientServerService.registerClientServerForUser clientData req w
        <> (inl (ValidationError msg), w')).
Proof.
  split; [| split; [| split]].
  - intros req w H. unfold ClientServerService.registerClientServer.
    destruct H as [H | [H | H]]; rewrite H; simpl;
      repeat rewrite orb_true_r; reflexivity.
  - intros cd req w H. unfold ClientServerService.registerClientServerForUser.
    destruct (truthy (userId_of req)); cbn [negb].
    2:{ eexists. split; [reflexivity | discriminate]. }
    assert (Hg : negb (truthy (obj_get cd "app_name"))
                 || negb (truthy (obj_get cd "allowed_return_urls"))
                 || negb (isArray (obj_get cd "allowed_return_urls")) = true).
    { destruct H as [H | [H | H]]; rewrite H; simpl;
        repeat rewrite orb_true_r; reflexivity. }
    rewrite Hg. eexists. by split.
  - intros req w xs Hn Hu.
    assert (Heq : ClientServerService.registerClientServer req w
                  = ClientServerService.create_client (obj_get (body req) "app_name")
                      (JArr xs) JNull "api-auth-server" false w).
    { unfold ClientServerService.registerClientServer. rewrite Hu, Hn. reflexivity. }
    split; [exact Heq |].
    intros msg w' Hbad. rewrite Heq in Hbad.
    apply nve_create_client in Hbad. discriminate.
  - intros cd req w xs Hid Hn Hu Hm msg w' Hbad.
    unfold ClientServerService.registerClientServerForUser in Hbad.
    rewrite Hid, Hn, Hu, Hm in Hbad. cbn [negb orb isArray truthy] in Hbad.
    change (String.eqb "frontend-login-proxy" "frontend-login-proxy") with true in Hbad.
    cbn [orb] in Hbad.
    apply nve_create_client in Hbad. discriminate.
Qed.

End Registration.

Lemma register_rejects_missing_name_or_non_array_witness :
  ClientServerService.registerClientServer (L := toy_libs) nameless_registration
    (fresh_world empty_db)
  = (inl (ValidationError ClientServerService.required_msg), fresh_world empty_db) /\
  ClientServerService.registerClientServerForUser (L := toy_libs)
    [("app_name", JStr "Acme"); ("allowed_return_urls", JStr "https://acme.example/")]
    carol_request (fresh_world empty_db)
  = (inl (ValidationError ClientServerService.required_msg), fresh_world empty_db) /\
  (forall msg w',
      ClientServerService.registerClientServer (L := toy_libs) acme_no_redirects
        (fresh_world empty_db) <> (inl (ValidationError msg), w')) /\
  (exists resp w',
      ClientServerService.registerClientServer (L := toy_libs) acme_no_redirects
        (fresh_world empty_db) = (inr resp, w') /\
      obj_get (data_obj resp) "allowed_return_urls" = JArr [] /\
      map allowed_return_urls (scanned_clients (db w')) = [[]]) /\
  (forall msg w',
      ClientServerService.registerClientServerForUser (L := toy_libs)
        [("app_name", JStr "Acme"); ("allowed_return_urls", JArr [])]
        carol_request (fresh_world empty_db) <> (inl (ValidationError msg), w')).
Proof.
  destruct (register_rejects_missing_name_or_non_array (L := toy_libs))
    as (H1 & H2 & H3 & H4).
  split; [| split; [| split; [| split]]].
  - apply H1. left. reflexivity.
  - assert (Hbad : truthy (obj_get [("app_name", JStr "Acme");
                                    ("allowed_return_urls", JStr "https://acme.example/")]
                                   "app_name") = false \/
                   truthy (obj_get [("app_name", JStr "Acme");
                                    ("allowed_return_urls", JStr "https://acme.example/")]
                                   "allowed_return_urls") = false \/
                   isArray (obj_get [("app_name", JStr "Acme");
                                     ("allowed_return_urls", JStr "https://acme.example/")]
                                    "allowed_return_urls") = false)
      by (right; right; reflexivity).
    destruct (H2 _ carol_request (fresh_world empty_db) Hbad) as (msg & Hrun & Hmsg).
    rewrite Hrun, (Hmsg eq_refl). reflexivity.
  - apply (H3 acme_no_redirects (fresh_world empty_db) []); reflexivity.
  - eexists _, _. split; [vm_compute; reflexivity |]. split; reflexivity.
  - apply (H4 _ carol_request (fresh_world empty_db) []); reflexivity.
Defined.

(** ** The client secret *)

Section Secret.

Context `{L : Libs}.

Lemma head_filter_In {A} (P : A -> Prop) `{forall x, Decision (P x)} (l : list A) x :
  head (filter P l) = Some x -> In x l /\ P x.
Proof.
  induction l as [| y l IH]; simpl; [discriminate |].
  rewrite filter_cons. destruct (decide (P y)) as [Hy | Hy]; simpl.
  - intros H1. inversion H1; subst. by split; [left |].
  - intros H1. destruct (IH H1). by split; [right |].
Qed.

(** The parameters of the insert, for the object the admin repository
    hands over. *)
Lemma insert_params_complete cid h n sn urls u m :
  ClientServersRepo.insert_params
    [ ("client_id", JStr cid); ("client_secret_hash", JStr h); ("app_name", JStr n);
      ("assigned_schema_name", JStr sn); ("allowed_return_urls", urls);
      ("user_id", u); ("client_mode", JStr m) ]
  = match urls with
    | JArr xs =>
        match strings_of xs, u with
        | Some l, JNull => ret (mkClientRow cid h n sn l None m 0 0)
        | Some l, JStr v => ret (mkClientRow cid h n sn l (Some v) m 0 0)
        | _, _ => throw DatabaseError
        end
    | _ => throw DatabaseError
    end.
Proof. by destruct urls. Qed.

(** The admin repository on the data the service hands over: the client
    id and the hash among them are not read. *)
Lemma createClientServer_of_service req cid0 h0 n sn urls uid mode :
  Repo.createClientServer req
    [ ("client_id", JStr cid0); ("client_secret_hash", JStr h0); ("app_name", JStr n);
      ("assigned_schema_name", JStr sn); ("allowed_return_urls", urls);
      ("user_id", uid); ("client_mode", JStr mode) ]
  = (let* u := uuidv4 in
     let* client_secret := uuidv4 in
     let* client_secret_hash := bcrypt_hash_12 client_secret in
     if negb (truthy (JStr n)) || negb (truthy (JStr sn)) || negb (truthy urls)
     then throw (PlainError
                   "app_name, assigned_schema_name, and allowed_return_urls are required")
     else
       let* result :=
         ClientServersRepo.createClientServer req
           [ ("client_id", JStr ("client_" ++ drop_char "-" u));
             ("client_secret_hash", JStr client_secret_hash);
             ("app_name", JStr n);
             ("assigned_schema_name", JStr sn);
             ("allowed_return_urls", urls);
             ("user_id", js_or uid JNull);
             ("client_mode", JStr mode) ] in
       ret ((match result with Some r => row_obj r | None => [] end)
            ++ [("client_secret", JStr client_secret)])).
Proof. reflexivity. Qed.

(** An accepted insert stores one row in the public table and touches
    nothing else. *)
Lemma query_insert_client_row p r w rs w' :
  query p (InsertClientServer r) w = (inr rs, w') ->
  rs = ClientRows [mkClientRow (client_id r) (client_secret_hash r) (app_name r)
                     (assigned_schema_name r) (allowed_return_urls r) (user_id r)
                     (client_mode r) (db_time (db w)) (db_time (db w))] /\
  public_client_servers (db w') = public_client_servers (db w) ++ client_rows rs /\
  auth_internal_client_servers (db w') = auth_internal_client_servers (db w) /\
  unqualified_client_servers (db w') = unqualified_client_servers (db w).
Proof.
  unfold query. destruct (rejects (db w) (InsertClientServer r)); [discriminate |].
  simpl. destruct (existsb _ _) eqn:Hex; [discriminate |].
  intros H. inversion H; subst; clear H. by repeat split.
Qed.

(** What a successful registration has done: the reply carries the client
    id and the secret the service drew, the stored row those the admin
    repository drew after it. *)
Lemma create_client_inv a urls uid mode flag w resp w' :
  ClientServerService.create_client a urls uid mode flag w = (inr resp, w') ->
  exists n xs l,
    a = JStr n /\ urls = JArr xs /\ strings_of xs = Some l /\
    public_client_servers (db w')
    = public_client_servers (db w) ++ [registered_row n l uid mode w] /\
    auth_internal_client_servers (db w') = auth_internal_client_servers (db w) /\
    unqualified_client_servers (db w') = unqualified_client_servers (db w) /\
    data resp
    = JObj ([ ("client_id", JStr ("client_" ++ drop_char "-" (uuid_of (entropy w))));
              ("client_secret", JStr (uuid_of (S (entropy w))));
              ("app_name", a);
              ("assigned_schema_name",
               JStr (assigned_schema_name (registered_row n l uid mode w)));
              ("allowed_return_urls", urls) ]
            ++ (if flag then [("client_mode", JStr mode)] else [])).
Proof.
  unfold ClientServerService.create_client. intros H.
  apply bind_inv_inr in H as (u1 & w1 & H1 & H).
  cbv [uuidv4 bind draw ret] in H1. inversion H1; subst u1 w1; clear H1.
  apply bind_inv_inr in H as (sec & w2 & H2 & H).
  cbv [uuidv4 bind draw ret entropy] in H2. inversion H2; subst sec w2; clear H2.
  apply bind_inv_inr in H as (hash & w3 & H3 & H).
  cbv [bcrypt_hash_12 bind draw ret entropy] in H3. inversion H3; subst hash w3; clear H3.
  apply bind_inv_inr in H as (sn & w4 & H4 & H).
  unfold ClientServerService.schema_name_for in H4.
  destruct a as [| | | | n | |]; try discriminate.
  cbv [bind Date_now ret] in H4. cbn [clock] in H4. inversion H4; subst sn w4; clear H4.
  apply bind_inv_inr in H as (p & w5 & H5 & H).
  pose proof (keeps_db_run _ _ _ _ keeps_db_getPool H5) as Hd5.
  pose proof (keeps_entropy_run _ _ _ _ keeps_entropy_getPool H5) as Hn5.
  cbn [db entropy] in Hd5, Hn5. clear H5.
  apply bind_inv_inr in H as (cs & w9 & H9 & H).
  rewrite createClientServer_of_service in H9.
  apply bind_inv_inr in H9 as (u2 & w6 & H6 & H9).
  cbv [uuidv4 bind draw ret] in H6. inversion H6; subst u2 w6; clear H6.
  apply bind_inv_inr in H9 as (sec2 & w7 & H7 & H9).
  cbv [uuidv4 bind draw ret entropy] in H7. inversion H7; subst sec2 w7; clear H7.
  apply bind_inv_inr in H9 as (hash2 & w8 & H8 & H9).
  cbv [bcrypt_hash_12 bind draw ret entropy] in H8. inversion H8; subst hash2 w8; clear H8.
  destruct (_ || _); [discriminate |].
  apply bind_inv_inr in H9 as (result & w10 & H10 & Hret).
  inversion Hret; subst cs w10; clear Hret.
  unfold ClientServersRepo.createClientServer in H10.
  apply bind_inv_inr in H10 as (tp & w11 & Hg & H10).
  pose proof (keeps_db_run _ _ _ _ (keeps_db_getPoolForRequest _) Hg) as Hd11.
  cbn [db] in Hd11. clear Hg.
  apply bind_inv_inr in H10 as (r & w12 & Hi & H10).
  rewrite insert_params_complete in Hi.
  destruct urls as [| | | | | xs |]; try discriminate.
  destruct (strings_of xs) as [l |] eqn:Hl; [| discriminate].
  assert (Hr : w12 = w11 /\
               r = mkClientRow
                     ("client_" ++ drop_char "-" (uuid_of (entropy w5)))%string
                     (bcrypt_hash (uuid_of (S (entropy w5))) (S (S (entropy w5)))) n
                     ("client_" ++ sanitize (toLowerCase n) ++ "_" ++ decimal (clock w))%string
                     l (owner_of uid) mode 0 0).
  { unfold owner_of. destruct (js_or uid JNull); try discriminate;
      inversion Hi; by subst. }
  destruct Hr as (-> & ->). clear Hi.
  apply bind_inv_inr in H10 as (rs & w13 & Hq & Hret).
  inversion Hret; subst result w13; clear Hret.
  apply query_insert_client_row in Hq as (-> & Hpub & Haut & Hunq).
  cbn [client_id client_secret_hash app_name assigned_schema_name allowed_return_urls
       user_id client_mode client_rows] in Hpub.
  apply bind_inv_inr in H as (h & w14 & H14 & H).
  pose proof (keeps_db_run _ _ _ _ (keeps_db_getPoolForSchema _) H14) as Hd14.
  inversion H; subst resp w'; clear H.
  exists n, xs, l. unfold registered_row.
  cbn [client_id client_secret_hash app_name assigned_schema_name allowed_return_urls
       user_id client_mode data].
  rewrite Hd14, Hpub, Haut, Hunq, Hd11, Hd5, Hn5.
  by repeat split.
Qed.

Lemma secret_free_project r :
  secret_free (project ClientServerService.owner_columns (row_obj r)).
Proof. by split. Qed.

(** [getClientServerInfo] with a client id, once the control-plane pool is
    there; no run of it returns a row. *)
Lemma getClientServerInfo_run cid w p w1 :
  cid <> "" -> AuthPool.getPool w = (inr p, w1) ->
  ClientServerService.getClientServerInfo cid w = (inl TypeError, w1).
Proof.
  intros Hc Hp. unfold ClientServerService.getClientServerInfo.
  apply String.eqb_neq in Hc. rewrite Hc.
  erewrite bind_inr by exact Hp. cbv beta.
  erewrite bind_inl; [reflexivity |]. apply getClientServer_throws.
Qed.

Lemma getClientServerInfo_never_returns cid w resp w' :
  ClientServerService.getClientServerInfo cid w <> (inr resp, w').
Proof.
  unfold ClientServerService.getClientServerInfo.
  destruct (String.eqb cid ""); [discriminate |]. intros H.
  apply bind_inv_inr in H as (p & w1 & _ & H).
  apply bind_inv_inr in H as (found & w2 & H2 & _).
  discriminate.
Qed.

(** The owner's listing returns the selected columns only. *)
Lemma getUserClientServers_view req w resp w' :
  ClientServerService.getUserClientServers req w = (inr resp, w') ->
  exists rs,
    data resp = JArr (map (fun r => JObj (project ClientServerService.owner_columns
                                                 (row_obj r))) rs).
Proof.
  unfold ClientServerService.getUserClientServers.
  destruct (negb (truthy (userId_of req))); [discriminate |]. intros H.
  apply bind_inv_inr in H as (p & w1 & _ & H).
  apply bind_inv_inr in H as (rs & w2 & _ & H).
  inversion H; subst. by eexists.
Qed.

Lemma getUserClientServer_view req cid w resp w' :
  ClientServerService.getUserClientServer req cid w = (inr resp, w') ->
  exists row,
    data resp = JObj (project ClientServerService.owner_columns (row_obj row)).
Proof.
  unfold ClientServerService.getUserClientServer.
  destruct (negb (truthy (userId_of req)) || String.eqb cid ""); [discriminate |].
  intros H.
  apply bind_inv_inr in H as (p & w1 & _ & H).
  apply bind_inv_inr in H as (rs & w2 & _ & H).
  destruct (client_rows rs) as [| row rest]; [discriminate |].
  inversion H; subst. by eexists.
Qed.

Lemma registerClientServer_tail req w resp w' :
  ClientServerService.registerClientServer req w = (inr resp, w') ->
  exists a u, ClientServerService.create_client a u JNull "api-auth-server" false w
              = (inr resp, w').
Proof.
  unfold ClientServerService.registerClientServer.
  destruct (_ || _); [discriminate |]. intros H. by eexists _, _.
Qed.

Lemma registerClientServerForUser_tail cd req w resp w' :
  ClientServerService.registerClientServerForUser cd req w = (inr resp, w') ->
  exists a u uid m, ClientServerService.create_client a u uid m true w = (inr resp, w').
Proof.
  unfold ClientServerService.registerClientServerForUser.
  destruct (negb (truthy (userId_of req))); [discriminate |].
  destruct (_ || _); [discriminate |].
  destruct (match obj_get cd "client_mode" with JUndefined => _ | v => v end);
    try discriminate.
  destruct (_ || _); [| discriminate].
  intros H. by eexists _, _, _, _.
Qed.

(** The reply of a registration and the row it leaves in the registry. *)
Lemma create_client_reply_and_row a urls uid mode flag w resp w' :
  ClientServerService.create_client a urls uid mode flag w = (inr resp, w') ->
  exists row,
    obj_get (data_obj resp) "client_secret" = JStr (uuid_of (S (entropy w))) /\
    obj_get (data_obj resp) "client_id"
    = JStr ("client_" ++ drop_char "-" (uuid_of (entropy w))) /\
    scanned_clients (db w') = scanned_clients (db w) ++ [row] /\
    client_id row = ("client_" ++ drop_char "-" (uuid_of (3 + entropy w)))%string /\
    client_secret_hash row = bcrypt_hash (uuid_of (4 + entropy w)) (5 + entropy w).
Proof.
  intros H.
  apply create_client_inv in H as (n & xs & l & _ & _ & _ & Hpub & Haut & _ & Hd).
  exists (registered_row n l uid mode w).
  unfold data_obj, scanned_clients. rewrite Hd, Hpub, Haut, app_assoc.
  by repeat split.
Qed.

End Secret.

(** C6, on the code.  A successful registration returns in its reply the
    client id and the plaintext secret that the service drew; the one row
    it adds to the registry carries another client id and the hash of
    another secret, both drawn once more by the admin repository, so the
    stored record does not hold the hash of the secret that was returned.
    [getClientServerInfo] never returns a row: with a client id it throws a
    [TypeError] as soon as the control-plane pool is there.  The
    owner-scoped list and get return objects that have neither a
    [client_secret] nor a [client_secret_hash] property. *)
Theorem registration_reply_and_stored_record_differ `{L : Libs} :
  (forall (req : Request) (w : World) resp w',
      ClientServerService.registerClientServer req w = (inr resp, w') ->
      exists row,
        obj_get (data_obj resp) "client_secret" = JStr (uuid_of (S (entropy w))) /\
        obj_get (data_obj resp) "client_id"
        = JStr ("client_" ++ drop_char "-" (uuid_of (entropy w))) /\
        scanned_clients (db w') = scanned_clients (db w) ++ [row] /\
        client_id row = ("client_" ++ drop_char "-" (uuid_of (3 + entropy w)))%string /\
        client_secret_hash row
        = bcrypt_hash (uuid_of (4 + entropy w)) (5 + entropy w)) /\
  (forall (clientData : obj) (req : Request) (w : World) resp w',
      ClientServerService.registerClientServerForUser clientData req w = (inr resp, w') ->
      exists row,
        obj_get (data_obj resp) "client_secret" = JStr (uuid_of (S (entropy w))) /\
        obj_get (data_obj resp) "client_id"
        = JStr ("client_" ++ drop_char "-" (uuid_of (entropy w))) /\
        scanned_clients (db w') = scanned_clients (db w) ++ [row] /\
        client_id row = ("client_" ++ drop_char "-" (uuid_of (3 + entropy w)))%string /\
        client_secret_hash row
        = bcrypt_hash (uuid_of (4 + entropy w)) (5 + entropy w)) /\
  (forall (cid : string) (w : World) (p : Handle) (w1 : World),
      cid <> "" ->
      AuthPool.getPool w = (inr p, w1) ->
      ClientServerService.getClientServerInfo cid w = (inl TypeError, w1)) /\
  (forall (cid : string) (w : World) resp w',
      ClientServerService.getClientServerInfo cid w <> (inr resp, w')) /\
  (forall (req : Request) (w : World) resp w',
      ClientServerService.getUserClientServers req w = (inr resp, w') ->
      exists os, data resp = JArr (map JObj os) /\ Forall secret_free os) /\
  (forall (req : Request) (cid : string) (w : World) resp w',
      ClientServerService.getUserClientServer req cid w = (inr resp, w') ->
      exists o, data resp = JObj o /\ secret_free o).
Proof.
  split; [| split; [| split; [| split; [| split]]]].
  - intros req w resp w' H.
    apply registerClientServer_tail in H as (a & u & H).
    by apply create_client_reply_and_row in H.
  - intros cd req w resp w' H.
    apply registerClientServerForUser_tail in H as (a & u & uid & m & H).
    by apply create_client_reply_and_row in H.
  - intros cid w p w1. apply getClientServerInfo_run.
  - intros cid w resp w'. apply getClientServerInfo_never_returns.
  - intros req w resp w' H.
    apply getUserClientServers_view in H as (rs & Hd).
    exists (map (fun r => project ClientServerService.owner_columns (row_obj r)) rs).
    split; [by rewrite Hd, map_map |].
    clear Hd. induction rs as [| r rs IH]; constructor;
      [apply secret_free_project | exact IH].
  - intros req cid w resp w' H.
    apply getUserClientServer_view in H as (row & Hd).
    eexists. split; [exact Hd | apply secret_free_project].
Qed.

Lemma registration_reply_and_stored_record_differ_witness :
  exists resp row w' w1,
    ClientServerService.registerClientServer (L := toy_libs) acme_registration
      (fresh_world empty_db) = (inr resp, w') /\
    obj_get (data_obj resp) "client_id" = JStr "client_00000" /\
    obj_get (data_obj resp) "client_secret" = JStr "0000-1" /\
    scanned_clients (db w') = [row] /\
    client_id row = "client_00003" /\
    client_secret_hash row = "$2b$12$0000-4" /\
    bcrypt_compare (Libs := toy_libs) "0000-1" (client_secret_hash row) = false /\
    ClientServerService.getClientServerInfo "client_00003" w' = (inl TypeError, w1).
Proof.
  destruct (registration_reply_and_stored_record_differ (L := toy_libs))
    as (T1 & _ & T3 & _).
  assert (Hreg : ClientServerService.registerClientServer (L := toy_libs)
                   acme_registration (fresh_world empty_db)
                 = (inr ?[resp], acme_registration_run.2)) by (vm_compute; reflexivity).
  destruct (T1 _ _ _ _ Hreg) as (row & Hsec & Hid & Htab & Hcid & Hhash).
  assert (Hc : "client_00003" <> "") by discriminate.
  assert (Hp : AuthPool.getPool acme_registration_run.2 = (inr ?[p], ?[w1]))
    by (vm_compute; reflexivity).
  eexists _, row, _, _.
  split; [exact Hreg |]. split; [exact Hid |]. split; [exact Hsec |].
  split; [exact Htab |]. split; [exact Hcid |]. split; [exact Hhash |].
  split; [rewrite Hhash; reflexivity |].
  exact (T3 "client_00003" _ _ _ Hc Hp).
Defined.

(** ** Guards *)

Section Guards.

Lemma is_str_spec v s : is_str v s = true <-> v = JStr s.
Proof.
  destruct v; simpl; split; try discriminate; try congruence.
  - intros H. apply String.eqb_eq in H. by subst.
  - intros H. inversion H. apply String.eqb_refl.
Qed.

Lemma is_str_false v s : is_str v s = false <-> v <> JStr s.
Proof.
  rewrite <- is_str_spec. destruct (is_str v s); split; congruence.
Qed.

End Guards.

(** C5, as the code has it.  [requireClientOwner] passes exactly when the
    role of the resolved context is [owner]; under every other role, that
    of the system administrator included, it throws an [Error] that names
    the current role. *)
Theorem requireClientOwner_passes_iff_owner (req : Request) :
  (PoolService.requireClientOwner req = inr tt <->
   SchemaDetection.getUserRole req = JStr SchemaDetection.OWNER) /\
  (SchemaDetection.getUserRole req <> JStr SchemaDetection.OWNER ->
   PoolService.requireClientOwner req
   = inl (PlainError ("Client server owner privileges required. Current role: "
                      ++ PoolService.role_text (SchemaDetection.getUserRole req)))).
Proof.
  unfold PoolService.requireClientOwner, SchemaDetection.isClientOwner.
  destruct (is_str (SchemaDetection.getUserRole req) SchemaDetection.OWNER) eqn:H; simpl.
  - apply is_str_spec in H. split; [by split | by intros []].
  - apply is_str_false in H. split; [| done]. split; [discriminate | by intros ?].
Qed.

Lemma requireClientOwner_passes_iff_owner_witness :
  PoolService.requireClientOwner owner_request = inr tt /\
  PoolService.requireClientOwner anonymous_request
  = inl (PlainError "Client server owner privileges required. Current role: user").
Proof.
  split.
  - apply (proj1 (requireClientOwner_passes_iff_owner owner_request)). reflexivity.
  - apply (proj2 (requireClientOwner_passes_iff_owner anonymous_request)). discriminate.
Defined.

(** C5 as stated fails: a context whose role is that of the system
    administrator does not pass [requireClientOwner]. *)
Lemma requireClientOwner_rejects_system_admin :
  SchemaDetection.isSystemAdmin admin_request = true /\
  PoolService.requireClientOwner admin_request
  = inl (PlainError "Client server owner privileges required. Current role: admin") /\
  PoolService.requireClientOwner admin_request <> inr tt.
Proof. repeat split. discriminate. Qed.

(** C10.  [hasRole(r)] hands the request on exactly when the session holds
    a user id and its role is [r] or ["admin"]; an administrator passes
    whatever [r] is, and a request without a session or without a user id
    is answered with status 401. *)
Theorem hasRole_admits_iff (r : string) (req : Request) :
  (AuthMiddleware.hasRole r req = AuthMiddleware.Next <->
   exists s, session req = Some s /\ truthy (userId s) = true /\
             (role s = JStr r \/ role s = JStr "admin")) /\
  (forall s, session req = Some s -> truthy (userId s) = true ->
             role s = JStr "admin" ->
             AuthMiddleware.hasRole r req = AuthMiddleware.Next) /\
  (session req = None \/ truthy (userId_of req) = false ->
   AuthMiddleware.hasRole r req = AuthMiddleware.Respond 401 "Authentication required").
Proof.
  unfold AuthMiddleware.hasRole, userId_of.
  destruct (session req) as [s |].
  2:{ split; [| split].
      - split; [discriminate | by intros (s & H & _)].
      - by intros s H.
      - done. }
  destruct (truthy (userId s)) eqn:Hu; simpl.
  2:{ split; [| split].
      - split; [discriminate |]. intros (s' & H & Hu' & _). inversion H; subst. congruence.
      - intros s' H Hu'. inversion H; subst. congruence.
      - done. }
  assert (Hiff : (role s = JStr r \/ role s = JStr "admin") <->
                 is_str (role s) r || is_str (role s) "admin" = true).
  { rewrite orb_true_iff, !is_str_spec. done. }
  assert (Hadm : role s = JStr "admin" -> is_str (role s) "admin" = true)
    by apply is_str_spec.
  destruct (is_str (role s) r); destruct (is_str (role s) "admin"); simpl in *.
  1-3: split; [| split];
       [ split; [intros _; exists s; split; [done | split; [exact Hu | by apply Hiff]] | done]
       | done
       | intros [H | H]; discriminate ].
  split; [| split].
  - split; [discriminate |]. intros (s' & H & _ & Hrole).
    inversion H; subst. apply Hiff in Hrole. discriminate.
  - intros s' H _ Hrole. inversion H; subst. apply Hadm in Hrole. discriminate.
  - intros [H | H]; discriminate.
Qed.

Lemma hasRole_admits_iff_witness :
  AuthMiddleware.hasRole "owner" admin_request = AuthMiddleware.Next /\
  AuthMiddleware.hasRole "admin" sessionless_request
  = AuthMiddleware.Respond 401 "Authentication required" /\
  AuthMiddleware.hasRole "admin" anonymous_request
  = AuthMiddleware.Respond 401 "Authentication required".
Proof.
  split; [| split].
  - destruct (hasRole_admits_iff "owner" admin_request) as (_ & H & _).
    by eapply H.
  - destruct (hasRole_admits_iff "admin" sessionless_request) as (_ & _ & H).
    apply H. by left.
  - destruct (hasRole_admits_iff "admin" anonymous_request) as (_ & _ & H).
    apply H. by right.
Defined.

(** ** The resolver chain *)

Section Resolver.

Context `{L : Libs}.

Lemma lift_run {A} (m : M A) (req : Request) (w : World) r w' :
  m w = (r, w') -> lift m (req, w) = (r, (req, w')).
Proof. intros H. unfold lift. simpl. by rewrite H. Qed.

Lemma setPoolContext_run req s w c sn md :
  session req = Some s ->
  SchemaDetection.setPoolContext c sn md (req, w) = (inr tt, (with_context req s c sn md, w)).
Proof.
  intros Hs. unfold SchemaDetection.setPoolContext, bind, get_req. simpl.
  by rewrite Hs.
Qed.

Lemma keeps_db_verifyApiToken token :
  keeps_db (ClientServerService.verifyApiToken token).
Proof.
  unfold ClientServerService.verifyApiToken.
  apply keeps_db_try_catch.
  2:{ intros e. destruct e; by intros w. }
  destruct (String.eqb token ""); [by intros w |].
  apply keeps_db_bind; [by intros w |]. intros secret.
  apply keeps_db_bind.
  { unfold jwt_verify. destruct (jwt_decode token) as [[p sig] |]; [| by intros w].
    destruct (String.eqb sig (hmac secret p)); [| by intros w].
    apply keeps_db_bind; [by intros w |]. intros t.
    destruct (jwt_exp p) as [e |]; [| by intros w].
    destruct (e <=? t); by intros w. }
  intros decoded. destruct (negb _); [by intros w |].
  apply keeps_db_bind; [apply keeps_db_getPool |]. intros p.
  apply keeps_db_bind.
  { apply keeps_db_throw. }
  intros found. destruct found; by intros w.
Qed.

(** Step 1 without a token that verifies leaves the request as it was. *)
Lemma token_step_falls_through req w :
  no_valid_bearer req w ->
  exists w1,
    SchemaDetection.detectSchemaFromApiToken (req, w) = (inr tt, (req, w1)) /\
    db w1 = db w /\ env w1 = env w.
Proof.
  unfold no_valid_bearer. intros Hnv.
  unfold SchemaDetection.detectSchemaFromApiToken.
  destruct (SchemaDetection.bearer_token req) as [token |] eqn:Hb.
  - destruct Hnv as (e & w1 & Hv).
    exists w1. split.
    + erewrite try_catch_inr; [reflexivity |].
      step. cbn [fst]. rewrite Hb.
      erewrite bind_inr; [reflexivity |].
      erewrite try_catch_inl; [reflexivity |].
      erewrite bind_inl; [reflexivity |]. apply lift_run. exact Hv.
    + split; [eapply keeps_db_run | eapply keeps_env_run]; eauto using keeps_db_verifyApiToken.
  - exists w. split; [| done].
    erewrite try_catch_inr; [reflexivity |].
    step. cbn [fst]. rewrite Hb. reflexivity.
Qed.

(** Step 2 with a [returnUrl] that selects no tenant, or without one,
    leaves the request as it was, whatever the database answers. *)
Lemma redirect_step_falls_through req w :
  no_redirect_match req w ->
  exists w1,
    SchemaDetection.detectSchemaFromReturnUrl (req, w) = (inr tt, (req, w1)) /\
    db w1 = db w /\ env w1 = env w.
Proof.
  intros Hno. unfold SchemaDetection.detectSchemaFromReturnUrl.
  set (returnUrl := obj_get (body req) "returnUrl") in *.
  assert (Hgen :
    exists w1,
      try_catch
        (let* authInternalPool := lift AuthPool.getPool in
         let* rs := lift (query authInternalPool SelectAllClientServers) in
         let* matchingClient :=
           SchemaDetection.of_result
             (SchemaDetection.find_client returnUrl (client_rows rs)) in
         match matchingClient with
         | Some c =>
             SchemaDetection.setPoolContext SchemaDetection.CLIENT_TENANT
               (assigned_schema_name c)
               [ ("client_id", JStr (client_id c));
                 ("app_name", JStr (app_name c));
                 ("client_mode", JStr (client_mode c));
                 ("return_url", returnUrl);
                 ("allowed_return_urls", JArr (map JStr (allowed_return_urls c)));
                 ("user_role", JStr SchemaDetection.USER) ];;
             next
         | None => next
         end)
        (fun _ => next) (req, w) = (inr tt, (req, w1)) /\
      db w1 = db w /\ env w1 = env w).
  { destruct (AuthPool.getPool w) as [[e | p] w1] eqn:Hp.
    { exists w1. split.
      - erewrite try_catch_inl; [reflexivity |].
        erewrite bind_inl; [reflexivity |]. by apply lift_run.
      - split; [eapply keeps_db_run | eapply keeps_env_run]; eauto using keeps_db_getPool. }
    assert (Hd1 : db w1 = db w) by (eapply keeps_db_run; eauto using keeps_db_getPool).
    assert (He1 : env w1 = env w) by (eapply keeps_env_run; eauto using keeps_db_getPool).
    destruct (query p SelectAllClientServers w1) as [[e | rs] w2] eqn:Hq.
    { exists w2. split.
      - erewrite try_catch_inl; [reflexivity |].
        erewrite bind_inr by (apply lift_run; exact Hp).
        erewrite bind_inl; [reflexivity |]. by apply lift_run.
      - assert (Hk : keeps_db (query p SelectAllClientServers))
          by (by apply keeps_db_query_select).
        split; [rewrite <- Hd1; eapply keeps_db_run | rewrite <- He1; eapply keeps_env_run];
          eauto. }
    assert (Hk : keeps_db (query p SelectAllClientServers))
      by (by apply keeps_db_query_select).
    assert (Hd2 : db w2 = db w) by (rewrite <- Hd1; eapply keeps_db_run; eauto).
    assert (He2 : env w2 = env w) by (rewrite <- He1; eapply keeps_env_run; eauto).
    assert (Hrs : client_rows rs = scanned_clients (db w)).
    { unfold query in Hq. destruct (rejects (db w1) SelectAllClientServers); [discriminate |].
      simpl in Hq. inversion Hq; subst. simpl. by rewrite Hd1. }
    exists w2. split; [| done].
    destruct (SchemaDetection.find_client returnUrl (client_rows rs)) as [e | [c |]] eqn:Hf.
    - erewrite try_catch_inl; [reflexivity |].
      erewrite bind_inr by (apply lift_run; exact Hp).
      erewrite bind_inr by (apply lift_run; exact Hq).
      erewrite bind_inl; [reflexivity |]. rewrite Hf. reflexivity.
    - rewrite Hrs in Hf. by apply Hno in Hf.
    - erewrite try_catch_inr; [reflexivity |].
      erewrite bind_inr by (apply lift_run; exact Hp).
      erewrite bind_inr by (apply lift_run; exact Hq).
      erewrite bind_inr by (rewrite Hf; reflexivity).
      reflexivity. }
  destruct Hgen as (w1 & Hrun & Hd & He).
  unfold try_catch, bind, get_req. cbn [fst].
  fold returnUrl.
  destruct returnUrl eqn:Hr; try (exists w; by repeat split);
    exists w1; (split; [| done]); exact Hrun.
Qed.

(** Step 3 on a request whose session has no user id does nothing. *)
Lemma role_step_skips_anonymous req w :
  truthy (userId_of req) = false ->
  SchemaDetection.detectUserRole (req, w) = (inr tt, (req, w)).
Proof.
  intros Hu. unfold SchemaDetection.detectUserRole, try_catch, bind, get_req.
  cbn [fst]. by rewrite Hu.
Qed.

(** Step 4 on a session without a context installs the fallback. *)
Lemma default_step_installs_fallback req s w :
  session req = Some s ->
  truthy_str (poolContext s) = false ->
  SchemaDetection.setDefaultSchema (req, w)
  = (inr tt,
     (with_context req s SchemaDetection.DEFAULT (SchemaDetection.default_schema w)
        [ ("fallback", JBool true);
          ("reason", JStr "no_specific_context");
          ("user_role", JStr SchemaDetection.USER) ], w)).
Proof.
  intros Hs Hc. unfold SchemaDetection.setDefaultSchema.
  step. cbn [fst]. unfold poolContext_of. rewrite Hs, Hc. cbn [negb].
  erewrite bind_inr by (apply lift_run; reflexivity).
  erewrite bind_inr by (apply setPoolContext_run; exact Hs).
  reflexivity.
Qed.

(** Step 4 on a session with a context keeps the session. *)
Lemma default_step_keeps_context req s w :
  session req = Some s ->
  truthy_str (poolContext s) = true ->
  exists req',
    SchemaDetection.setDefaultSchema (req, w) = (inr tt, (req', w)) /\
    session req' = Some s /\ clientContext req' = clientContext req.
Proof.
  intros Hs Hc. unfold SchemaDetection.setDefaultSchema, bind, get_req.
  cbn [fst]. unfold poolContext_of. rewrite Hs, Hc. cbn [negb].
  destruct (truthy_str (schema_of req) && negb (truthy_str (req_schema req))).
  - eexists. split; [reflexivity |]. by split.
  - exists req. by repeat split.
Qed.

(** The guard in front of steps 2 and 3. *)
Lemma guarded_step_skipped (X : Mreq unit) req w :
  truthy_str (poolContext_of req) = true ->
  (let* r := get_req in
   if negb (truthy_str (poolContext_of r)) then X else ret tt) (req, w)
  = (inr tt, (req, w)).
Proof. intros H. unfold bind, get_req. cbn [fst]. by rewrite H. Qed.

Lemma guarded_step_runs (X : Mreq unit) req w :
  truthy_str (poolContext_of req) = false ->
  (let* r := get_req in
   if negb (truthy_str (poolContext_of r)) then X else ret tt) (req, w)
  = X (req, w).
Proof. intros H. unfold bind, get_req. cbn [fst]. by rewrite H. Qed.

End Resolver.

(** C3, as the code has it.  The context lives in the session: a request
    whose session already holds a pool context, and whose bearer token (if
    any) does not verify, leaves [detectSchema] with the very session it
    came with, whatever [returnUrl] or user it carries. *)
Theorem stored_context_survives_without_valid_token `{L : Libs} (req : Request)
    (w : World) (s : Session) :
  session req = Some s ->
  truthy_str (poolContext s) = true ->
  no_valid_bearer req w ->
  exists req' w',
    SchemaDetection.detectSchema (req, w) = (inr tt, (req', w')) /\
    session req' = Some s.
Proof.
  intros Hs Hc Hnv.
  destruct (token_step_falls_through req w Hnv) as (w1 & H1 & _ & _).
  destruct (default_step_keeps_context req s w1 Hs Hc) as (req' & H4 & Hs' & _).
  exists req', w1. split; [| exact Hs'].
  unfold SchemaDetection.detectSchema.
  erewrite try_catch_inr; [reflexivity |].
  assert (Hpc : truthy_str (poolContext_of req) = true)
    by (unfold poolContext_of; by rewrite Hs).
  erewrite bind_inr by exact H1. cbv beta.
  erewrite bind_inr by (by apply guarded_step_skipped). cbv beta.
  erewrite bind_inr by (by apply guarded_step_skipped). cbv beta.
  exact H4.
Qed.

Lemma stored_context_survives_without_valid_token_witness :
  (exists req' w',
      SchemaDetection.detectSchema (L := toy_libs)
        (stale_beta_request, fresh_world two_tenant_db) = (inr tt, (req', w')) /\
      session req' = session stale_beta_request) /\
  (exists req' w',
      SchemaDetection.detectSchema (L := toy_libs)
        (mkRequest (Some "Bearer tok.expired")
                   [("returnUrl", JStr "https://acme.example/login")]
                   (session stale_beta_request) None None,
         fresh_world two_tenant_db) = (inr tt, (req', w')) /\
      session req' = session stale_beta_request).
Proof.
  split.
  - apply (stored_context_survives_without_valid_token (L := toy_libs) stale_beta_request
             (fresh_world two_tenant_db) _ eq_refl eq_refl).
    exact I.
  - apply (stored_context_survives_without_valid_token (L := toy_libs)
             (mkRequest (Some "Bearer tok.expired")
                        [("returnUrl", JStr "https://acme.example/login")]
                        (session stale_beta_request) None None)
             (fresh_world two_tenant_db) _ eq_refl eq_refl).
    eexists _, _. vm_compute. reflexivity.
Defined.

(** C3 as stated fails: after a browser agent has had a request resolved
    to Beta through a [returnUrl], its later requests are served on Beta's
    partition, a request for Acme's login page included, while the same
    credential-free request from another agent is served on the default
    partition. *)
Lemma context_of_earlier_request_decides_later_one :
  schema_of (seen after_beta_login) = Some "client_beta_2" /\
  schema_of (seen later_same_agent) = Some "client_beta_2" /\
  schema_of (seen later_acme_visit) = Some "client_beta_2" /\
  schema_of (seen later_other_agent) = Some "client_template" /\
  body (seen later_same_agent) = body (seen later_other_agent) /\
  authorization (seen later_same_agent) = authorization (seen later_other_agent).
Proof. vm_compute. repeat split. Qed.

(** C4, as the code has it.  A request without a bearer token, without a
    [returnUrl] that selects a tenant and without a user in its session,
    whose session holds no pool context yet, leaves [detectSchema] without
    an error, on the configured default partition, with the fallback
    context and the role of a tenant user. *)
Theorem fallback_when_nothing_resolves `{L : Libs} (req : Request) (w : World)
    (s : Session) :
  session req = Some s ->
  truthy_str (poolContext s) = false ->
  SchemaDetection.bearer_token req = None ->
  no_redirect_match req w ->
  truthy (userId s) = false ->
  exists req' w',
    SchemaDetection.detectSchema (req, w) = (inr tt, (req', w')) /\
    poolContext_of req' = Some SchemaDetection.DEFAULT /\
    schema_of req' = Some (SchemaDetection.default_schema w) /\
    SchemaDetection.getUserRole req' = JStr SchemaDetection.USER /\
    SchemaDetection.isTenantUser req' = true.
Proof.
  intros Hs Hc Hb Hno Hu.
  assert (Hpc : truthy_str (poolContext_of req) = false)
    by (unfold poolContext_of; by rewrite Hs).
  assert (Hnv : no_valid_bearer req w) by (unfold no_valid_bearer; by rewrite Hb).
  destruct (token_step_falls_through req w Hnv) as (w1 & H1 & Hd1 & He1).
  assert (Hno1 : no_redirect_match req w1).
  { unfold no_redirect_match in *. by rewrite Hd1. }
  destruct (redirect_step_falls_through req w1 Hno1) as (w2 & H2 & Hd2 & He2).
  assert (Hu' : truthy (userId_of req) = false)
    by (unfold userId_of; by rewrite Hs).
  pose proof (role_step_skips_anonymous req w2 Hu') as H3.
  pose proof (default_step_installs_fallback req s w2 Hs Hc) as H4.
  eexists _, w2. split.
  - unfold SchemaDetection.detectSchema.
    erewrite try_catch_inr; [reflexivity |].
    erewrite bind_inr by exact H1. cbv beta.
    erewrite bind_inr by (rewrite guarded_step_runs by exact Hpc; exact H2). cbv beta.
    erewrite bind_inr by (rewrite guarded_step_runs by exact Hpc; exact H3). cbv beta.
    exact H4.
  - unfold SchemaDetection.default_schema. rewrite He2, He1. by repeat split.
Qed.

Lemma fallback_when_nothing_resolves_witness :
  exists req' w',
    SchemaDetection.detectSchema (L := toy_libs)
      (anonymous_request, fresh_world two_tenant_db) = (inr tt, (req', w')) /\
    poolContext_of req' = Some "default" /\
    schema_of req' = Some "client_template" /\
    SchemaDetection.getUserRole req' = JStr "user" /\
    SchemaDetection.isTenantUser req' = true.
Proof.
  apply (fallback_when_nothing_resolves (L := toy_libs) anonymous_request
           (fresh_world two_tenant_db) empty_session);
    try reflexivity.
  intros c. discriminate.
Defined.

(** C4 as stated fails: an unauthenticated request without bearer token and
    without [returnUrl], whose session still carries the context of an
    earlier resolution, is served on that earlier partition and not on the
    default one. *)
Lemma unauthenticated_request_keeps_stale_partition :
  SchemaDetection.bearer_token stale_beta_request = None /\
  obj_get (body stale_beta_request) "returnUrl" = JUndefined /\
  truthy (userId_of stale_beta_request) = false /\
  exists req' w',
    SchemaDetection.detectSchema (L := toy_libs)
      (stale_beta_request, fresh_world two_tenant_db) = (inr tt, (req', w')) /\
    schema_of req' = Some "client_beta_2" /\
    poolContext_of req' = Some "client_tenant" /\
    SchemaDetection.default_schema (fresh_world two_tenant_db) = "client_template" /\
    SchemaDetection.getSchemaFromRequest req' w' = "client_beta_2".
Proof.
  repeat split. eexists _, _. split; [vm_compute; reflexivity |]. by repeat split.
Qed.

(** ** End-user passwords *)

Section Passwords.

Context `{L : Libs}.

Lemma lift_inv {A} (m : M A) req w r req' w' :
  lift m (req, w) = (r, (req', w')) -> m w = (r, w') /\ req' = req.
Proof.
  unfold lift. simpl. destruct (m w) as [r0 w0]. intros H. inversion H. by subst.
Qed.

Lemma keeps_db_set_pools s : keeps_db (set_pools s).
Proof. by intros w. Qed.

Lemma keeps_db_check sn : keeps_db (RepoIndex.check sn).
Proof.
  unfold RepoIndex.check.
  apply keeps_db_bind; [apply keeps_db_get_world |]. intros w.
  destruct (pools w !! sn); [apply keeps_db_ret |].
  apply keeps_db_try_catch.
  - apply keeps_db_bind; [apply keeps_db_getPoolForSchema |]. intros p.
    apply keeps_db_bind; [apply keeps_db_get_world |]. intros w1.
    apply keeps_db_bind; [apply keeps_db_set_pools | intros _; apply keeps_db_ret].
  - intros e. apply keeps_db_bind; [apply keeps_db_get_world |]. intros w1.
    apply keeps_db_bind; [apply keeps_db_set_pools | intros _; apply keeps_db_throw].
Qed.

Lemma keeps_db_getUsers p sn : keeps_db (UserRepo.getUsers p sn).
Proof.
  unfold UserRepo.getUsers.
  apply keeps_db_bind; [apply keeps_db_connect |]. intros _.
  apply keeps_db_bind; [by apply keeps_db_query_ddl |]. intros _.
  apply keeps_db_bind; [by apply keeps_db_query_select | intros ?; apply keeps_db_ret].
Qed.

(** [getUsers] returns the [users] table of the schema. *)
Lemma getUsers_table p sn w us w' :
  UserRepo.getUsers p sn w = (inr us, w') ->
  us = table_of (users (db w)) sn /\ db w' = db w.
Proof.
  intros H. split; [| eapply keeps_db_run; eauto using keeps_db_getUsers].
  unfold UserRepo.getUsers in H.
  apply bind_inv_inr in H as (u1 & w1 & H1 & H).
  apply (keeps_db_run _ _ _ _ (keeps_db_connect p)) in H1.
  apply bind_inv_inr in H as (u2 & w2 & H2 & H).
  apply (keeps_db_run _ _ _ _ (keeps_db_query_ddl p (SetSearchPath sn) eq_refl)) in H2.
  apply bind_inv_inr in H as (rs & w3 & H3 & H).
  inversion H; subst us w'; clear H.
  unfold query in H3. destruct (rejects (db w2) (SelectUsers sn)); [discriminate |].
  simpl in H3. inversion H3; subst. simpl. by rewrite H2, H1.
Qed.

(** [getUserByEmail] finds its answer in the [users] table of the schema. *)
Lemma getUserByEmail_table sn email w found w' :
  RepoIndex.getUserByEmail sn email w = (inr found, w') ->
  found = List.find (fun u => is_str email (u_email u)) (table_of (users (db w)) sn) /\
  db w' = db w /\ env w' = env w.
Proof.
  unfold RepoIndex.getUserByEmail. intros H.
  apply bind_inv_inr in H as (p & w1 & H1 & H).
  pose proof (keeps_env_run _ _ _ _ (keeps_db_check sn) H1) as He1.
  apply (keeps_db_run _ _ _ _ (keeps_db_check sn)) in H1.
  apply bind_inv_inr in H as (us & w2 & H2 & H).
  pose proof (keeps_env_run _ _ _ _ (keeps_db_getUsers p sn) H2) as He2.
  apply getUsers_table in H2 as [-> Hd2].
  inversion H; subst found w'; clear H.
  rewrite H1. repeat split; congruence.
Qed.

(** An accepted insert appends the row, with the text it was given in
    the [password_hash] column. *)
Lemma query_insert_user p sn r w rs w' :
  query p (InsertUser sn r) w = (inr rs, w') ->
  exists r',
    rs = UserRows [r'] /\
    users (db w') = <[sn := table_of (users (db w)) sn ++ [r']]> (users (db w)) /\
    u_password_hash r' = u_password_hash r /\ u_email r' = u_email r.
Proof.
  unfold query. destruct (rejects (db w) (InsertUser sn r)); [discriminate |].
  simpl. destruct (existsb _ _); [discriminate |].
  intros H. inversion H; subst; clear H. simpl.
  eexists. by repeat split.
Qed.

(** A successful registration appends a row whose [password_hash] column
    is the password of the request, as it was sent. *)
Lemma register_stores_password_verbatim req w resp st :
  AuthService.register (req, w) = (inr resp, st) ->
  exists p row,
    obj_get (body req) "password" = JStr p /\
    u_password_hash row = p /\
    users (db st.2)
    = <[AuthService.schema_for req w :=
          table_of (users (db w)) (AuthService.schema_for req w) ++ [row]]> (users (db w)).
Proof.
  unfold AuthService.register. intros H.
  apply bind_inv_inr in H as (req0 & st0 & H0 & H). inversion H0; subst req0 st0; clear H0.
  apply bind_inv_inr in H as (w0 & st0 & H0 & H).
  inversion H0; subst w0 st0; clear H0. cbn [fst snd] in H.
  destruct (_ || _); [discriminate |].
  apply bind_inv_inr in H as (ex & [req1 w1] & H1 & H).
  apply lift_inv in H1 as [H1 ->].
  apply getUserByEmail_table in H1 as (_ & Hd1 & _).
  destruct ex; [discriminate |].
  apply bind_inv_inr in H as (lastID & [req2 w2] & H2 & H).
  apply lift_inv in H2 as [H2 ->].
  inversion H; subst resp st; clear H. cbn [snd].
  unfold RepoIndex.createUser in H2.
  apply bind_inv_inr in H2 as (p & w3 & H3 & H2).
  apply (keeps_db_run _ _ _ _ (keeps_db_check _)) in H3.
  apply bind_inv_inr in H2 as (id & w4 & H4 & H2).
  assert (Hd4 : db w4 = db w3) by (cbv [uuidv4 bind draw ret] in H4; by inversion H4).
  clear H4.
  apply bind_inv_inr in H2 as (n & w5 & H5 & H2).
  assert (w5 = w4) as -> by (destruct (obj_get (body req) "name"); by inversion H5).
  clear H5.
  apply bind_inv_inr in H2 as (r & w6 & H6 & H2).
  assert (w6 = w4) as ->
      by (destruct (js_or (obj_get (body req) "role") (JStr "user")); by inversion H6).
  clear H6.
  apply bind_inv_inr in H2 as (e & w7 & H7 & H2).
  assert (w7 = w4) as -> by (destruct (obj_get (body req) "email"); by inversion H7).
  clear H7.
  apply bind_inv_inr in H2 as (h & w8 & H8 & H2).
  assert (Hpw : obj_get (body req) "password" = JStr h /\ w8 = w4)
    by (destruct (obj_get (body req) "password"); by inversion H8).
  destruct Hpw as [Hpw ->]. clear H8.
  apply bind_inv_inr in H2 as (user & w9 & H9 & H2).
  assert (w2 = w9) as -> by (destruct user; by inversion H2). clear H2.
  unfold UserRepo.createUser in H9.
  apply bind_inv_inr in H9 as (u1 & wa & Ha & H9).
  apply (keeps_db_run _ _ _ _ (keeps_db_connect p)) in Ha.
  apply bind_inv_inr in H9 as (u2 & wb & Hb & H9).
  apply (keeps_db_run _ _ _ _ (keeps_db_query_ddl p (SetSearchPath _) eq_refl)) in Hb.
  apply bind_inv_inr in H9 as (rs & wc & Hc & H9).
  inversion H9; subst user w9; clear H9.
  apply query_insert_user in Hc as (r' & _ & Htab & Hhash & _).
  exists h, r'. split; [exact Hpw |]. split; [exact Hhash |].
  rewrite Htab, Hb, Ha, Hd4, H3, Hd1. reflexivity.
Qed.

(** A login succeeds only against a stored row whose [password_hash]
    column is, as a string, the password of the request. *)
Lemma login_compares_plaintext req w resp st :
  AuthService.login (req, w) = (inr resp, st) ->
  exists p user,
    AuthService.field (obj_get (body req) "credentials") "password" = inr (JStr p) /\
    In user (table_of (users (db w)) (AuthService.schema_for req w)) /\
    u_password_hash user = p.
Proof.
  unfold AuthService.login. intros H.
  apply bind_inv_inr in H as (req0 & st0 & H0 & H). inversion H0; subst req0 st0; clear H0.
  apply bind_inv_inr in H as (w0 & st0 & H0 & H).
  inversion H0; subst w0 st0; clear H0. cbn [fst snd] in H.
  apply bind_inv_inr in H as (email & st1 & H1 & H).
  assert (st1 = (req, w)) as ->.
  { destruct (AuthService.field _ "email"); by inversion H1. }
  clear H1.
  apply bind_inv_inr in H as (password & st2 & H2 & H).
  assert (Hpw : AuthService.field (obj_get (body req) "credentials") "password"
                = inr password /\ st2 = (req, w)).
  { destruct (AuthService.field _ "password"); by inversion H2. }
  destruct Hpw as [Hpw ->]. clear H2.
  destruct (_ || _); [discriminate |].
  apply bind_inv_inr in H as (found & [req1 w1] & H1 & H).
  apply lift_inv in H1 as [H1 ->].
  apply getUserByEmail_table in H1 as (Hfound & _ & _).
  destruct found as [user |]; [| discriminate].
  destruct (is_str password (u_password_hash user)) eqn:Heq; [| discriminate].
  apply is_str_spec in Heq. subst password.
  exists (u_password_hash user), user. split; [exact Hpw |]. split; [| reflexivity].
  symmetry in Hfound. apply List.find_some in Hfound as [Hin _]. exact Hin.
Qed.

End Passwords.

(** C2, what the code does.  Registration writes the password of the
    request into the [password_hash] column as it was sent, and a login
    succeeds only when that column equals, as a string, the password of
    the login request: no hash is computed on either path. *)
Theorem login_succeeds_by_plaintext_equality `{L : Libs} :
  (forall (req : Request) (w : World) resp st,
      AuthService.register (req, w) = (inr resp, st) ->
      exists p row,
        obj_get (body req) "password" = JStr p /\
        u_password_hash row = p /\
        users (db st.2)
        = <[AuthService.schema_for req w :=
              table_of (users (db w)) (AuthService.schema_for req w) ++ [row]]>
            (users (db w))) /\
  (forall (req : Request) (w : World) resp st,
      AuthService.login (req, w) = (inr resp, st) ->
      exists p user,
        AuthService.field (obj_get (body req) "credentials") "password" = inr (JStr p) /\
        In user (table_of (users (db w)) (AuthService.schema_for req w)) /\
        u_password_hash user = p).
Proof.
  split.
  - intros req w resp st. apply register_stores_password_verbatim.
  - intros req w resp st. apply login_compares_plaintext.
Qed.

Lemma login_succeeds_by_plaintext_equality_witness :
  (exists resp row,
      AuthService.register (L := toy_libs) (alice_registration, fresh_world two_tenant_db)
      = (inr resp, after_alice_registration.2) /\
      table_of (users (db after_alice_registration.2.2)) "client_beta_2" = [row] /\
      u_password_hash row = "correct horse") /\
  (exists resp st user,
      AuthService.login (L := toy_libs) (alice_login, after_alice_registration.2.2)
      = (inr resp, st) /\
      In user (table_of (users (db after_alice_registration.2.2)) "client_beta_2") /\
      u_password_hash user = "correct horse").
Proof.
  destruct (login_succeeds_by_plaintext_equality (L := toy_libs)) as [T1 T2].
  split.
  - assert (Hreg : AuthService.register (L := toy_libs)
                     (alice_registration, fresh_world two_tenant_db)
                   = (inr ?[resp], after_alice_registration.2))
      by (vm_compute; reflexivity).
    destruct (T1 _ _ _ _ Hreg) as (p & row & Hp & Hh & Htab).
    eexists _, row. split; [exact Hreg |]. split.
    + unfold table_of. rewrite Htab. rewrite lookup_insert_eq. reflexivity.
    + inversion Hp. by subst.
  - assert (Hlog : AuthService.login (L := toy_libs)
                     (alice_login, after_alice_registration.2.2)
                   = (inr ?[resp], ?[st]))
      by (vm_compute; reflexivity).
    destruct (T2 _ _ _ _ Hlog) as (p & user & Hp & Hin & Hh).
    eexists _, _, user. split; [exact Hlog |]. split; [exact Hin |].
    inversion Hp. by subst.
Defined.

(** ** Further facts about the pools *)

Lemma sent_nil w : sent w [] = w.
Proof. destruct w. unfold sent. simpl. by rewrite app_nil_r. Qed.

Lemma sent_sent w l1 l2 : sent (sent w l1) l2 = sent w (l1 ++ l2).
Proof. unfold sent. simpl. by rewrite app_assoc. Qed.

(** An accepted definition statement changes the log only. *)
Lemma query_ddl_accepted p q w :
  is_ddl q = true -> rejects (db w) q = false ->
  query p q w = (inr NoRows, sent w [(hid p, q)]).
Proof.
  intros Hq Hr. unfold query. rewrite Hr.
  destruct q; try discriminate; reflexivity.
Qed.

Lemma query_each_ddl_accepted p qs : forall w,
  forallb is_ddl qs = true ->
  Forall (fun q => rejects (db w) q = false) qs ->
  query_each p qs w = (inr tt, sent w (by_pool p qs)).
Proof.
  induction qs as [| q qs IH]; intros w Hd Ha; simpl.
  - by rewrite sent_nil.
  - apply andb_prop in Hd as [Hq Hqs]. inversion Ha as [| ? ? Hhd Htl]; subst.
    erewrite bind_inr by (by apply query_ddl_accepted).
    rewrite IH by done. by rewrite sent_sent.
Qed.



Lemma tenant_initSchema_as_batch p name :
  TenantPool.initSchema p name
  = query_each p (CreateSchemaRaw name ::
                  (if String.eqb name "client_template" then [] else TenantPool.ddl name)).
Proof.
  unfold TenantPool.initSchema. simpl. by destruct (String.eqb name "client_template").
Qed.

Lemma tenant_batch_is_ddl name :
  forallb is_ddl (CreateSchemaRaw name ::
                  (if String.eqb name "client_template" then [] else TenantPool.ddl name))
  = true.
Proof. by destruct (String.eqb name "client_template"). Qed.

Lemma connect_reachable p w : reachable (db w) = true -> connect p w = (inr tt, w).
Proof. intros H. unfold connect. by rewrite H. Qed.

(** X1.  Once [getPoolForSchema] has returned a pool for a name, that pool
    is in the cache and every further call for the name returns it
    without sending a statement. *)
Theorem getPoolForSchema_returns_cached_handle (name : string) (w : World) p w' :
  TenantPool.getPoolForSchema name w = (inr p, w') ->
  schemas w' !! name = Some p /\
  TenantPool.getPoolForSchema name w' = (inr p, w').
Proof.
  intros H.
  assert (Hc : schemas w' !! name = Some p).
  { unfold TenantPool.getPoolForSchema in H.
    apply bind_inv_inr in H as (w0 & w0' & H0 & H). inversion H0; subst w0 w0'; clear H0.
    destruct (schemas w !! name) as [p0 |] eqn:Hl.
    { inversion H; by subst. }
    apply bind_inv_inr in H as (lp & w1 & _ & H).
    apply bind_inv_inr in H as (u1 & w2 & _ & H).
    apply bind_inv_inr in H as (u2 & w3 & _ & H).
    apply bind_inv_inr in H as (w4 & w4' & H4 & H). inversion H4; subst w4 w4'; clear H4.
    apply bind_inv_inr in H as (u3 & w5 & H5 & H).
    inversion H5; subst u3 w5; clear H5.
    apply bind_inv_inr in H as (r & w6 & H6 & H).
    inversion H; subst p w'; clear H.
    destruct (query_frame lp (SetSearchPath name)
                (mkWorld (pool w3) (<[name:=lp]> (schemas w3)) (pools w3) (next_handle w3)
                         (db w3) (log w3) (clock w3) (entropy w3) (env w3)))
      as ((_ & Hs & _) & _).
    rewrite H6 in Hs. simpl in Hs. rewrite Hs. apply lookup_insert_eq. }
  split; [exact Hc |].
  unfold TenantPool.getPoolForSchema. step. by rewrite Hc.
Qed.

Lemma getPoolForSchema_returns_cached_handle_witness :
  exists p w',
    TenantPool.getPoolForSchema "client_acme_1" (fresh_world empty_db) = (inr p, w') /\
    schemas w' !! "client_acme_1" = Some p /\
    TenantPool.getPoolForSchema "client_acme_1" w' = (inr p, w').
Proof.
  eexists _, _.
  assert (Hrun : TenantPool.getPoolForSchema "client_acme_1" (fresh_world empty_db)
                 = (inr ?[p], ?[w'])) by (vm_compute; reflexivity).
  destruct (getPoolForSchema_returns_cached_handle _ _ _ _ Hrun) as [H1 H2].
  split; [exact Hrun |]. split; [exact H1 | exact H2].
Defined.

(** [getPoolForSchema] succeeds for a name it has not seen when the
    database accepts what it sends. *)
Lemma getPoolForSchema_fresh_succeeds (name : string) (w : World) :
  schemas w !! name = None ->
  reachable (db w) = true ->
  Forall (fun q => rejects (db w) q = false) (tenant_provisioning name) ->
  exists w',
    TenantPool.getPoolForSchema name w = (inr (mkHandle (next_handle w)), w') /\
    schemas w' = <[name := mkHandle (next_handle w)]> (schemas w) /\
    db w' = db w.
Proof.
  intros Hnone Hreach Hacc.
  unfold tenant_provisioning in Hacc. rewrite app_comm_cons in Hacc.
  apply Forall_app in Hacc as [Hprov Hsp]. inversion Hsp as [| ? ? Hsp1 _]; subst.
  eexists. split.
  - unfold TenantPool.getPoolForSchema. step. rewrite Hnone. step.
    erewrite bind_inr by (by apply connect_reachable).
    rewrite tenant_initSchema_as_batch.
    erewrite bind_inr
      by (apply query_each_ddl_accepted; [apply tenant_batch_is_ddl | exact Hprov]).
    step. step.
    erewrite bind_inr by (by apply query_ddl_accepted).
    reflexivity.
  - by split.
Qed.

(** X2.  The first use of a name sends, on a fresh pool, the schema
    creation, the table definitions (none for ["client_template"]) and
    the [set search_path], in that order, stores the pool in the cache and
    leaves the tables' rows alone. *)
Theorem getPoolForSchema_first_use (name : string) (w : World) :
  schemas w !! name = None ->
  reachable (db w) = true ->
  Forall (fun q => rejects (db w) q = false) (tenant_provisioning name) ->
  exists w',
    TenantPool.getPoolForSchema name w = (inr (mkHandle (next_handle w)), w') /\
    log w' = log w ++ by_pool (mkHandle (next_handle w)) (tenant_provisioning name) /\
    schemas w' = <[name := mkHandle (next_handle w)]> (schemas w) /\
    db w' = db w.
Proof.
  intros Hnone Hreach Hacc.
  set (h := mkHandle (next_handle w)).
  unfold tenant_provisioning in Hacc. rewrite app_comm_cons in Hacc.
  apply Forall_app in Hacc as [Hprov Hsp]. inversion Hsp as [| ? ? Hsp1 _]; subst.
  eexists. split.
  - unfold TenantPool.getPoolForSchema. step. rewrite Hnone. step.
    erewrite bind_inr by (by apply connect_reachable).
    rewrite tenant_initSchema_as_batch.
    erewrite bind_inr
      by (apply query_each_ddl_accepted; [apply tenant_batch_is_ddl | exact Hprov]).
    step. step.
    erewrite bind_inr by (by apply query_ddl_accepted).
    reflexivity.
  - split; [| by split].
    unfold tenant_provisioning, by_pool, sent.
    destruct (String.eqb name "client_template"); simpl;
      rewrite <- app_assoc; reflexivity.
Qed.

Lemma getPoolForSchema_first_use_witness :
  exists w',
    TenantPool.getPoolForSchema "client_template" (fresh_world empty_db)
    = (inr (mkHandle 0), w') /\
    log w' = [(0%nat, CreateSchemaRaw "client_template");
              (0%nat, SetSearchPath "client_template")] /\
    schemas w' = <["client_template" := mkHandle 0]> ∅ /\
    db w' = empty_db.
Proof.
  apply (getPoolForSchema_first_use "client_template" (fresh_world empty_db));
    [reflexivity | reflexivity |].
  repeat constructor.
Defined.

(** X3.  When the database accepts the provisioning but refuses the final
    [set search_path], [getPoolForSchema] fails and yet leaves the new pool
    in the cache: the next call for the name succeeds with that pool and
    sends nothing. *)
Theorem getPoolForSchema_caches_before_search_path (name : string) (w : World) :
  schemas w !! name = None ->
  reachable (db w) = true ->
  Forall (fun q => rejects (db w) q = false)
         (CreateSchemaRaw name ::
          (if String.eqb name "client_template" then [] else TenantPool.ddl name)) ->
  rejects (db w) (SetSearchPath name) = true ->
  exists w',
    TenantPool.getPoolForSchema name w = (inl DatabaseError, w') /\
    schemas w' !! name = Some (mkHandle (next_handle w)) /\
    TenantPool.getPoolForSchema name w' = (inr (mkHandle (next_handle w)), w').
Proof.
  intros Hnone Hreach Hprov Hsp.
  set (h := mkHandle (next_handle w)).
  eexists. split; [| split].
  - unfold TenantPool.getPoolForSchema. step. rewrite Hnone. step.
    erewrite bind_inr by (by apply connect_reachable).
    rewrite tenant_initSchema_as_batch.
    erewrite bind_inr
      by (apply query_each_ddl_accepted; [apply tenant_batch_is_ddl | exact Hprov]).
    step. step.
    erewrite bind_inl; [reflexivity |].
    unfold query. simpl. rewrite Hsp. reflexivity.
  - simpl. apply lookup_insert_eq.
  - unfold TenantPool.getPoolForSchema. step. simpl.
    rewrite lookup_insert_eq. reflexivity.
Qed.

Lemma getPoolForSchema_caches_before_search_path_witness :
  exists w',
    TenantPool.getPoolForSchema "client_acme_1" (fresh_world no_search_path_db)
    = (inl DatabaseError, w') /\
    schemas w' !! "client_acme_1" = Some (mkHandle 0) /\
    TenantPool.getPoolForSchema "client_acme_1" w' = (inr (mkHandle 0), w').
Proof.
  apply (getPoolForSchema_caches_before_search_path "client_acme_1"
           (fresh_world no_search_path_db));
    [reflexivity | reflexivity | repeat constructor | reflexivity].
Defined.

Lemma auth_initSchema_with_pool w p :
  pool w = Some p ->
  AuthPool.initSchema w = query_each p (AuthPool.ddl "auth_internal") w.
Proof. intros H. unfold AuthPool.initSchema. step. by rewrite H. Qed.

(** X4.  On a reachable database that accepts the registry definitions,
    the first [getPool] sends the five statements of [ddl()] once, on a
    fresh pool which it caches; every further call returns that pool and
    sends nothing. *)
Theorem getPool_provisions_once (w : World) :
  pool w = None ->
  reachable (db w) = true ->
  Forall (fun q => rejects (db w) q = false) (AuthPool.ddl "auth_internal") ->
  exists w',
    AuthPool.getPool w = (inr (mkHandle (next_handle w)), w') /\
    pool w' = Some (mkHandle (next_handle w)) /\
    log w' = log w ++ by_pool (mkHandle (next_handle w)) (AuthPool.ddl "auth_internal") /\
    db w' = db w /\
    AuthPool.getPool w' = (inr (mkHandle (next_handle w)), w').
Proof.
  intros Hnone Hreach Hacc.
  set (h := mkHandle (next_handle w)).
  eexists. split.
  - unfold AuthPool.getPool. step. rewrite Hnone. step. step.
    erewrite bind_inr by (by apply connect_reachable).
    erewrite bind_inr
      by (erewrite auth_initSchema_with_pool by reflexivity;
          by apply query_each_ddl_accepted).
    reflexivity.
  - split; [reflexivity |]. split; [reflexivity |]. split; [reflexivity |].
    unfold AuthPool.getPool. step. reflexivity.
Qed.

Lemma getPool_provisions_once_witness :
  exists w',
    AuthPool.getPool (fresh_world empty_db) = (inr (mkHandle 0), w') /\
    pool w' = Some (mkHandle 0) /\
    log w' = by_pool (mkHandle 0) (AuthPool.ddl "auth_internal") /\
    db w' = empty_db /\
    AuthPool.getPool w' = (inr (mkHandle 0), w').
Proof.
  apply (getPool_provisions_once (fresh_world empty_db));
    [reflexivity | reflexivity | repeat constructor].
Defined.

(** ** Further facts about the resolver chain *)

Lemma some_match_string r urls :
  SchemaDetection.some_match (JStr r) urls
  = inr (existsb (fun a => negb (String.eqb a "") && String.prefix a r) urls).
Proof.
  induction urls as [| a urls IH]; simpl; [reflexivity |].
  unfold SchemaDetection.url_matches. simpl.
  destruct (String.eqb a "") eqn:Ha; simpl; [exact IH |].
  destruct (String.eqb r "") eqn:Hr; simpl.
  - apply String.eqb_eq in Hr. subst r.
    assert (Hp : String.prefix a "" = false).
    { destruct a; [discriminate | reflexivity]. }
    rewrite Hp. exact IH.
  - destruct (String.prefix a r); simpl; [reflexivity | exact IH].
Qed.

Lemma some_match_falsy v urls :
  truthy v = false -> SchemaDetection.some_match v urls = inr false.
Proof.
  intros Hv. induction urls as [| a urls IH]; simpl; [reflexivity |].
  unfold SchemaDetection.url_matches. rewrite Hv. simpl.
  destruct (String.eqb a ""); exact IH.
Qed.

Lemma some_match_non_string v urls :
  truthy v = true -> (forall r, v <> JStr r) ->
  SchemaDetection.some_match v urls
  = if existsb (fun a => negb (String.eqb a "")) urls then inl TypeError else inr false.
Proof.
  intros Hv Hns. induction urls as [| a urls IH]; simpl; [reflexivity |].
  unfold SchemaDetection.url_matches. rewrite Hv. simpl.
  destruct (String.eqb a ""); simpl; [exact IH |].
  destruct v; try reflexivity; try discriminate. by destruct (Hns s).
Qed.

(** X5.  The tenant scan of the redirect step.  For a string [returnUrl]
    it never throws and selects the first scanned tenant that lists a
    non-empty prefix of the URL (an empty list entry matches nothing, an
    empty URL is matched by nothing); for a falsy value it selects nobody;
    for any other value it throws a [TypeError] as soon as some tenant
    lists a non-empty URL. *)
Theorem find_client_first_match (cs : list ClientRow) :
  (forall r, SchemaDetection.find_client (JStr r) cs = inr (List.find (allows r) cs)) /\
  (forall v, truthy v = false -> SchemaDetection.find_client v cs = inr None) /\
  (forall v, truthy v = true -> (forall r, v <> JStr r) ->
     SchemaDetection.find_client v cs
     = if lists_some_url cs then inl TypeError else inr None).
Proof.
  split; [| split].
  - intros r. induction cs as [| c cs IH]; simpl; [reflexivity |].
    rewrite some_match_string. fold (allows r c).
    destruct (allows r c); [reflexivity | exact IH].
  - intros v Hv. induction cs as [| c cs IH]; simpl; [reflexivity |].
    by rewrite some_match_falsy.
  - intros v Hv Hns. induction cs as [| c cs IH]; simpl; [reflexivity |].
    rewrite some_match_non_string by done.
    destruct (existsb _ (allowed_return_urls c)); simpl; [reflexivity | exact IH].
Qed.

Lemma find_client_first_match_witness :
  SchemaDetection.find_client (JNum 7) [acme_row; beta_row] = inl TypeError /\
  SchemaDetection.find_client (JBool false) [acme_row; beta_row] = inr None.
Proof.
  destruct (find_client_first_match [acme_row; beta_row]) as (_ & H2 & H3).
  split.
  - apply (H3 (JNum 7)); [reflexivity | discriminate].
  - apply (H2 (JBool false)). reflexivity.
Defined.

(** On a healthy database the control-plane pool is always obtained. *)
Lemma getPool_fresh_run (w : World) :
  pool w = None ->
  reachable (db w) = true ->
  Forall (fun q => rejects (db w) q = false) (AuthPool.ddl "auth_internal") ->
  AuthPool.getPool w
  = (inr (mkHandle (next_handle w)),
     sent (mkWorld (Some (mkHandle (next_handle w))) (schemas w) (pools w)
                   (S (next_handle w)) (db w) (log w) (clock w) (entropy w) (env w))
          (by_pool (mkHandle (next_handle w)) (AuthPool.ddl "auth_internal"))).
Proof.
  intros Hnone Hreach Hacc.
  unfold AuthPool.getPool. step. rewrite Hnone. step. step.
  erewrite bind_inr by (by apply connect_reachable).
  erewrite bind_inr
    by (erewrite auth_initSchema_with_pool by reflexivity;
        by apply query_each_ddl_accepted).
  reflexivity.
Qed.

Lemma healthy_all {d} (H : healthy d) (qs : list stmt) :
  Forall (fun q => rejects d q = false) qs.
Proof. destruct H as [_ H]. induction qs; constructor; auto. Qed.

Lemma getPool_healthy (w : World) :
  healthy (db w) ->
  exists p w',
    AuthPool.getPool w = (inr p, w') /\ pool w' = Some p /\
    db w' = db w /\ env w' = env w.
Proof.
  intros Hh. destruct (pool w) as [p |] eqn:Hp.
  - exists p, w. split; [| done]. unfold AuthPool.getPool. step. by rewrite Hp.
  - eexists _, _. split.
    + apply getPool_fresh_run; [done | apply Hh | apply (healthy_all Hh)].
    + done.
Qed.

Lemma query_select_all_healthy p w :
  healthy (db w) ->
  query p SelectAllClientServers w
  = (inr (ClientRows (scanned_clients (db w))), sent w [(hid p, SelectAllClientServers)]).
Proof. intros [_ Hr]. unfold query. by rewrite Hr. Qed.

(** Step 2 with a [returnUrl] that selects a tenant. *)
Lemma redirect_step_resolves `{L : Libs} req s w r c :
  session req = Some s ->
  obj_get (body req) "returnUrl" = JStr r ->
  healthy (db w) ->
  List.find (allows r) (scanned_clients (db w)) = Some c ->
  exists w1,
    SchemaDetection.detectSchemaFromReturnUrl (req, w)
    = (inr tt,
       (with_context req s SchemaDetection.CLIENT_TENANT (assigned_schema_name c)
                     (tenant_metadata c (JStr r)), w1)) /\
    db w1 = db w /\ env w1 = env w.
Proof.
  intros Hs Hr Hh Hf.
  destruct (getPool_healthy w Hh) as (p & w1 & Hp & _ & Hd1 & He1).
  assert (Hh1 : healthy (db w1)) by (by rewrite Hd1).
  pose proof (query_select_all_healthy p w1 Hh1) as Hq.
  eexists. split.
  - unfold SchemaDetection.detectSchemaFromReturnUrl.
    erewrite try_catch_inr; [reflexivity |].
    step. cbn [fst]. rewrite Hr.
    erewrite bind_inr by (apply lift_run; exact Hp).
    erewrite bind_inr by (apply lift_run; exact Hq).
    cbn [client_rows].
    destruct (find_client_first_match (scanned_clients (db w1))) as (Hfc & _).
    rewrite Hfc, Hd1, Hf.
    erewrite bind_inr by reflexivity. cbv beta iota.
    erewrite bind_inr by (apply setPoolContext_run; exact Hs).
    reflexivity.
  - simpl. by split.
Qed.

(** X6.  A request without a bearer token that verifies, whose session
    holds no context yet and whose [returnUrl] has a listed prefix, is
    resolved on a healthy database to the first such tenant: context
    [client_tenant], that tenant's partition, role [user]. *)
Theorem returnUrl_resolves_to_first_listing_tenant `{L : Libs} (req : Request)
    (w : World) (s : Session) (r : string) (c : ClientRow) :
  session req = Some s ->
  truthy_str (poolContext s) = false ->
  no_valid_bearer req w ->
  obj_get (body req) "returnUrl" = JStr r ->
  healthy (db w) ->
  List.find (allows r) (scanned_clients (db w)) = Some c ->
  exists req' w',
    SchemaDetection.detectSchema (req, w) = (inr tt, (req', w')) /\
    poolContext_of req' = Some SchemaDetection.CLIENT_TENANT /\
    schema_of req' = Some (assigned_schema_name c) /\
    poolMetadata_of req' = Some (tenant_metadata c (JStr r)) /\
    SchemaDetection.getUserRole req' = JStr SchemaDetection.USER /\
    db w' = db w.
Proof.
  intros Hs Hc Hnv Hr Hh Hf.
  assert (Hpc : truthy_str (poolContext_of req) = false)
    by (unfold poolContext_of; by rewrite Hs).
  destruct (token_step_falls_through req w Hnv) as (w1 & H1 & Hd1 & He1).
  assert (Hh1 : healthy (db w1)) by (by rewrite Hd1).
  assert (Hf1 : List.find (allows r) (scanned_clients (db w1)) = Some c)
    by (by rewrite Hd1).
  destruct (redirect_step_resolves req s w1 r c Hs Hr Hh1 Hf1) as (w2 & H2 & Hd2 & He2).
  set (req2 := with_context req s SchemaDetection.CLIENT_TENANT (assigned_schema_name c)
                            (tenant_metadata c (JStr r))) in *.
  destruct (default_step_keeps_context req2
              (mkSession (userId s) (role s) (Some SchemaDetection.CLIENT_TENANT)
                         (Some (assigned_schema_name c))
                         (Some (tenant_metadata c (JStr r))))
              w2 eq_refl eq_refl) as (req' & H4 & Hs' & _).
  exists req', w2. split.
  - unfold SchemaDetection.detectSchema.
    erewrite try_catch_inr; [reflexivity |].
    erewrite bind_inr by exact H1. cbv beta.
    erewrite bind_inr by (rewrite guarded_step_runs by exact Hpc; exact H2). cbv beta.
    erewrite bind_inr by (by apply guarded_step_skipped). cbv beta.
    exact H4.
  - unfold poolContext_of, schema_of, poolMetadata_of, SchemaDetection.getUserRole,
      poolMetadata_of.
    rewrite Hs'. cbn. repeat split. congruence.
Qed.

Lemma returnUrl_resolves_to_first_listing_tenant_witness :
  exists req' w',
    SchemaDetection.detectSchema (L := toy_libs)
      (request_with None [("returnUrl", JStr "https://acme.example/dashboard")]
                    empty_session,
       fresh_world two_tenant_db) = (inr tt, (req', w')) /\
    poolContext_of req' = Some "client_tenant" /\
    schema_of req' = Some "client_acme_1" /\
    poolMetadata_of req'
    = Some (tenant_metadata acme_row (JStr "https://acme.example/dashboard")) /\
    SchemaDetection.getUserRole req' = JStr "user" /\
    db w' = two_tenant_db.
Proof.
  apply (returnUrl_resolves_to_first_listing_tenant (L := toy_libs)
           (request_with None [("returnUrl", JStr "https://acme.example/dashboard")]
                         empty_session)
           (fresh_world two_tenant_db) empty_session "https://acme.example/dashboard"
           acme_row); try reflexivity; try exact I.
  by split.
Defined.

(** C1, on the code.  A request that carries a bearer token with a valid
    signature, an expiry in the future and the type ["api_token"], bound
    to partition A, together with a [returnUrl] that a tenant bound to
    another partition B lists, is not resolved by the token:
    [verifyApiToken] throws a [TypeError] on the token, the token step
    swallows it, and the request leaves [detectSchema] with the context
    [client_tenant] on partition B, with the role of a tenant user and
    without a client context. *)
Theorem valid_bearer_token_loses_to_returnUrl `{L : Libs} (req : Request) (w : World)
    (s : Session) (token : string) (pl : JwtPayload) (r : string) (rowB : ClientRow) :
  session req = Some s ->
  truthy_str (poolContext s) = false ->
  SchemaDetection.bearer_token req = Some token ->
  token <> "" ->
  jwt_decode token = Some (pl, hmac (token_secret w) pl) ->
  (forall e, jwt_exp pl = Some e -> clock w / 1000 < e) ->
  jwt_type pl = Some "api_token" ->
  obj_get (body req) "returnUrl" = JStr r ->
  healthy (db w) ->
  List.find (allows r) (scanned_clients (db w)) = Some rowB ->
  assigned_schema_name rowB <> jwt_schema pl ->
  (ClientServerService.verifyApiToken token w).1 = inl TypeError /\
  exists req' w',
    SchemaDetection.detectSchema (req, w) = (inr tt, (req', w')) /\
    poolContext_of req' = Some SchemaDetection.CLIENT_TENANT /\
    schema_of req' = Some (assigned_schema_name rowB) /\
    schema_of req' <> Some (jwt_schema pl) /\
    SchemaDetection.getUserRole req' = JStr SchemaDetection.USER /\
    clientContext req' = clientContext req.
Proof.
  intros Hs Hc Hb Hne Hdec Hexp Hty Hr Hh Hf Hdiff.
  assert (Hpc : truthy_str (poolContext_of req) = false)
    by (unfold poolContext_of; by rewrite Hs).
  destruct (getPool_healthy w Hh) as (p & w0 & Hp & _).
  pose proof (verifyApiToken_signed token w pl p w0 Hne Hdec Hp) as Hv.
  assert (Hlive : match jwt_exp pl with
                  | Some e => e <=? clock w / 1000
                  | None => false
                  end = false).
  { destruct (jwt_exp pl) as [e |] eqn:He; [| reflexivity].
    apply Z.leb_gt. by apply Hexp. }
  rewrite Hlive, Hty in Hv. cbn in Hv.
  split; [by rewrite Hv |].
  assert (Hnv : no_valid_bearer req w).
  { unfold no_valid_bearer. rewrite Hb. by eexists _, _. }
  destruct (token_step_falls_through req w Hnv) as (w1 & H1 & Hd1 & He1).
  assert (Hh1 : healthy (db w1)) by (by rewrite Hd1).
  assert (Hf1 : List.find (allows r) (scanned_clients (db w1)) = Some rowB)
    by (by rewrite Hd1).
  destruct (redirect_step_resolves req s w1 r rowB Hs Hr Hh1 Hf1) as (w2 & H2 & Hd2 & He2).
  set (req2 := with_context req s SchemaDetection.CLIENT_TENANT (assigned_schema_name rowB)
                            (tenant_metadata rowB (JStr r))) in *.
  destruct (default_step_keeps_context req2
              (mkSession (userId s) (role s) (Some SchemaDetection.CLIENT_TENANT)
                         (Some (assigned_schema_name rowB))
                         (Some (tenant_metadata rowB (JStr r))))
              w2 eq_refl eq_refl) as (req' & H4 & Hs' & Hcc).
  exists req', w2. split.
  - unfold SchemaDetection.detectSchema.
    erewrite try_catch_inr; [reflexivity |].
    erewrite bind_inr by exact H1. cbv beta.
    erewrite bind_inr by (rewrite guarded_step_runs by exact Hpc; exact H2). cbv beta.
    erewrite bind_inr by (by apply guarded_step_skipped). cbv beta.
    exact H4.
  - unfold poolContext_of, schema_of, poolMetadata_of, SchemaDetection.getUserRole,
      poolMetadata_of.
    rewrite Hs', Hcc. cbn. repeat split; congruence.
Qed.

Lemma valid_bearer_token_loses_to_returnUrl_witness :
  registry_row two_tenant_db "client_a" = Some acme_row /\
  (ClientServerService.verifyApiToken (L := toy_libs) "tok.good"
     (fresh_world two_tenant_db)).1 = inl TypeError /\
  exists req' w',
    SchemaDetection.detectSchema (L := toy_libs)
      (acme_token_beta_url, fresh_world two_tenant_db) = (inr tt, (req', w')) /\
    poolContext_of req' = Some "client_tenant" /\
    schema_of req' = Some "client_beta_2" /\
    schema_of req' <> Some "client_acme_1" /\
    SchemaDetection.getUserRole req' = JStr "user" /\
    clientContext req' = None.
Proof.
  assert (Hne : "tok.good" <> "") by discriminate.
  assert (Hexp : forall e,
             jwt_exp (toy_payload (Some "api_token") 1800000000) = Some e ->
             clock (fresh_world two_tenant_db) / 1000 < e).
  { intros e He. inversion He. reflexivity. }
  assert (Hh : healthy (db (fresh_world two_tenant_db))) by (by split).
  assert (Hdiff : assigned_schema_name beta_row
                  <> jwt_schema (toy_payload (Some "api_token") 1800000000))
    by discriminate.
  split; [reflexivity |].
  exact (valid_bearer_token_loses_to_returnUrl (L := toy_libs) acme_token_beta_url
           (fresh_world two_tenant_db) empty_session "tok.good"
           (toy_payload (Some "api_token") 1800000000) "https://beta.example/login"
           beta_row eq_refl eq_refl eq_refl Hne eq_refl Hexp eq_refl eq_refl Hh eq_refl
           Hdiff).
Defined.

(** ** What every run of the resolver keeps *)

Section KeepsReq.

Context `{L : Libs}.
Variable P : Request -> Prop.
Hypothesis P_blind : session_blind P.

Lemma keeps_req_ret {A} (a : A) : keeps_req P (ret a).
Proof. by intros req w H. Qed.

Lemma keeps_req_throw {A} e : keeps_req P (throw (S := Request * World) (A := A) e).
Proof. by intros req w H. Qed.

Lemma keeps_req_bind {A B} (m : Mreq A) (k : A -> Mreq B) :
  keeps_req P m -> (forall a, keeps_req P (k a)) -> keeps_req P (bind m k).
Proof.
  intros Hm Hk req w H. unfold bind. specialize (Hm req w H).
  destruct (m (req, w)) as [[e | a] [req1 w1]]; simpl in *; [done |].
  by apply Hk.
Qed.

Lemma keeps_req_try_catch {A} (m : Mreq A) h :
  keeps_req P m -> (forall e, keeps_req P (h e)) -> keeps_req P (try_catch m h).
Proof.
  intros Hm Hh req w H. unfold try_catch. specialize (Hm req w H).
  destruct (m (req, w)) as [[e | a] [req1 w1]]; simpl in *; [| done].
  by apply Hh.
Qed.

Lemma keeps_req_lift {A} (m : M A) : keeps_req P (lift m).
Proof. intros req w H. unfold lift. simpl. by destruct (m w). Qed.

Lemma keeps_req_get {B} (k : Request -> Mreq B) :
  (forall r w, P r -> P (k r (r, w)).2.1) -> keeps_req P (bind get_req k).
Proof. intros Hk req w H. unfold bind, get_req. simpl. by apply Hk. Qed.

Lemma keeps_req_app {A} (m : Mreq A) r w : keeps_req P m -> P r -> P (m (r, w)).2.1.
Proof. intros Hm Hr. by apply Hm. Qed.

Lemma keeps_req_of_result {A} (r : error + A) :
  keeps_req P (SchemaDetection.of_result r).
Proof. destruct r; by intros req w H. Qed.

Lemma keeps_req_setPoolContext c sn md :
  keeps_req P (SchemaDetection.setPoolContext c sn md).
Proof.
  intros req w H. unfold SchemaDetection.setPoolContext, bind, get_req. simpl.
  destruct (session req) as [s |] eqn:Hs; simpl; [| done].
  eapply P_blind; [| exact H]. simpl. rewrite Hs. split; intros _; by eexists.
Qed.

Lemma keeps_req_detectSchemaFromApiToken :
  keeps_req P SchemaDetection.detectSchemaFromApiToken.
Proof.
  unfold SchemaDetection.detectSchemaFromApiToken.
  apply keeps_req_try_catch; [| intros e; apply keeps_req_ret].
  apply keeps_req_get. intros r w Hr.
  destruct (SchemaDetection.bearer_token r); [| done].
  apply keeps_req_app; [| exact Hr]. clear r w Hr.
  apply keeps_req_bind; [| intros ?; apply keeps_req_ret].
  apply keeps_req_try_catch; [| intros e; apply keeps_req_ret].
  apply keeps_req_bind; [apply keeps_req_lift |]. intros ci.
  apply keeps_req_bind; [apply keeps_req_setPoolContext |]. intros _.
  apply keeps_req_get. intros r w Hr. simpl.
  eapply P_blind; [| exact Hr]. done.
Qed.

Lemma keeps_req_detectSchemaFromReturnUrl :
  keeps_req P SchemaDetection.detectSchemaFromReturnUrl.
Proof.
  unfold SchemaDetection.detectSchemaFromReturnUrl.
  apply keeps_req_try_catch; [| intros e; apply keeps_req_ret].
  apply keeps_req_get. intros r w Hr.
  destruct (obj_get (body r) "returnUrl") eqn:Hv; try done;
    (apply keeps_req_app; [| exact Hr]; clear w Hr;
     apply keeps_req_bind; [apply keeps_req_lift |]; intros p;
     apply keeps_req_bind; [apply keeps_req_lift |]; intros rs;
     apply keeps_req_bind; [apply keeps_req_of_result |]; intros [c |];
     [ apply keeps_req_bind; [apply keeps_req_setPoolContext | intros ?; apply keeps_req_ret]
     | apply keeps_req_ret ]).
Qed.

Lemma keeps_req_detectUserRole : keeps_req P SchemaDetection.detectUserRole.
Proof.
  unfold SchemaDetection.detectUserRole.
  apply keeps_req_try_catch; [| intros e; apply keeps_req_ret].
  apply keeps_req_get. intros r w Hr.
  destruct (truthy (userId_of r) && negb (truthy_str (poolContext_of r))); [| done].
  destruct (is_str (role_of r) "admin"); apply keeps_req_app; try exact Hr; clear w Hr.
  - apply keeps_req_bind; [apply keeps_req_setPoolContext | intros ?; apply keeps_req_ret].
  - apply keeps_req_bind; [apply keeps_req_lift |]. intros p.
    apply keeps_req_bind; [apply keeps_req_lift |]. intros rs.
    destruct (SchemaDetection.client_count rs) as [[| n] |].
    + apply keeps_req_bind; [apply keeps_req_lift |]. intros w0.
      apply keeps_req_bind; [apply keeps_req_setPoolContext | intros ?; apply keeps_req_ret].
    + apply keeps_req_bind; [apply keeps_req_setPoolContext | intros ?; apply keeps_req_ret].
    + apply keeps_req_bind; [apply keeps_req_lift |]. intros w0.
      apply keeps_req_bind; [apply keeps_req_setPoolContext | intros ?; apply keeps_req_ret].
Qed.

End KeepsReq.

(** A step wrapped in a catch-all that calls [next()] always returns. *)
Lemma caught_step_returns (m : Mreq unit) st :
  (try_catch m (fun _ => next) st).1 = inr tt.
Proof.
  unfold try_catch, next, ret. destruct (m st) as [[e | []] st']; reflexivity.
Qed.

Lemma guarded_step_returns (X : Mreq unit) :
  (forall st, (X st).1 = inr tt) ->
  forall st,
    ((let* r := get_req in
      if negb (truthy_str (poolContext_of r)) then X else ret tt) st).1 = inr tt.
Proof.
  intros HX st. unfold bind, get_req. cbn [fst].
  destruct (negb (truthy_str (poolContext_of st.1))); [apply HX | reflexivity].
Qed.

Lemma keeps_req_guarded P (X : Mreq unit) :
  keeps_req P X ->
  keeps_req P (let* r := get_req in
               if negb (truthy_str (poolContext_of r)) then X else ret tt).
Proof.
  intros HX req w H. unfold bind, get_req. cbn [fst].
  destruct (negb (truthy_str (poolContext_of req))); [by apply HX | done].
Qed.

Lemma run_returning_step (X : Mreq unit) (P : Request -> Prop) req w :
  (forall st, (X st).1 = inr tt) -> keeps_req P X -> P req ->
  exists req' w', X (req, w) = (inr tt, (req', w')) /\ P req'.
Proof.
  intros Hret Hk HP. specialize (Hret (req, w)). specialize (Hk req w HP).
  destruct (X (req, w)) as [r [req' w']]. simpl in *. subst r. by exists req', w'.
Qed.

(** The three detection steps always return, and keep any property of
    the request that depends only on the presence of a session. *)
Lemma detection_steps_return `{L : Libs} (P : Request -> Prop) req w :
  session_blind P -> P req ->
  exists req3 w3,
    (SchemaDetection.detectSchemaFromApiToken;;
     (let* r := get_req in
      if negb (truthy_str (poolContext_of r)) then SchemaDetection.detectSchemaFromReturnUrl
      else ret tt);;
     (let* r := get_req in
      if negb (truthy_str (poolContext_of r)) then SchemaDetection.detectUserRole
      else ret tt);;
     SchemaDetection.setDefaultSchema) (req, w)
    = SchemaDetection.setDefaultSchema (req3, w3) /\ P req3.
Proof.
  intros Hb HP.
  destruct (run_returning_step SchemaDetection.detectSchemaFromApiToken P req w)
    as (req1 & w1 & E1 & P1);
    [intros st; apply caught_step_returns
    | by apply keeps_req_detectSchemaFromApiToken | exact HP |].
  destruct (run_returning_step
              (let* r := get_req in
               if negb (truthy_str (poolContext_of r))
               then SchemaDetection.detectSchemaFromReturnUrl else ret tt) P req1 w1)
    as (req2 & w2 & E2 & P2);
    [apply guarded_step_returns; intros st; apply caught_step_returns
    | by apply keeps_req_guarded, keeps_req_detectSchemaFromReturnUrl | exact P1 |].
  destruct (run_returning_step
              (let* r := get_req in
               if negb (truthy_str (poolContext_of r))
               then SchemaDetection.detectUserRole else ret tt) P req2 w2)
    as (req3 & w3 & E3 & P3);
    [apply guarded_step_returns; intros st; apply caught_step_returns
    | by apply keeps_req_guarded, keeps_req_detectUserRole | exact P2 |].
  exists req3, w3. split; [| exact P3].
  erewrite bind_inr by exact E1. cbv beta.
  erewrite bind_inr by exact E2. cbv beta.
  erewrite bind_inr by exact E3. reflexivity.
Qed.

(** X7.  With a session attached, [detectSchema] never throws, and the
    request leaves it with a session that holds a pool context. *)
Theorem detectSchema_always_resolves `{L : Libs} (req : Request) (w : World) :
  is_Some (session req) ->
  exists req' w',
    SchemaDetection.detectSchema (req, w) = (inr tt, (req', w')) /\
    is_Some (session req') /\
    truthy_str (poolContext_of req') = true.
Proof.
  intros Hs.
  destruct (detection_steps_return (fun r => is_Some (session r)) req w)
    as (req3 & w3 & Hrun & [s3 Hs3]); [by intros r r' [H _] | exact Hs |].
  unfold SchemaDetection.detectSchema.
  destruct (truthy_str (poolContext s3)) eqn:Hc.
  - destruct (default_step_keeps_context req3 s3 w3 Hs3 Hc) as (req' & H4 & Hs' & _).
    exists req', w3. split.
    + erewrite try_catch_inr; [reflexivity |]. rewrite Hrun. exact H4.
    + unfold poolContext_of. rewrite Hs'. split; [by eexists | exact Hc].
  - pose proof (default_step_installs_fallback req3 s3 w3 Hs3 Hc) as H4.
    eexists _, w3. split.
    + erewrite try_catch_inr; [reflexivity |]. rewrite Hrun. exact H4.
    + split; [by eexists | reflexivity].
Qed.

Lemma detectSchema_always_resolves_witness :
  exists req' w',
    SchemaDetection.detectSchema (L := toy_libs)
      (request_with (Some "Bearer tok.forged") [("returnUrl", JNum 7)] empty_session,
       fresh_world broken_registry_db) = (inr tt, (req', w')) /\
    is_Some (session req') /\
    truthy_str (poolContext_of req') = true.
Proof.
  apply (detectSchema_always_resolves (L := toy_libs)). by eexists.
Defined.

(** X8.  Without a session attached, [detectSchema] rejects every request
    with a [TypeError]: no step can store a context, and neither can the
    fallback. *)
Theorem detectSchema_needs_a_session `{L : Libs} (req : Request) (w : World) :
  session req = None ->
  exists st, SchemaDetection.detectSchema (req, w) = (inl TypeError, st).
Proof.
  intros Hs.
  destruct (detection_steps_return (fun r => session r = None) req w)
    as (req3 & w3 & Hrun & Hs3).
  { intros r r' [H1 H2] Hr. destruct (session r') as [s' |]; [| done].
    destruct H2 as [x Hx]; [by eexists | congruence]. }
  { exact Hs. }
  assert (Hd : SchemaDetection.setDefaultSchema (req3, w3) = (inl TypeError, (req3, w3))).
  { unfold SchemaDetection.setDefaultSchema, SchemaDetection.setPoolContext,
      bind, get_req, lift, get_world.
    cbn [fst snd]. unfold poolContext_of. rewrite Hs3.
    cbn [truthy_str negb fst snd]. rewrite Hs3. reflexivity. }
  exists (req3, w3). unfold SchemaDetection.detectSchema.
  erewrite try_catch_inl; [exact Hd |]. rewrite Hrun. exact Hd.
Qed.

Lemma detectSchema_needs_a_session_witness :
  exists st,
    SchemaDetection.detectSchema (L := toy_libs)
      (sessionless_request, fresh_world two_tenant_db) = (inl TypeError, st).
Proof.
  apply (detectSchema_needs_a_session (L := toy_libs)). reflexivity.
Defined.

(** ** Resolution by the role of the logged-in account *)

Section RoleStep.

Context `{L : Libs}.

(** Step 3 for an administrator: no database access. *)
Lemma role_step_admin req s w :
  session req = Some s ->
  truthy_str (poolContext s) = false ->
  truthy (userId s) = true ->
  role s = JStr "admin" ->
  SchemaDetection.detectUserRole (req, w)
  = (inr tt, (with_context req s SchemaDetection.AUTH_INTERNAL "auth_internal"
                           (admin_metadata (userId s)), w)).
Proof.
  intros Hs Hc Hu Hr. unfold SchemaDetection.detectUserRole.
  erewrite try_catch_inr; [reflexivity |].
  step. cbn [fst]. unfold userId_of, poolContext_of, role_of. rewrite Hs, Hu, Hc, Hr.
  cbn [negb andb is_str String.eqb Ascii.eqb Bool.eqb].
  erewrite bind_inr by (apply setPoolContext_run; exact Hs).
  reflexivity.
Qed.

Lemma query_count_healthy p u w :
  healthy (db w) ->
  query p (CountClientServersOfUser (JStr u)) w
  = (inr (CountRow (owned_count (db w) u)),
     sent w [(hid p, CountClientServersOfUser (JStr u))]).
Proof. intros [_ Hr]. unfold query. by rewrite Hr. Qed.

(** Step 3 for any other account on a healthy database: the number of
    registry rows it owns decides. *)
Lemma role_step_counts req s w u :
  session req = Some s ->
  truthy_str (poolContext s) = false ->
  userId s = JStr u -> u <> "" ->
  is_str (role s) "admin" = false ->
  healthy (db w) ->
  exists w1,
    SchemaDetection.detectUserRole (req, w)
    = (inr tt,
       (match owned_count (db w) u with
        | S n => with_context req s SchemaDetection.AUTH_INTERNAL "auth_internal"
                              (owner_metadata (JStr u) (S n))
        | O => with_context req s SchemaDetection.DEFAULT (SchemaDetection.default_schema w)
                            (regular_metadata (JStr u))
        end, w1)) /\
    db w1 = db w /\ env w1 = env w.
Proof.
  intros Hs Hc Hu Hne Hr Hh.
  destruct (getPool_healthy w Hh) as (p & w1 & Hp & _ & Hd1 & He1).
  assert (Hh1 : healthy (db w1)) by (by rewrite Hd1).
  pose proof (query_count_healthy p u w1 Hh1) as Hq. rewrite Hd1 in Hq.
  assert (Htruthy : truthy (JStr u) = true).
  { simpl. destruct (String.eqb u "") eqn:E; [| reflexivity].
    apply String.eqb_eq in E. contradiction. }
  eexists. split.
  - unfold SchemaDetection.detectUserRole.
    erewrite try_catch_inr; [reflexivity |].
    step. cbn [fst]. unfold userId_of, poolContext_of, role_of.
    rewrite Hs, Hu, Htruthy, Hc, Hr. cbn [negb andb].
    erewrite bind_inr by (apply lift_run; exact Hp).
    erewrite bind_inr by (apply lift_run; exact Hq).
    cbn [SchemaDetection.client_count].
    destruct (owned_count (db w) u) as [| n].
    + erewrite bind_inr by (apply lift_run; reflexivity). cbv beta.
      erewrite bind_inr by (apply setPoolContext_run; exact Hs).
      unfold SchemaDetection.default_schema. cbn [env sent]. rewrite He1. reflexivity.
    + erewrite bind_inr by (apply setPoolContext_run; exact Hs).
      reflexivity.
  - simpl. by split.
Qed.

(** Step 3 when the ownership count is refused: the request is left as
    it was. *)
Lemma role_step_count_refused req s w :
  session req = Some s ->
  is_str (role s) "admin" = false ->
  rejects (db w) (CountClientServersOfUser (userId s)) = true ->
  exists w1,
    SchemaDetection.detectUserRole (req, w) = (inr tt, (req, w1)) /\
    db w1 = db w /\ env w1 = env w.
Proof.
  intros Hs Hr Hrej. unfold SchemaDetection.detectUserRole.
  destruct (truthy (userId_of req) && negb (truthy_str (poolContext_of req))) eqn:Hg.
  2:{ exists w. split; [| done]. unfold try_catch, bind, get_req. cbn [fst]. by rewrite Hg. }
  assert (Hro : is_str (role_of req) "admin" = false)
    by (unfold role_of; by rewrite Hs).
  assert (Huo : userId_of req = userId s) by (unfold userId_of; by rewrite Hs).
  destruct (AuthPool.getPool w) as [[e | p] w1] eqn:Hp.
  - exists w1. split.
    + erewrite try_catch_inl; [reflexivity |].
      step. cbn [fst]. rewrite Hg, Hro.
      erewrite bind_inl; [reflexivity |]. by apply lift_run.
    + split; [eapply keeps_db_run | eapply keeps_env_run]; eauto using keeps_db_getPool.
  - assert (Hd1 : db w1 = db w) by (eapply keeps_db_run; eauto using keeps_db_getPool).
    assert (He1 : env w1 = env w) by (eapply keeps_env_run; eauto using keeps_db_getPool).
    assert (Hq : query p (CountClientServersOfUser (userId s)) w1
                 = (inl DatabaseError,
                    sent w1 [(hid p, CountClientServersOfUser (userId s))])).
    { assert (Hrej1 : rejects (db w1) (CountClientServersOfUser (userId s)) = true)
        by (by rewrite Hd1).
      unfold query. rewrite Hrej1. reflexivity. }
    eexists. split.
    + erewrite try_catch_inl; [reflexivity |].
      step. cbn [fst]. rewrite Hg, Hro, Huo.
      erewrite bind_inr by (apply lift_run; exact Hp).
      erewrite bind_inl; [reflexivity |]. apply lift_run. exact Hq.
    + simpl. by split.
Qed.

(** Running the chain when neither the token nor the redirect step
    resolves and step 3 behaves as [H3] says. *)
Lemma chain_through_role_step req w req3 :
  truthy_str (poolContext_of req) = false ->
  no_valid_bearer req w ->
  no_redirect_match req w ->
  (forall w2, db w2 = db w -> env w2 = env w ->
     exists w3, SchemaDetection.detectUserRole (req, w2) = (inr tt, (req3, w3)) /\
                env w3 = env w) ->
  exists w3,
    (SchemaDetection.detectSchemaFromApiToken;;
     (let* r := get_req in
      if negb (truthy_str (poolContext_of r)) then SchemaDetection.detectSchemaFromReturnUrl
      else ret tt);;
     (let* r := get_req in
      if negb (truthy_str (poolContext_of r)) then SchemaDetection.detectUserRole
      else ret tt);;
     SchemaDetection.setDefaultSchema) (req, w)
    = SchemaDetection.setDefaultSchema (req3, w3) /\ env w3 = env w.
Proof.
  intros Hpc Hnv Hno H3.
  destruct (token_step_falls_through req w Hnv) as (w1 & E1 & Hd1 & He1).
  assert (Hno1 : no_redirect_match req w1).
  { unfold no_redirect_match in *. by rewrite Hd1. }
  destruct (redirect_step_falls_through req w1 Hno1) as (w2 & E2 & Hd2 & He2).
  destruct (H3 w2) as (w3 & E3 & He3); [congruence | congruence |].
  exists w3. split; [| exact He3].
  erewrite bind_inr by exact E1. cbv beta.
  erewrite bind_inr by (rewrite guarded_step_runs by exact Hpc; exact E2). cbv beta.
  erewrite bind_inr by (rewrite guarded_step_runs by exact Hpc; exact E3).
  reflexivity.
Qed.

End RoleStep.

(** X9.  A logged-in account whose session role is ["admin"], with no
    context yet, no token that verifies and no [returnUrl] that selects a
    tenant, is resolved to the control plane as system administrator
    without any database lookup of ownership, and passes
    [requireSystemAdmin] and [requireAdminContext]. *)
Theorem admin_resolves_to_control_plane `{L : Libs} (req : Request) (w : World)
    (s : Session) :
  session req = Some s ->
  truthy_str (poolContext s) = false ->
  truthy (userId s) = true ->
  role s = JStr "admin" ->
  no_valid_bearer req w ->
  no_redirect_match req w ->
  exists req' w',
    SchemaDetection.detectSchema (req, w) = (inr tt, (req', w')) /\
    poolContext_of req' = Some SchemaDetection.AUTH_INTERNAL /\
    schema_of req' = Some "auth_internal" /\
    poolMetadata_of req' = Some (admin_metadata (userId s)) /\
    PoolService.requireSystemAdmin req' = inr tt /\
    PoolService.requireAdminContext req' = inr tt.
Proof.
  intros Hs Hc Hu Hr Hnv Hno.
  assert (Hpc : truthy_str (poolContext_of req) = false)
    by (unfold poolContext_of; by rewrite Hs).
  destruct (chain_through_role_step req w
              (with_context req s SchemaDetection.AUTH_INTERNAL "auth_internal"
                            (admin_metadata (userId s))) Hpc Hnv Hno)
    as (w3 & Hrun & _).
  { intros w2 _ He2. exists w2. split; [by apply role_step_admin | exact He2]. }
  destruct (default_step_keeps_context
              (with_context req s SchemaDetection.AUTH_INTERNAL "auth_internal"
                            (admin_metadata (userId s)))
              (mkSession (userId s) (role s) (Some SchemaDetection.AUTH_INTERNAL)
                         (Some "auth_internal") (Some (admin_metadata (userId s))))
              w3 eq_refl eq_refl) as (req' & H4 & Hs' & _).
  exists req', w3. split.
  - unfold SchemaDetection.detectSchema.
    erewrite try_catch_inr; [reflexivity |]. rewrite Hrun. exact H4.
  - unfold PoolService.requireSystemAdmin, PoolService.requireAdminContext,
      PoolService.hasAdminContext, SchemaDetection.isSystemAdmin,
      SchemaDetection.getUserRole, poolContext_of, schema_of, poolMetadata_of.
    rewrite Hs'. cbn. by repeat split.
Qed.

Lemma admin_resolves_to_control_plane_witness :
  exists req' w',
    SchemaDetection.detectSchema (L := toy_libs)
      (logged_in "u-admin" "admin", fresh_world broken_registry_db)
    = (inr tt, (req', w')) /\
    poolContext_of req' = Some "auth_internal" /\
    schema_of req' = Some "auth_internal" /\
    poolMetadata_of req' = Some (admin_metadata (JStr "u-admin")) /\
    PoolService.requireSystemAdmin req' = inr tt /\
    PoolService.requireAdminContext req' = inr tt.
Proof.
  apply (admin_resolves_to_control_plane (L := toy_libs) (logged_in "u-admin" "admin")
           (fresh_world broken_registry_db)
           (mkSession (JStr "u-admin") (JStr "admin") None None None));
    try reflexivity; try exact I.
  intros c. discriminate.
Defined.

(** X10.  A logged-in account that is not an administrator, with no
    context yet, no token that verifies and no [returnUrl] that selects a
    tenant, is resolved on a healthy database by the number of registry
    rows it owns: with at least one it becomes [owner] on the control
    plane and passes [requireAdminContext] but not [requireSystemAdmin];
    with none it becomes a tenant [user] on the default partition and
    passes neither. *)
Theorem ownership_count_decides_owner_or_user `{L : Libs} (req : Request) (w : World)
    (s : Session) (u : string) :
  session req = Some s ->
  truthy_str (poolContext s) = false ->
  userId s = JStr u -> u <> "" ->
  is_str (role s) "admin" = false ->
  no_valid_bearer req w ->
  no_redirect_match req w ->
  healthy (db w) ->
  exists req' w',
    SchemaDetection.detectSchema (req, w) = (inr tt, (req', w')) /\
    PoolService.requireSystemAdmin req' <> inr tt /\
    match owned_count (db w) u with
    | S n =>
        poolContext_of req' = Some SchemaDetection.AUTH_INTERNAL /\
        schema_of req' = Some "auth_internal" /\
        poolMetadata_of req' = Some (owner_metadata (JStr u) (S n)) /\
        PoolService.requireAdminContext req' = inr tt
    | O =>
        poolContext_of req' = Some SchemaDetection.DEFAULT /\
        schema_of req' = Some (SchemaDetection.default_schema w) /\
        poolMetadata_of req' = Some (regular_metadata (JStr u)) /\
        PoolService.requireAdminContext req' <> inr tt
    end.
Proof.
  intros Hs Hc Hu Hne Hr Hnv Hno Hh.
  assert (Hpc : truthy_str (poolContext_of req) = false)
    by (unfold poolContext_of; by rewrite Hs).
  set (req3 := match owned_count (db w) u with
               | S n => with_context req s SchemaDetection.AUTH_INTERNAL "auth_internal"
                                     (owner_metadata (JStr u) (S n))
               | O => with_context req s SchemaDetection.DEFAULT
                                   (SchemaDetection.default_schema w)
                                   (regular_metadata (JStr u))
               end).
  destruct (chain_through_role_step req w req3 Hpc Hnv Hno) as (w3 & Hrun & _).
  { intros w2 Hd2 He2.
    assert (Hh2 : healthy (db w2)) by (by rewrite Hd2).
    destruct (role_step_counts req s w2 u Hs Hc Hu Hne Hr Hh2) as (w3 & E3 & _ & He3).
    exists w3. split; [| congruence].
    rewrite E3. unfold req3, SchemaDetection.default_schema. by rewrite Hd2, He2. }
  assert (Hs3 : exists s3, session req3 = Some s3 /\ truthy_str (poolContext s3) = true).
  { unfold req3. destruct (owned_count (db w) u); eexists; split; reflexivity. }
  destruct Hs3 as (s3 & Hs3 & Hc3).
  destruct (default_step_keeps_context req3 s3 w3 Hs3 Hc3) as (req' & H4 & Hs' & _).
  exists req', w3. split.
  - unfold SchemaDetection.detectSchema.
    erewrite try_catch_inr; [reflexivity |]. rewrite Hrun. exact H4.
  - unfold PoolService.requireSystemAdmin, PoolService.requireAdminContext,
      PoolService.hasAdminContext, SchemaDetection.isSystemAdmin,
      SchemaDetection.getUserRole, poolContext_of, schema_of, poolMetadata_of.
    rewrite Hs'. unfold req3 in Hs3.
    destruct (owned_count (db w) u); inversion Hs3; subst s3; cbn; by repeat split.
Qed.

Lemma ownership_count_decides_owner_or_user_witness :
  (exists req' w',
      SchemaDetection.detectSchema (L := toy_libs)
        (logged_in "u-carol" "user", fresh_world owned_tenant_db) = (inr tt, (req', w')) /\
      poolContext_of req' = Some "auth_internal" /\
      poolMetadata_of req' = Some (owner_metadata (JStr "u-carol") 1)) /\
  (exists req' w',
      SchemaDetection.detectSchema (L := toy_libs)
        (logged_in "u-dave" "user", fresh_world owned_tenant_db) = (inr tt, (req', w')) /\
      poolContext_of req' = Some "default" /\
      schema_of req' = Some "client_template").
Proof.
  assert (Hh : healthy (db (fresh_world owned_tenant_db))) by (by split).
  split.
  - assert (Hn : "u-carol" <> "") by discriminate.
    assert (Hr : no_redirect_match (logged_in "u-carol" "user")
                                   (fresh_world owned_tenant_db))
      by (intros c; discriminate).
    pose proof (ownership_count_decides_owner_or_user (L := toy_libs)
                  (logged_in "u-carol" "user") (fresh_world owned_tenant_db)
                  (mkSession (JStr "u-carol") (JStr "user") None None None) "u-carol"
                  eq_refl eq_refl eq_refl Hn eq_refl I Hr Hh) as H.
    destruct H as (req' & w' & Hrun & _ & Hrest).
    change (owned_count (db (fresh_world owned_tenant_db)) "u-carol") with 1%nat in Hrest.
    destruct Hrest as (Hctx & _ & Hmd & _).
    exists req', w'. split; [exact Hrun |]. split; [exact Hctx | exact Hmd].
  - assert (Hn : "u-dave" <> "") by discriminate.
    assert (Hr : no_redirect_match (logged_in "u-dave" "user")
                                   (fresh_world owned_tenant_db))
      by (intros c; discriminate).
    pose proof (ownership_count_decides_owner_or_user (L := toy_libs)
                  (logged_in "u-dave" "user") (fresh_world owned_tenant_db)
                  (mkSession (JStr "u-dave") (JStr "user") None None None) "u-dave"
                  eq_refl eq_refl eq_refl Hn eq_refl I Hr Hh) as H.
    destruct H as (req' & w' & Hrun & _ & Hrest).
    change (owned_count (db (fresh_world owned_tenant_db)) "u-dave") with 0%nat in Hrest.
    destruct Hrest as (Hctx & Hsch & _).
    exists req', w'. split; [exact Hrun |]. split; [exact Hctx | exact Hsch].
Defined.

(** X11.  When the database refuses the ownership count, a logged-in
    account that is not an administrator is served as a fallback tenant
    user on the default partition, whatever it owns: the failure is
    swallowed and no error reaches the request. *)
Theorem refused_ownership_count_falls_back `{L : Libs} (req : Request) (w : World)
    (s : Session) :
  session req = Some s ->
  truthy_str (poolContext s) = false ->
  is_str (role s) "admin" = false ->
  no_valid_bearer req w ->
  no_redirect_match req w ->
  rejects (db w) (CountClientServersOfUser (userId s)) = true ->
  exists req' w',
    SchemaDetection.detectSchema (req, w) = (inr tt, (req', w')) /\
    poolContext_of req' = Some SchemaDetection.DEFAULT /\
    schema_of req' = Some (SchemaDetection.default_schema w) /\
    poolMetadata_of req' = Some fallback_metadata /\
    PoolService.requireAdminContext req' <> inr tt.
Proof.
  intros Hs Hc Hr Hnv Hno Hrej.
  assert (Hpc : truthy_str (poolContext_of req) = false)
    by (unfold poolContext_of; by rewrite Hs).
  destruct (chain_through_role_step req w req Hpc Hnv Hno) as (w3 & Hrun & He3).
  { intros w2 Hd2 He2.
    destruct (role_step_count_refused req s w2 Hs Hr) as (w3 & E3 & _ & He3);
      [by rewrite Hd2 |].
    exists w3. split; [exact E3 | congruence]. }
  pose proof (default_step_installs_fallback req s w3 Hs Hc) as H4.
  eexists _, w3. split.
  - unfold SchemaDetection.detectSchema.
    erewrite try_catch_inr; [reflexivity |]. rewrite Hrun. exact H4.
  - unfold SchemaDetection.default_schema. rewrite He3.
    unfold PoolService.requireAdminContext, PoolService.hasAdminContext. cbn.
    by repeat split.
Qed.

Lemma refused_ownership_count_falls_back_witness :
  exists req' w',
    SchemaDetection.detectSchema (L := toy_libs)
      (logged_in "u-carol" "user", fresh_world no_count_db) = (inr tt, (req', w')) /\
    poolContext_of req' = Some "default" /\
    schema_of req' = Some "client_template" /\
    poolMetadata_of req' = Some fallback_metadata /\
    PoolService.requireAdminContext req' <> inr tt.
Proof.
  apply (refused_ownership_count_falls_back (L := toy_libs) (logged_in "u-carol" "user")
           (fresh_world no_count_db)
           (mkSession (JStr "u-carol") (JStr "user") None None None));
    try reflexivity; try exact I.
  intros c. discriminate.
Defined.

(** ** The handshake and the verification of tokens *)

(** X13.  With a non-empty client id and secret on a healthy database the
    handshake throws a [TypeError], whatever the registry holds and
    whatever the secret is: the matching secret, a wrong one and an unknown
    client are answered alike, and the registry is not written. *)
Theorem handshake_throws_whatever_the_credentials `{L : Libs} (req : Request) (w : World)
    (cid sec : string) :
  obj_get (body req) "client_id" = JStr cid ->
  obj_get (body req) "client_secret" = JStr sec ->
  cid <> "" -> sec <> "" ->
  healthy (db w) ->
  (ClientServerService.authenticateClientServer req w).1 = inl TypeError /\
  db (ClientServerService.authenticateClientServer req w).2 = db w.
Proof.
  intros Hcid Hsec Hc Hs Hh.
  destruct (getPool_healthy w Hh) as (p & w1 & Hp & _ & Hd1 & _).
  rewrite (handshake_run req w cid sec p w1 Hcid Hsec Hc Hs Hp).
  split; [reflexivity | exact Hd1].
Qed.

Lemma handshake_throws_whatever_the_credentials_witness :
  (ClientServerService.authenticateClientServer (L := toy_libs) acme_handshake
     (fresh_world two_tenant_db)).1 = inl TypeError /\
  (ClientServerService.authenticateClientServer (L := toy_libs) wrong_secret_handshake
     (fresh_world two_tenant_db)).1 = inl TypeError /\
  (ClientServerService.authenticateClientServer (L := toy_libs) unknown_client_handshake
     (fresh_world two_tenant_db)).1 = inl TypeError.
Proof.
  assert (Hh : healthy (db (fresh_world two_tenant_db))) by (by split).
  assert (Ha : "client_a" <> "") by discriminate.
  assert (Hz : "client_z" <> "") by discriminate.
  assert (Hs : "s3cret" <> "") by discriminate.
  assert (Hg : "guess" <> "") by discriminate.
  split; [| split].
  - exact (proj1 (handshake_throws_whatever_the_credentials (L := toy_libs)
                    acme_handshake (fresh_world two_tenant_db) "client_a" "s3cret"
                    eq_refl eq_refl Ha Hs Hh)).
  - exact (proj1 (handshake_throws_whatever_the_credentials (L := toy_libs)
                    wrong_secret_handshake (fresh_world two_tenant_db) "client_a" "guess"
                    eq_refl eq_refl Ha Hg Hh)).
  - exact (proj1 (handshake_throws_whatever_the_credentials (L := toy_libs)
                    unknown_client_handshake (fresh_world two_tenant_db) "client_z"
                    "s3cret" eq_refl eq_refl Hz Hs Hh)).
Defined.

(** X14.  A non-empty token with a valid signature, on a healthy
    database: [verifyApiToken] refuses it as expired when its [exp] is not
    in the future and as of the wrong type when its [type] is not
    ["api_token"]; every other such token ends in a [TypeError], whether
    or not the registry has a row for its [client_id]. *)
Theorem verifyApiToken_of_signed_token `{L : Libs} (tok : string) (w : World)
    (pl : JwtPayload) :
  tok <> "" ->
  jwt_decode tok = Some (pl, hmac (token_secret w) pl) ->
  healthy (db w) ->
  (ClientServerService.verifyApiToken tok w).1
  = if match jwt_exp pl with Some e => e <=? clock w / 1000 | None => false end
    then inl (AuthError "Invalid or expired token")
    else if negb (match jwt_type pl with
                  | Some t => String.eqb t "api_token"
                  | None => false
                  end)
    then inl (AuthError "Invalid token type")
    else inl TypeError.
Proof.
  intros Hne Hdec Hh.
  destruct (getPool_healthy w Hh) as (p & w1 & Hp & _).
  rewrite (verifyApiToken_signed tok w pl p w1 Hne Hdec Hp).
  destruct (match jwt_exp pl with Some e => e <=? clock w / 1000 | None => false end);
    [reflexivity |].
  by destruct (negb _).
Qed.

Lemma verifyApiToken_of_signed_token_witness :
  (ClientServerService.verifyApiToken (L := toy_libs) "tok.good"
     (fresh_world two_tenant_db)).1 = inl TypeError /\
  (ClientServerService.verifyApiToken (L := toy_libs) "tok.good"
     (fresh_world empty_db)).1 = inl TypeError /\
  (ClientServerService.verifyApiToken (L := toy_libs) "tok.session"
     (fresh_world two_tenant_db)).1 = inl (AuthError "Invalid token type") /\
  (ClientServerService.verifyApiToken (L := toy_libs) "tok.expired"
     (fresh_world two_tenant_db)).1 = inl (AuthError "Invalid or expired token").
Proof.
  assert (Hh : healthy (db (fresh_world two_tenant_db))) by (by split).
  assert (Hh0 : healthy (db (fresh_world empty_db))) by (by split).
  assert (Hg : "tok.good" <> "") by discriminate.
  assert (Hs : "tok.session" <> "") by discriminate.
  assert (He : "tok.expired" <> "") by discriminate.
  split; [| split; [| split]].
  - exact (verifyApiToken_of_signed_token (L := toy_libs) "tok.good"
             (fresh_world two_tenant_db) (toy_payload (Some "api_token") 1800000000)
             Hg eq_refl Hh).
  - exact (verifyApiToken_of_signed_token (L := toy_libs) "tok.good"
             (fresh_world empty_db) (toy_payload (Some "api_token") 1800000000)
             Hg eq_refl Hh0).
  - exact (verifyApiToken_of_signed_token (L := toy_libs) "tok.session"
             (fresh_world two_tenant_db) (toy_payload (Some "session") 1800000000)
             Hs eq_refl Hh).
  - exact (verifyApiToken_of_signed_token (L := toy_libs) "tok.expired"
             (fresh_world two_tenant_db) (toy_payload (Some "api_token") 1600086400)
             He eq_refl Hh).
Defined.

(** ** What a registration stores *)

Lemma strings_of_map xs : forall l, strings_of xs = Some l -> map JStr l = xs.
Proof.
  induction xs as [| x xs IH]; simpl; intros l H.
  - by inversion H.
  - destruct x; try discriminate.
    destruct (strings_of xs) as [l' |]; [| discriminate].
    inversion H; subst. simpl. by rewrite (IH l').
Qed.

(** ** The name of a tenant's partition *)

Lemma all_chars_app f s1 s2 :
  all_chars f (s1 ++ s2)%string = all_chars f s1 && all_chars f s2.
Proof.
  induction s1 as [| c s1 IH]; simpl; [reflexivity |].
  by rewrite IH, andb_assoc.
Qed.

Lemma prefix_append s t : String.prefix s (s ++ t)%string = true.
Proof.
  induction s as [| a s IH]; simpl; [by destruct t |].
  destruct (ascii_dec a a); [exact IH | done].
Qed.

Lemma keep_alnum_ident c : ident_char (keep_alnum c) = true.
Proof.
  unfold keep_alnum.
  destruct ((((97 <=? nat_of_ascii c) && (nat_of_ascii c <=? 122))
             || ((48 <=? nat_of_ascii c) && (nat_of_ascii c <=? 57)))%nat) eqn:E.
  - unfold ident_char. cbv zeta. by rewrite E.
  - reflexivity.
Qed.

Lemma sanitize_ident s : all_chars ident_char (sanitize s) = true.
Proof.
  unfold sanitize. induction s as [| c s IH]; simpl; [reflexivity |].
  by rewrite keep_alnum_ident, IH.
Qed.

Lemma digits_ident d : all_chars ident_char (NilEmpty.string_of_uint d) = true.
Proof. induction d; simpl; try reflexivity; exact IHd. Qed.

Lemma decimal_ident z : 0 <= z -> all_chars ident_char (decimal z) = true.
Proof.
  intros Hz. unfold decimal. destruct z as [| p | p]; [reflexivity | | lia].
  simpl. destruct (Pos.to_uint p); try reflexivity; apply digits_ident.
Qed.

Section OwnerRegistration.

Context `{L : Libs}.

(** What a successful owner registration has passed through. *)
Lemma registerClientServerForUser_inv cd req w resp w' :
  ClientServerService.registerClientServerForUser cd req w = (inr resp, w') ->
  truthy (userId_of req) = true /\
  exists m,
    (obj_get cd "client_mode" = JUndefined /\ m = "frontend-login-proxy" \/
     obj_get cd "client_mode" = JStr m) /\
    (m = "frontend-login-proxy" \/ m = "api-auth-server") /\
    ClientServerService.create_client (obj_get cd "app_name")
      (obj_get cd "allowed_return_urls") (userId_of req) m true w = (inr resp, w').
Proof.
  unfold ClientServerService.registerClientServerForUser.
  destruct (truthy (userId_of req)); [| discriminate]. cbn [negb].
  destruct (_ || _); [discriminate |].
  destruct (obj_get cd "client_mode") as [| | b | z | m | xs | o] eqn:Hm;
    try discriminate.
  - cbn. intros H. split; [reflexivity |].
    exists "frontend-login-proxy". split; [by left |]. split; [by left | exact H].
  - destruct (String.eqb m "frontend-login-proxy") eqn:E1.
    + apply String.eqb_eq in E1. subst m. cbn. intros H. split; [reflexivity |].
      exists "frontend-login-proxy". split; [by right |]. split; [by left | exact H].
    + destruct (String.eqb m "api-auth-server") eqn:E2; [| discriminate].
      apply String.eqb_eq in E2. subst m. cbn. intros H. split; [reflexivity |].
      exists "api-auth-server". split; [by right |]. split; [by right | exact H].
Qed.

Lemma created_schema_name_ident a urls uid mode flag w resp w' :
  ClientServerService.create_client a urls uid mode flag w = (inr resp, w') ->
  0 <= clock w ->
  exists sn,
    obj_get (data_obj resp) "assigned_schema_name" = JStr sn /\
    String.prefix "client_" sn = true /\
    all_chars ident_char sn = true.
Proof.
  intros H Hk.
  apply create_client_inv in H as (n & xs & l & Hn & Hxs & Hl & _ & _ & _ & Hd).
  eexists. unfold data_obj. rewrite Hd. split; [reflexivity |].
  split; [apply prefix_append |].
  cbn [assigned_schema_name registered_row].
  change ("client_" ++ sanitize (toLowerCase n) ++ "_" ++ decimal (clock w))%string
    with ("client_" ++ (sanitize (toLowerCase n) ++ ("_" ++ decimal (clock w))))%string.
  rewrite !all_chars_app, sanitize_ident, decimal_ident by exact Hk. reflexivity.
Qed.

End OwnerRegistration.

(** X17.  The partition name either registration function assigns and
    returns starts with [client_] and consists of the characters
    [a-z0-9_] only, whatever the application name, as long as the clock is
    not negative. *)
Theorem assigned_schema_name_is_identifier `{L : Libs} (w : World) :
  0 <= clock w ->
  (forall req resp w',
      ClientServerService.registerClientServer req w = (inr resp, w') ->
      exists sn,
        obj_get (data_obj resp) "assigned_schema_name" = JStr sn /\
        String.prefix "client_" sn = true /\
        all_chars ident_char sn = true) /\
  (forall clientData req resp w',
      ClientServerService.registerClientServerForUser clientData req w = (inr resp, w') ->
      exists sn,
        obj_get (data_obj resp) "assigned_schema_name" = JStr sn /\
        String.prefix "client_" sn = true /\
        all_chars ident_char sn = true).
Proof.
  intros Hk. split.
  - intros req resp w' H.
    apply registerClientServer_tail in H as (a & u & H).
    by eapply created_schema_name_ident.
  - intros cd req resp w' H.
    apply registerClientServerForUser_tail in H as (a & u & uid & m & H).
    by eapply created_schema_name_ident.
Qed.

Lemma assigned_schema_name_is_identifier_witness :
  exists resp,
    delta_registration_run = (inr resp, delta_registration_run.2) /\
    obj_get (data_obj resp) "assigned_schema_name"
    = JStr "client_delta_shop_1700000000000" /\
    all_chars ident_char "client_delta_shop_1700000000000" = true.
Proof.
  assert (Hk : 0 <= clock (fresh_world owned_tenant_db)) by (vm_compute; discriminate).
  assert (Hreg : ClientServerService.registerClientServerForUser (L := toy_libs)
                   delta_data carol_request (fresh_world owned_tenant_db)
                 = (inr ?[resp], delta_registration_run.2)) by (vm_compute; reflexivity).
  destruct (assigned_schema_name_is_identifier (L := toy_libs)
              (fresh_world owned_tenant_db) Hk) as [_ T].
  destruct (T _ _ _ _ Hreg) as (sn & Hsn & _ & Hid).
  eexists. split; [exact Hreg |].
  assert (Hsn' : sn = "client_delta_shop_1700000000000")
    by (vm_compute in Hsn; by inversion Hsn).
  subst sn. split; [exact Hsn | exact Hid].
Defined.

(** X18.  A registration whose [app_name] is truthy but not a string
    passes the validation and then fails with a [TypeError] when the
    partition name is built: no [ValidationError] is raised, nothing is
    sent to the database and no pool is created. *)
Theorem non_string_app_name_is_TypeError `{L : Libs} (req : Request) (w : World)
    (xs : list jsval) :
  truthy (obj_get (body req) "app_name") = true ->
  (forall n, obj_get (body req) "app_name" <> JStr n) ->
  obj_get (body req) "allowed_return_urls" = JArr xs ->
  exists w',
    ClientServerService.registerClientServer req w = (inl TypeError, w') /\
    db w' = db w /\ log w' = log w /\ pool w' = pool w /\ schemas w' = schemas w.
Proof.
  intros Ht Hns Hu. unfold ClientServerService.registerClientServer.
  rewrite Hu, Ht. cbn [negb orb isArray truthy].
  unfold ClientServerService.create_client.
  destruct (obj_get (body req) "app_name") as [| | b | z | n | ys | o];
    try (by destruct (Hns n)); eexists; (split; [reflexivity | by repeat split]).
Qed.

Lemma non_string_app_name_is_TypeError_witness :
  exists w',
    ClientServerService.registerClientServer (L := toy_libs) numeric_name_registration
      (fresh_world empty_db) = (inl TypeError, w') /\
    db w' = db (fresh_world empty_db) /\ log w' = [].
Proof.
  assert (Hns : forall n, obj_get (body numeric_name_registration) "app_name" <> JStr n)
    by (intros n; discriminate).
  destruct (non_string_app_name_is_TypeError (L := toy_libs) numeric_name_registration
              (fresh_world empty_db) [JStr "https://acme.example/"] eq_refl Hns eq_refl)
    as (w' & Hrun & Hd & Hl & _).
  exists w'. split; [exact Hrun |]. split; [exact Hd | exact Hl].
Defined.

(** ** Owner-scoped reads *)

Lemma insert_desc_In r x l : In x (insert_desc r l) <-> x = r \/ In x l.
Proof.
  induction l as [| y l IH]; simpl; [intuition |].
  destruct (created_at y <? created_at r); simpl; [intuition |].
  rewrite IH. intuition.
Qed.

Lemma order_by_created_desc_In x l : In x (order_by_created_desc l) <-> In x l.
Proof.
  unfold order_by_created_desc. induction l as [| y l IH]; simpl; [reflexivity |].
  rewrite insert_desc_In, IH. intuition.
Qed.

Lemma insert_desc_from b r l :
  created_at r <= b -> descending_from b l = true ->
  descending_from b (insert_desc r l) = true.
Proof.
  revert b. induction l as [| x l IH]; intros b Hb H; simpl in *.
  - rewrite andb_true_r. by apply Z.leb_le.
  - apply andb_prop in H as [Hx Hl].
    destruct (created_at x <? created_at r) eqn:E; simpl.
    + apply Z.ltb_lt in E. rewrite Hl, andb_true_r.
      apply andb_true_intro. split; apply Z.leb_le; lia.
    + apply Z.ltb_ge in E. rewrite Hx. simpl. by apply IH.
Qed.

Lemma order_by_created_desc_descending l : descending (order_by_created_desc l) = true.
Proof.
  unfold order_by_created_desc. induction l as [| r l IH]; simpl; [reflexivity |].
  destruct (fold_right insert_desc [] l) as [| x l'] eqn:E; simpl; [reflexivity |].
  simpl in IH. destruct (created_at x <? created_at r) eqn:E2; simpl.
  - apply Z.ltb_lt in E2. rewrite IH, andb_true_r. apply Z.leb_le. lia.
  - apply Z.ltb_ge in E2. by apply insert_desc_from.
Qed.

Lemma owned_rows_In d u r :
  In r (owned_rows d u) <-> In r (cs_of d) /\ user_id r = Some u.
Proof.
  unfold owned_rows. rewrite <- !list_elem_of_In, list_elem_of_filter.
  unfold owned_by. split.
  - intros [Ho Hin]. split; [exact Hin |].
    destruct (user_id r) as [v |]; [| discriminate].
    apply String.eqb_eq in Ho. by subst.
  - intros [Hin Ho]. split; [| exact Hin]. rewrite Ho. apply String.eqb_refl.
Qed.

Lemma getUserClientServers_run req w u p w1 :
  userId_of req = JStr u -> u <> "" ->
  AuthPool.getPool w = (inr p, w1) ->
  rejects (db w) (SelectClientServersOfUser (JStr u)) = false ->
  ClientServerService.getUserClientServers req w
  = (inr (mkResponse "Client servers retrieved successfully"
            (JArr (map owner_view (order_by_created_desc (owned_rows (db w) u))))),
     sent w1 [(hid p, SelectClientServersOfUser (JStr u))]).
Proof.
  intros Hu Hne Hp Hrej.
  assert (Hd1 : db w1 = db w) by (eapply keeps_db_run; eauto using keeps_db_getPool).
  unfold ClientServerService.getUserClientServers. rewrite Hu.
  apply String.eqb_neq in Hne. cbn [truthy]. rewrite Hne. cbn [negb].
  erewrite bind_inr by exact Hp.
  assert (Hq : query p (SelectClientServersOfUser (JStr u)) w1
               = (inr (ClientRows (order_by_created_desc (owned_rows (db w1) u))),
                  sent w1 [(hid p, SelectClientServersOfUser (JStr u))])).
  { unfold query. rewrite Hd1, Hrej. cbn. by rewrite <- Hd1. }
  erewrite bind_inr by exact Hq.
  cbn [client_rows]. by rewrite Hd1.
Qed.

Lemma getUserClientServer_run req cid w u p w1 :
  userId_of req = JStr u -> u <> "" -> cid <> "" ->
  AuthPool.getPool w = (inr p, w1) ->
  rejects (db w) (SelectClientServerOfUser (JStr u) cid) = false ->
  ClientServerService.getUserClientServer req cid w
  = (match head (filter (fun r => owned_by u r && String.eqb (client_id r) cid = true)
                        (cs_of (db w))) with
     | Some r => inr (mkResponse "Client server retrieved successfully" (owner_view r))
     | None => inl (NotFoundError "Client server not found or access denied")
     end,
     sent w1 [(hid p, SelectClientServerOfUser (JStr u) cid)]).
Proof.
  intros Hu Hne Hc Hp Hrej.
  assert (Hd1 : db w1 = db w) by (eapply keeps_db_run; eauto using keeps_db_getPool).
  unfold ClientServerService.getUserClientServer. rewrite Hu.
  apply String.eqb_neq in Hne, Hc. cbn [truthy]. rewrite Hne, Hc. cbn [negb orb].
  erewrite bind_inr by exact Hp.
  assert (Hq : query p (SelectClientServerOfUser (JStr u) cid) w1
               = (inr (ClientRows
                         (filter (fun r => owned_by u r && String.eqb (client_id r) cid = true)
                                 (cs_of (db w1)))),
                  sent w1 [(hid p, SelectClientServerOfUser (JStr u) cid)])).
  { unfold query. rewrite Hd1, Hrej. cbn. by rewrite <- Hd1. }
  erewrite bind_inr by exact Hq.
  cbn [client_rows]. rewrite Hd1.
  by destruct (filter _ (cs_of (db w))).
Qed.

(** X19.  On a healthy database [getUserClientServers] returns, for a
    logged-in account, exactly the registry rows whose owner is that
    account, newest first, each reduced to the seven listed columns; the
    registry is not changed. *)
Theorem getUserClientServers_lists_own_rows (req : Request) (w : World) (u : string) :
  userId_of req = JStr u -> u <> "" ->
  healthy (db w) ->
  exists rs,
    (ClientServerService.getUserClientServers req w).1
    = inr (mkResponse "Client servers retrieved successfully" (JArr (map owner_view rs))) /\
    (forall r, In r rs <-> In r (cs_of (db w)) /\ user_id r = Some u) /\
    descending rs = true /\
    db (ClientServerService.getUserClientServers req w).2 = db w.
Proof.
  intros Hu Hne Hh.
  destruct (getPool_healthy w Hh) as (p & w1 & Hp & _ & Hd1 & _).
  exists (order_by_created_desc (owned_rows (db w) u)).
  rewrite (getUserClientServers_run req w u p w1 Hu Hne Hp (proj2 Hh _)).
  split; [reflexivity |]. split; [| split].
  - intros r. by rewrite order_by_created_desc_In, owned_rows_In.
  - apply order_by_created_desc_descending.
  - exact Hd1.
Qed.

Lemma getUserClientServers_lists_own_rows_witness :
  exists rs,
    (ClientServerService.getUserClientServers carol_request
       (fresh_world owned_tenant_db)).1
    = inr (mkResponse "Client servers retrieved successfully" (JArr (map owner_view rs))) /\
    (forall r, In r rs <-> In r [acme_row; gamma_row] /\ user_id r = Some "u-carol") /\
    descending rs = true.
Proof.
  assert (Hne : "u-carol" <> "") by discriminate.
  assert (Hh : healthy (db (fresh_world owned_tenant_db))) by (by split).
  destruct (getUserClientServers_lists_own_rows carol_request (fresh_world owned_tenant_db)
              "u-carol" eq_refl Hne Hh) as (rs & Hrun & Hin & Hdesc & _).
  exists rs. split; [exact Hrun |]. split; [exact Hin | exact Hdesc].
Defined.

(** X20.  On a healthy database [getUserClientServer] answers a client id
    that no row owned by the logged-in account carries with the same
    [NotFoundError], whether the client does not exist or belongs to
    someone else; a row it returns carries the id asked for and is owned
    by the account. *)
Theorem getUserClientServer_only_own (req : Request) (cid : string) (w : World)
    (u : string) :
  userId_of req = JStr u -> u <> "" -> cid <> "" ->
  healthy (db w) ->
  ((forall r, In r (cs_of (db w)) -> client_id r = cid -> user_id r <> Some u) ->
   (ClientServerService.getUserClientServer req cid w).1
   = inl (NotFoundError "Client server not found or access denied")) /\
  (forall resp,
      (ClientServerService.getUserClientServer req cid w).1 = inr resp ->
      exists r,
        In r (cs_of (db w)) /\ client_id r = cid /\ user_id r = Some u /\
        resp = mkResponse "Client server retrieved successfully" (owner_view r)).
Proof.
  intros Hu Hne Hc Hh.
  destruct (getPool_healthy w Hh) as (p & w1 & Hp & _).
  rewrite (getUserClientServer_run req cid w u p w1 Hu Hne Hc Hp (proj2 Hh _)).
  cbn [fst].
  destruct (head _) as [r |] eqn:Hhead.
  - apply head_filter_In in Hhead as [Hin Hr].
    apply andb_prop in Hr as [Ho Hi].
    apply String.eqb_eq in Hi.
    assert (Hown : user_id r = Some u).
    { unfold owned_by in Ho. destruct (user_id r) as [v |]; [| discriminate].
      apply String.eqb_eq in Ho. by subst. }
    split.
    + intros Hnone. by destruct (Hnone r Hin Hi).
    + intros resp Hresp. inversion Hresp; subst resp. by exists r.
  - split; [reflexivity | discriminate].
Qed.

Lemma getUserClientServer_only_own_witness :
  (ClientServerService.getUserClientServer carol_request "client_a"
     (fresh_world owned_tenant_db)).1
  = inl (NotFoundError "Client server not found or access denied") /\
  (ClientServerService.getUserClientServer carol_request "client_zzz"
     (fresh_world owned_tenant_db)).1
  = inl (NotFoundError "Client server not found or access denied").
Proof.
  assert (Hne : "u-carol" <> "") by discriminate.
  assert (Hh : healthy (db (fresh_world owned_tenant_db))) by (by split).
  split.
  - assert (Hc : "client_a" <> "") by discriminate.
    destruct (getUserClientServer_only_own carol_request "client_a"
                (fresh_world owned_tenant_db) "u-carol" eq_refl Hne Hc Hh) as [H _].
    apply H. intros r [<- | [<- | []]]; intros; discriminate.
  - assert (Hc : "client_zzz" <> "") by discriminate.
    destruct (getUserClientServer_only_own carol_request "client_zzz"
                (fresh_world owned_tenant_db) "u-carol" eq_refl Hne Hc Hh) as [H _].
    apply H. intros r [<- | [<- | []]]; intros; discriminate.
Defined.

(** X21.  A tenant registered by a logged-in account through
    [registerClientServerForUser] is stored in one new registry row, with
    that account as owner, with the name and the redirect targets of the
    request, the partition named in the reply and the mode asked for
    (["frontend-login-proxy"] when none is given). *)
Theorem owner_registration_is_stored_for_account `{L : Libs} (clientData : obj)
    (req : Request) (w : World) resp w' (u : string) :
  ClientServerService.registerClientServerForUser clientData req w = (inr resp, w') ->
  userId_of req = JStr u ->
  exists row,
    scanned_clients (db w') = scanned_clients (db w) ++ [row] /\
    user_id row = Some u /\
    JStr (app_name row) = obj_get clientData "app_name" /\
    JArr (map JStr (allowed_return_urls row)) = obj_get clientData "allowed_return_urls" /\
    obj_get (data_obj resp) "assigned_schema_name" = JStr (assigned_schema_name row) /\
    obj_get (data_obj resp) "client_mode" = JStr (client_mode row) /\
    (obj_get clientData "client_mode" = JUndefined ->
     client_mode row = "frontend-login-proxy").
Proof.
  intros H Hu.
  apply registerClientServerForUser_inv in H as (Ht & m & Hm & _ & H).
  rewrite Hu in Ht, H.
  apply create_client_inv in H as (n & xs & l & Hn & Hxs & Hl & Hpub & Haut & _ & Hd).
  set (row := registered_row n l (JStr u) m w) in *.
  exists row.
  unfold data_obj, scanned_clients. rewrite Hd, Hpub, Haut, app_assoc, Hn, Hxs.
  rewrite <- (strings_of_map xs l Hl).
  split; [reflexivity |]. split.
  { cbn [row registered_row user_id]. unfold owner_of, js_or. by rewrite Ht. }
  split; [reflexivity |]. split; [reflexivity |].
  split; [reflexivity |]. split; [reflexivity |].
  intros Hundef. destruct Hm as [[_ ->] | Hm]; [reflexivity | congruence].
Qed.

Lemma owner_registration_is_stored_for_account_witness :
  exists resp row,
    delta_registration_run = (inr resp, delta_registration_run.2) /\
    scanned_clients (db delta_registration_run.2)
    = scanned_clients owned_tenant_db ++ [row] /\
    user_id row = Some "u-carol" /\
    JStr (app_name row) = JStr "Delta Shop" /\
    client_mode row = "frontend-login-proxy".
Proof.
  assert (Hreg : ClientServerService.registerClientServerForUser (L := toy_libs)
                   delta_data carol_request (fresh_world owned_tenant_db)
                 = (inr ?[resp], delta_registration_run.2)) by (vm_compute; reflexivity).
  destruct (owner_registration_is_stored_for_account (L := toy_libs) _ _ _ _ _ "u-carol"
              Hreg eq_refl)
    as (row & Htab & Hown & Hname & _ & _ & _ & Hmode).
  eexists _, row.
  split; [exact Hreg |]. split; [exact Htab |]. split; [exact Hown |].
  split; [exact Hname | exact (Hmode eq_refl)].
Defined.

(** ** The repository's cache of tenant pools *)

Lemma keeps_index_ret {A} (a : A) : keeps_index (ret a).
Proof. by intros w. Qed.

Lemma keeps_index_bind {A B} (m : M A) (k : A -> M B) :
  keeps_index m -> (forall a, keeps_index (k a)) -> keeps_index (bind m k).
Proof.
  intros Hm Hk w. unfold bind. pose proof (Hm w) as H1.
  destruct (m w) as [[e | a] w1]; simpl in *; [done |].
  pose proof (Hk a w1) as H2. congruence.
Qed.

Lemma keeps_index_query p q : keeps_index (query p q).
Proof.
  intros w. destruct (query_frame p q w) as ((_ & _ & Hp & _) & _). exact Hp.
Qed.

Lemma keeps_index_query_each p qs : keeps_index (query_each p qs).
Proof.
  induction qs as [| q qs IH]; simpl; [apply keeps_index_ret |].
  apply keeps_index_bind; [apply keeps_index_query | intros _; exact IH].
Qed.

Lemma keeps_index_getPoolForSchema name : keeps_index (TenantPool.getPoolForSchema name).
Proof.
  unfold TenantPool.getPoolForSchema.
  apply keeps_index_bind; [by intros w |]. intros w.
  destruct (schemas w !! name); [apply keeps_index_ret |].
  apply keeps_index_bind; [by intros w0 |]. intros p.
  apply keeps_index_bind.
  { intros w0. unfold connect. by destruct (reachable (db w0)). }
  intros _. apply keeps_index_bind.
  { unfold TenantPool.initSchema.
    apply keeps_index_bind; [apply keeps_index_query |]. intros _.
    destruct (String.eqb name "client_template");
      [apply keeps_index_ret | apply keeps_index_query_each]. }
  intros _. apply keeps_index_bind; [by intros w0 |]. intros w1.
  apply keeps_index_bind; [by intros w0 |]. intros _.
  apply keeps_index_bind; [apply keeps_index_query | intros _; apply keeps_index_ret].
Qed.

(** The handler of [check] always rethrows, after clearing the entry. *)
Lemma check_handler_run sn e w1 :
  (let* w2 := get_world in
   set_pools (delete sn (pools w2));; throw (S := World) (A := Handle) e) w1
  = (inl e, mkWorld (pool w1) (schemas w1) (delete sn (pools w1)) (next_handle w1)
                    (db w1) (log w1) (clock w1) (entropy w1) (env w1)).
Proof. reflexivity. Qed.

Lemma check_inv_inr sn w p w' :
  RepoIndex.check sn w = (inr p, w') -> pools w' !! sn = Some p.
Proof.
  unfold RepoIndex.check. intros H.
  apply bind_inv_inr in H as (w0 & w0' & H0 & H). inversion H0; subst w0 w0'; clear H0.
  destruct (pools w !! sn) as [p0 |] eqn:Hl.
  - inversion H; by subst.
  - apply try_catch_inv_inr in H as [H | (e & w1 & _ & H)].
    + apply bind_inv_inr in H as (p1 & w1 & _ & H).
      cbv [bind get_world set_pools ret] in H. inversion H; subst p w'; clear H.
      simpl. apply lookup_insert_eq.
    + rewrite check_handler_run in H. discriminate.
Qed.

Lemma check_inv_inl sn w e w' :
  RepoIndex.check sn w = (inl e, w') ->
  pools w' !! sn = None /\ (TenantPool.getPoolForSchema sn w).1 = inl e.
Proof.
  unfold RepoIndex.check. intros H.
  apply bind_inv_inl in H as [H | (w0 & w0' & H0 & H)]; [discriminate |].
  inversion H0; subst w0 w0'; clear H0.
  destruct (pools w !! sn) as [p0 |] eqn:Hl; [discriminate |].
  apply try_catch_inv_inl in H as (e0 & w1 & Hm & H).
  rewrite check_handler_run in H. inversion H; subst e0 w'; clear H.
  split; [simpl; apply lookup_delete_eq |].
  apply bind_inv_inl in Hm as [Hm | (p1 & w2 & _ & Hm)]; [by rewrite Hm |].
  cbv [bind get_world set_pools ret] in Hm. discriminate.
Qed.

Lemma check_cached sn w p : pools w !! sn = Some p -> RepoIndex.check sn w = (inr p, w).
Proof. intros H. unfold RepoIndex.check. step. by rewrite H. Qed.

(** X22.  [check] keeps its own cache consistent with its result: a pool
    it returns is stored under the name and returned again by the next call
    without any statement; when [getPoolForSchema] fails, its error is
    rethrown unchanged and the name is left without an entry. *)
Theorem check_caches_success_and_forgets_failure (sn : string) (w : World) :
  (forall p w',
      RepoIndex.check sn w = (inr p, w') ->
      pools w' !! sn = Some p /\ RepoIndex.check sn w' = (inr p, w')) /\
  (forall e w',
      RepoIndex.check sn w = (inl e, w') ->
      pools w' !! sn = None /\ (TenantPool.getPoolForSchema sn w).1 = inl e).
Proof.
  split.
  - intros p w' H. apply check_inv_inr in H. split; [exact H | by apply check_cached].
  - intros e w' H. by apply check_inv_inl.
Qed.

Lemma check_caches_success_and_forgets_failure_witness :
  (exists p w',
      RepoIndex.check "client_acme_1" (fresh_world empty_db) = (inr p, w') /\
      pools w' !! "client_acme_1" = Some p /\
      RepoIndex.check "client_acme_1" w' = (inr p, w')) /\
  (exists e w',
      RepoIndex.check "client_acme_1" (fresh_world broken_users_db) = (inl e, w') /\
      pools w' !! "client_acme_1" = None).
Proof.
  destruct (check_caches_success_and_forgets_failure "client_acme_1"
              (fresh_world empty_db)) as [T1 _].
  destruct (check_caches_success_and_forgets_failure "client_acme_1"
              (fresh_world broken_users_db)) as [_ T2].
  split.
  - assert (Hrun : RepoIndex.check "client_acme_1" (fresh_world empty_db)
                   = (inr ?[p], ?[w'])) by (vm_compute; reflexivity).
    destruct (T1 _ _ Hrun) as [H1 H2].
    eexists _, _. split; [exact Hrun |]. split; [exact H1 | exact H2].
  - assert (Hrun : RepoIndex.check "client_acme_1" (fresh_world broken_users_db)
                   = (inl ?[e], ?[w'])) by (vm_compute; reflexivity).
    destruct (T2 _ _ Hrun) as [H1 _].
    eexists _, _. split; [exact Hrun | exact H1].
Defined.

(** The run of [getPoolForSchema] when only the final [set search_path]
    is refused. *)
Lemma getPoolForSchema_search_path_refused name w :
  schemas w !! name = None ->
  reachable (db w) = true ->
  Forall (fun q => rejects (db w) q = false)
         (CreateSchemaRaw name ::
          (if String.eqb name "client_template" then [] else TenantPool.ddl name)) ->
  rejects (db w) (SetSearchPath name) = true ->
  exists w',
    TenantPool.getPoolForSchema name w = (inl DatabaseError, w') /\
    schemas w' !! name = Some (mkHandle (next_handle w)).
Proof.
  intros Hnone Hreach Hprov Hsp.
  eexists. split.
  - unfold TenantPool.getPoolForSchema. step. rewrite Hnone. step.
    erewrite bind_inr by (by apply connect_reachable).
    rewrite tenant_initSchema_as_batch.
    erewrite bind_inr
      by (apply query_each_ddl_accepted; [apply tenant_batch_is_ddl | exact Hprov]).
    step. step.
    erewrite bind_inl; [reflexivity |].
    unfold query. simpl. rewrite Hsp. reflexivity.
  - simpl. apply lookup_insert_eq.
Qed.

(** X23.  When the database accepts the provisioning of a new partition
    but refuses the final [set search_path], [check] fails and clears its
    own entry, yet the pool stays in the cache of [getPoolForSchema]: the
    next [check] for the name succeeds with that pool and sends no
    statement at all. *)
Theorem check_succeeds_after_refused_search_path (sn : string) (w : World) :
  pools w !! sn = None ->
  schemas w !! sn = None ->
  reachable (db w) = true ->
  Forall (fun q => rejects (db w) q = false)
         (CreateSchemaRaw sn ::
          (if String.eqb sn "client_template" then [] else TenantPool.ddl sn)) ->
  rejects (db w) (SetSearchPath sn) = true ->
  exists w1 w2,
    RepoIndex.check sn w = (inl DatabaseError, w1) /\
    pools w1 !! sn = None /\
    RepoIndex.check sn w1 = (inr (mkHandle (next_handle w)), w2) /\
    log w2 = log w1 /\
    pools w2 !! sn = Some (mkHandle (next_handle w)).
Proof.
  intros Hpn Hnone Hreach Hprov Hsp.
  destruct (getPoolForSchema_search_path_refused sn w Hnone Hreach Hprov Hsp)
    as (w0 & Hrun & Hc).
  pose proof (keeps_index_getPoolForSchema sn w) as Hidx.
  rewrite Hrun in Hidx. cbn [snd] in Hidx.
  eexists _, _. split; [| split; [| split; [| split]]].
  - unfold RepoIndex.check. step. rewrite Hpn.
    erewrite try_catch_inl; [apply check_handler_run |].
    erewrite bind_inl; [reflexivity | exact Hrun].
  - simpl. apply lookup_delete_eq.
  - unfold RepoIndex.check. step. cbn [pools]. rewrite lookup_delete_eq.
    erewrite try_catch_inr; [reflexivity |].
    erewrite bind_inr
      by (unfold TenantPool.getPoolForSchema; step; cbn [schemas]; rewrite Hc;
          reflexivity).
    reflexivity.
  - reflexivity.
  - simpl. apply lookup_insert_eq.
Qed.

Lemma check_succeeds_after_refused_search_path_witness :
  exists w1 w2,
    RepoIndex.check "client_acme_1" (fresh_world no_search_path_db)
    = (inl DatabaseError, w1) /\
    pools w1 !! "client_acme_1" = None /\
    RepoIndex.check "client_acme_1" w1 = (inr (mkHandle 0), w2) /\
    log w2 = log w1 /\
    pools w2 !! "client_acme_1" = Some (mkHandle 0).
Proof.
  apply (check_succeeds_after_refused_search_path "client_acme_1"
           (fresh_world no_search_path_db) eq_refl eq_refl eq_refl).
  - repeat constructor.
  - reflexivity.
Defined.

(** ** End users: what login and registration do *)


Lemma uuidv4_inv `{L : Libs} w u w' :
  uuidv4 w = (inr u, w') ->
  u = uuid_of (entropy w) /\ db w' = db w /\ pools w' = pools w /\ env w' = env w.
Proof. cbv [uuidv4 bind draw ret]. intros H. inversion H; by subst. Qed.

Lemma text_param_inv v w t w' :
  RepoIndex.text_param v w = (inr t, w') -> v = JStr t /\ w' = w.
Proof. destruct v; simpl; intros H; inversion H; by subst. Qed.


Section EndUsers.

Context `{L : Libs}.


(** An accepted insert of a user: the stored row, and the fact that the
    partition had no row with its e-mail address. *)
Lemma query_insert_user_row p sn r w rs w' :
  query p (InsertUser sn r) w = (inr rs, w') ->
  rs = UserRows [mkUserRow (u_id r) (u_name r) (u_role r) (u_email r)
                           (u_password_hash r) (db_time (db w))] /\
  users (db w')
  = <[sn := table_of (users (db w)) sn ++ user_rows rs]> (users (db w)) /\
  rejects (db w') = rejects (db w) /\ reachable (db w') = reachable (db w).
Proof.
  unfold query. destruct (rejects (db w) (InsertUser sn r)); [discriminate |].
  simpl. destruct (existsb _ _); [discriminate |].
  intros H. inversion H; subst; clear H. by repeat split.
Qed.

Lemma keeps_index_getUsers p sn : keeps_index (UserRepo.getUsers p sn).
Proof.
  unfold UserRepo.getUsers.
  apply keeps_index_bind.
  { intros w0. unfold connect. by destruct (reachable (db w0)). }
  intros _. apply keeps_index_bind; [apply keeps_index_query |]. intros _.
  apply keeps_index_bind; [apply keeps_index_query | intros ?; apply keeps_index_ret].
Qed.

(** What [getUserByEmail] needs to succeed, and what it leaves. *)
Lemma getUserByEmail_inv sn email w found w' :
  RepoIndex.getUserByEmail sn email w = (inr found, w') ->
  found = account (db w) sn email /\
  db w' = db w /\ env w' = env w /\
  (exists p, pools w' !! sn = Some p) /\
  reachable (db w) = true /\
  rejects (db w) (SetSearchPath sn) = false /\
  rejects (db w) (SelectUsers sn) = false.
Proof.
  intros H. pose proof (getUserByEmail_table _ _ _ _ _ H) as (Hf & Hd & He).
  split; [exact Hf |]. split; [exact Hd |]. split; [exact He |].
  unfold RepoIndex.getUserByEmail in H.
  apply bind_inv_inr in H as (p & w1 & H1 & H).
  pose proof (keeps_db_run _ _ _ _ (keeps_db_check sn) H1) as Hd1.
  apply check_inv_inr in H1.
  apply bind_inv_inr in H as (us & w2 & H2 & H).
  inversion H; subst found w'; clear H.
  pose proof (keeps_index_getUsers p sn w1) as Hidx. rewrite H2 in Hidx. cbn [snd] in Hidx.
  split; [exists p; by rewrite Hidx |].
  unfold UserRepo.getUsers in H2.
  apply bind_inv_inr in H2 as (u1 & w3 & Hcn & H2).
  unfold connect in Hcn. destruct (reachable (db w1)) eqn:Hr; [| discriminate].
  inversion Hcn; subst u1 w3; clear Hcn.
  apply bind_inv_inr in H2 as (u2 & w4 & Hq4 & H2).
  pose proof (keeps_db_run _ _ _ _ (keeps_db_query_ddl p (SetSearchPath sn) eq_refl) Hq4)
    as Hd4.
  unfold query in Hq4. destruct (rejects (db w1) (SetSearchPath sn)) eqn:Hsp;
    [discriminate |]. clear Hq4.
  apply bind_inv_inr in H2 as (rs & w5 & Hq5 & _).
  unfold query in Hq5. destruct (rejects (db w4) (SelectUsers sn)) eqn:Hsel;
    [discriminate |].
  rewrite Hd4 in Hsel. rewrite Hd1 in Hr, Hsp, Hsel. by repeat split.
Qed.

(** What a successful registration has done. *)
Lemma register_inv req w resp req' w' :
  AuthService.register (req, w) = (inr resp, (req', w')) ->
  exists row p,
    req' = req /\
    account (db w) (AuthService.schema_for req w) (obj_get (body req) "email") = None /\
    JStr (u_name row) = obj_get (body req) "name" /\
    JStr (u_email row) = obj_get (body req) "email" /\
    JStr (u_password_hash row) = obj_get (body req) "password" /\
    JStr (u_role row) = js_or (obj_get (body req) "role") (JStr "user") /\
    resp = AuthService.createSuccessResponse "Registration successful"
             [("userId", JStr (u_id row))] /\
    users (db w')
    = <[AuthService.schema_for req w :=
          table_of (users (db w)) (AuthService.schema_for req w) ++ [row]]> (users (db w)) /\
    pools w' !! AuthService.schema_for req w = Some p /\
    env w' = env w /\
    reachable (db w') = true /\
    rejects (db w') = rejects (db w) /\
    rejects (db w) (SetSearchPath (AuthService.schema_for req w)) = false /\
    rejects (db w) (SelectUsers (AuthService.schema_for req w)) = false.
Proof.
  unfold AuthService.register. intros H.
  apply bind_inv_inr in H as (req0 & st0 & H0 & H). inversion H0; subst req0 st0; clear H0.
  apply bind_inv_inr in H as (w0 & st0 & H0 & H).
  inversion H0; subst w0 st0; clear H0. cbn [fst snd] in H.
  set (sn := AuthService.schema_for req w) in *.
  destruct (_ || _); [discriminate |].
  apply bind_inv_inr in H as (ex & [req1 w1] & H1 & H).
  apply lift_inv in H1 as [H1 ->].
  apply getUserByEmail_inv in H1 as (Hex & Hd1 & He1 & (p & Hp1) & Hreach & Hsp & Hsel).
  destruct ex; [discriminate |]. symmetry in Hex.
  apply bind_inv_inr in H as (lastID & [req2 w2] & H2 & H).
  apply lift_inv in H2 as [H2 ->].
  inversion H; subst resp req' w'; clear H.
  unfold RepoIndex.createUser in H2.
  apply bind_inv_inr in H2 as (p' & w3 & H3 & H2).
  rewrite (check_cached sn w1 p Hp1) in H3. inversion H3; subst p' w3; clear H3.
  apply bind_inv_inr in H2 as (id & w4 & H4 & H2).
  apply uuidv4_inv in H4 as (_ & Hd4 & Hp4 & He4).
  apply bind_inv_inr in H2 as (n & w5 & H5 & H2).
  apply text_param_inv in H5 as [Hn ->].
  apply bind_inv_inr in H2 as (r & w6 & H6 & H2).
  apply text_param_inv in H6 as [Hr ->].
  apply bind_inv_inr in H2 as (e & w7 & H7 & H2).
  apply text_param_inv in H7 as [He ->].
  apply bind_inv_inr in H2 as (h & w8 & H8 & H2).
  apply text_param_inv in H8 as [Hh ->].
  apply bind_inv_inr in H2 as (user & w9 & H9 & H2).
  unfold UserRepo.createUser in H9.
  apply bind_inv_inr in H9 as (u1 & wa & Ha & H9).
  pose proof (keeps_db_run _ _ _ _ (keeps_db_connect p) Ha) as Hda.
  pose proof (keeps_env_run _ _ _ _ (keeps_db_connect p) Ha) as Hea.
  assert (Hpa : pools wa = pools w4).
  { unfold connect in Ha. destruct (reachable (db w4)); inversion Ha; by subst. }
  clear Ha.
  apply bind_inv_inr in H9 as (u2 & wb & Hb & H9).
  pose proof (keeps_db_run _ _ _ _ (keeps_db_query_ddl p (SetSearchPath _) eq_refl) Hb)
    as Hdb.
  pose proof (keeps_env_run _ _ _ _ (keeps_db_query_ddl p (SetSearchPath _) eq_refl) Hb)
    as Heb.
  pose proof (keeps_index_query p (SetSearchPath sn) wa) as Hpb.
  rewrite Hb in Hpb. cbn [snd] in Hpb. clear Hb.
  apply bind_inv_inr in H9 as (rs & wc & Hc & H9).
  inversion H9; subst user w9; clear H9.
  pose proof (keeps_index_query p (InsertUser sn (mkUserRow id n r e h 0)) wb) as Hpc.
  rewrite Hc in Hpc. cbn [snd] in Hpc.
  destruct (query_frame p (InsertUser sn (mkUserRow id n r e h 0)) wb)
    as ((_ & _ & _ & _ & Hec) & _).
  rewrite Hc in Hec. cbn [snd] in Hec.
  apply query_insert_user_row in Hc as (-> & Htab & Hrej & Hrc).
  cbn [user_rows head u_id u_name u_role u_email u_password_hash] in H2, Htab.
  inversion H2; subst lastID w2; clear H2.
  eexists (mkUserRow id n r e h (db_time (db wb))), p.
  cbn [u_id u_name u_role u_email u_password_hash].
  rewrite Htab, Hrej, Hrc, Hpc, Hpb, Hpa, Hp4, Hec, Heb, Hea, He4, He1,
    Hdb, Hda, Hd4, Hd1.
  by repeat split.
Qed.

End EndUsers.



(** X25.  A successful [register] stores one new row in the partition of
    the session: name, e-mail address and password as sent, and as role
    whatever the request body names, ["user"] only when it names none; no
    row of the partition had that e-mail address before, and the reply
    carries the id of the new row. *)
Theorem register_stores_role_of_request `{L : Libs} (req : Request) (w : World)
    resp req' w' :
  AuthService.register (req, w) = (inr resp, (req', w')) ->
  exists row,
    users (db w')
    = <[AuthService.schema_for req w :=
          table_of (users (db w)) (AuthService.schema_for req w) ++ [row]]> (users (db w)) /\
    JStr (u_name row) = obj_get (body req) "name" /\
    JStr (u_email row) = obj_get (body req) "email" /\
    JStr (u_role row) = js_or (obj_get (body req) "role") (JStr "user") /\
    obj_get (data_obj resp) "userId" = JStr (u_id row) /\
    (forall x, In x (table_of (users (db w)) (AuthService.schema_for req w)) ->
               u_email x <> u_email row) /\
    req' = req.
Proof.
  intros H.
  apply register_inv in H
    as (row & p & -> & Hacc & Hn & He & _ & Hr & -> & Htab & _).
  exists row. repeat split; try done.
  intros x Hin Heq. unfold account in Hacc.
  eapply List.find_none in Hacc; [| exact Hin].
  rewrite <- He, Heq in Hacc. simpl in Hacc. by rewrite String.eqb_refl in Hacc.
Qed.

Lemma register_stores_role_of_request_witness :
  exists resp req' w' row,
    after_mallory_registration = (inr resp, (req', w')) /\
    table_of (users (db w')) "client_beta_2" = [row] /\
    u_role row = "admin".
Proof.
  assert (Hreg : AuthService.register (L := toy_libs)
                   (mallory_registration, fresh_world two_tenant_db)
                 = (inr ?[resp], (?[req'], ?[w']))) by (vm_compute; reflexivity).
  destruct (register_stores_role_of_request (L := toy_libs) _ _ _ _ _ Hreg)
    as (row & Htab & _ & _ & Hr & _).
  eexists _, _, _, row. split; [exact Hreg |]. split.
  - unfold table_of at 1. rewrite Htab, lookup_insert_eq. reflexivity.
  - inversion Hr. reflexivity.
Defined.

(** ** Login, step by step *)

Lemma find_app_none {A} (f : A -> bool) (l l' : list A) :
  List.find f l = None -> List.find f (l ++ l') = List.find f l'.
Proof.
  induction l as [| x l IH]; simpl; [done |].
  destruct (f x); [discriminate | exact IH].
Qed.

Lemma getUsers_run p sn w :
  reachable (db w) = true ->
  rejects (db w) (SetSearchPath sn) = false ->
  rejects (db w) (SelectUsers sn) = false ->
  UserRepo.getUsers p sn w
  = (inr (table_of (users (db w)) sn),
     sent (sent w [(hid p, SetSearchPath sn)]) [(hid p, SelectUsers sn)]).
Proof.
  intros Hr H1 H2. unfold UserRepo.getUsers.
  erewrite bind_inr by (by apply connect_reachable).
  erewrite bind_inr by (unfold query; rewrite H1; reflexivity).
  erewrite bind_inr by (unfold query; cbn [db]; rewrite H2; reflexivity).
  reflexivity.
Qed.

Lemma getUserByEmail_run sn email w p :
  pools w !! sn = Some p ->
  reachable (db w) = true ->
  rejects (db w) (SetSearchPath sn) = false ->
  rejects (db w) (SelectUsers sn) = false ->
  RepoIndex.getUserByEmail sn email w
  = (inr (account (db w) sn email),
     sent (sent w [(hid p, SetSearchPath sn)]) [(hid p, SelectUsers sn)]).
Proof.
  intros Hp Hr H1 H2. unfold RepoIndex.getUserByEmail.
  erewrite bind_inr by (by apply check_cached).
  erewrite bind_inr by (by apply getUsers_run).
  reflexivity.
Qed.

Section LoginRun.

Context `{L : Libs}.

Variables (req : Request) (w : World) (s : Session) (o : obj) (em pw : string)
          (p : Handle).

Hypothesis Hs : session req = Some s.
Hypothesis Hcred : obj_get (body req) "credentials" = JObj o.
Hypothesis Hem : obj_get o "email" = JStr em.
Hypothesis Hpw : obj_get o "password" = JStr pw.
Hypothesis Hem_ne : em <> "".
Hypothesis Hpw_ne : pw <> "".
Hypothesis Hpool : pools w !! AuthService.schema_for req w = Some p.
Hypothesis Hreach : reachable (db w) = true.
Hypothesis Hsp : rejects (db w) (SetSearchPath (AuthService.schema_for req w)) = false.
Hypothesis Hsel : rejects (db w) (SelectUsers (AuthService.schema_for req w)) = false.

(** [login] up to the lookup of the account. *)
Lemma login_after_lookup :
  AuthService.login (req, w)
  = match account (db w) (AuthService.schema_for req w) (JStr em) with
    | None => (inl (AuthError "Invalid credentials"), (req, looked_up req w p))
    | Some user =>
        if String.eqb pw (u_password_hash user)
        then
          (let* sessionId := lift uuidv4 in
           let* _ := lift (RepoIndex.createSession (AuthService.schema_for req w)
                             (u_id user)) in
           ret (login_reply user s)) (logged_in_as req s user, looked_up req w p)
        else (inl (AuthError "Invalid credentials"), (req, looked_up req w p))
    end.
Proof.
  unfold AuthService.login.
  step. cbn [fst]. erewrite bind_inr by reflexivity. cbv beta. cbn [fst snd].
  rewrite Hcred. cbn [AuthService.field]. rewrite Hem, Hpw.
  erewrite bind_inr by reflexivity. cbv beta.
  erewrite bind_inr by reflexivity. cbv beta.
  apply String.eqb_neq in Hem_ne, Hpw_ne.
  cbn [truthy]. rewrite Hem_ne, Hpw_ne. cbn [negb orb].
  erewrite bind_inr
    by (apply lift_run; apply (getUserByEmail_run _ _ _ p); assumption).
  fold (looked_up req w p).
  destruct (account (db w) (AuthService.schema_for req w) (JStr em)) as [user |];
    [| reflexivity].
  cbn [is_str]. destruct (String.eqb pw (u_password_hash user)); [| reflexivity].
  cbn [negb]. rewrite Hs.
  erewrite bind_inr by reflexivity. reflexivity.
Qed.

(** The rest of [login] when the server refuses the session row. *)
Lemma login_session_row_refused user :
  (forall r, rejects (db w) (InsertSession (AuthService.schema_for req w) r) = true) ->
  exists w',
    (let* sessionId := lift uuidv4 in
     let* _ := lift (RepoIndex.createSession (AuthService.schema_for req w) (u_id user)) in
     ret (login_reply user s)) (logged_in_as req s user, looked_up req w p)
    = (inl DatabaseError, (logged_in_as req s user, w')) /\
    db w' = db w.
Proof.
  intros Hrej. eexists. split.
  - erewrite bind_inr by (apply lift_run; reflexivity). cbv beta.
    erewrite bind_inl; [reflexivity |].
    apply lift_run. unfold RepoIndex.createSession.
    erewrite bind_inr by (apply check_cached; exact Hpool).
    erewrite bind_inr by reflexivity. cbv beta.
    erewrite bind_inr by reflexivity. cbv beta.
    unfold UserRepo.createSession.
    erewrite bind_inl; [reflexivity |].
    unfold query. cbn [db looked_up sent]. rewrite Hrej. reflexivity.
  - reflexivity.
Qed.

(** The rest of [login] when the server stores the session row. *)
Lemma login_session_row_stored user :
  (forall r, rejects (db w) (InsertSession (AuthService.schema_for req w) r) = false) ->
  exists w',
    (let* sessionId := lift uuidv4 in
     let* _ := lift (RepoIndex.createSession (AuthService.schema_for req w) (u_id user)) in
     ret (login_reply user s)) (logged_in_as req s user, looked_up req w p)
    = (inr (login_reply user s), (logged_in_as req s user, w')).
Proof.
  intros Hacc. eexists.
  erewrite bind_inr by (apply lift_run; reflexivity). cbv beta.
  erewrite bind_inr; [reflexivity |].
  apply lift_run. unfold RepoIndex.createSession.
  erewrite bind_inr by (apply check_cached; exact Hpool).
  erewrite bind_inr by reflexivity. cbv beta.
  erewrite bind_inr by reflexivity. cbv beta.
  unfold UserRepo.createSession.
  erewrite bind_inr; [reflexivity |].
  unfold query. cbn [db looked_up sent]. rewrite Hacc. reflexivity.
Qed.

End LoginRun.

(** X26.  With well-formed credentials, a warm pool and a server that
    answers the lookup, [login] answers an unknown e-mail address and a
    wrong password alike, with the [AuthError] ["Invalid credentials"]; the
    session and the database are left as they were. *)
Theorem login_rejects_unknown_and_wrong_alike `{L : Libs} (req : Request) (w : World)
    (s : Session) (o : obj) (em pw : string) (p : Handle) :
  session req = Some s ->
  obj_get (body req) "credentials" = JObj o ->
  obj_get o "email" = JStr em -> obj_get o "password" = JStr pw ->
  em <> "" -> pw <> "" ->
  pools w !! AuthService.schema_for req w = Some p ->
  reachable (db w) = true ->
  rejects (db w) (SetSearchPath (AuthService.schema_for req w)) = false ->
  rejects (db w) (SelectUsers (AuthService.schema_for req w)) = false ->
  match account (db w) (AuthService.schema_for req w) (JStr em) with
  | None => True
  | Some user => u_password_hash user <> pw
  end ->
  exists w',
    AuthService.login (req, w) = (inl (AuthError "Invalid credentials"), (req, w')) /\
    db w' = db w.
Proof.
  intros Hs Hcred Hem Hpw Hen Hpn Hpool Hreach Hsp Hsel Hbad.
  rewrite (login_after_lookup req w s o em pw p) by assumption.
  destruct (account _ _ _) as [user |].
  - assert (Hneq : String.eqb pw (u_password_hash user) = false)
      by (apply String.eqb_neq; congruence).
    rewrite Hneq. by eexists.
  - by eexists.
Qed.

Lemma login_rejects_unknown_and_wrong_alike_witness :
  (exists w',
      AuthService.login (L := toy_libs)
        (alice_wrong_password, after_alice_registration.2.2)
      = (inl (AuthError "Invalid credentials"), (alice_wrong_password, w'))) /\
  (exists w',
      AuthService.login (L := toy_libs) (bob_login, after_alice_registration.2.2)
      = (inl (AuthError "Invalid credentials"), (bob_login, w'))).
Proof.
  assert (Hp : pools after_alice_registration.2.2 !! "client_beta_2" = Some (mkHandle 0))
    by (vm_compute; reflexivity).
  assert (Hr : reachable (db after_alice_registration.2.2) = true)
    by (vm_compute; reflexivity).
  assert (H1 : rejects (db after_alice_registration.2.2) (SetSearchPath "client_beta_2")
               = false) by (vm_compute; reflexivity).
  assert (H2 : rejects (db after_alice_registration.2.2) (SelectUsers "client_beta_2")
               = false) by (vm_compute; reflexivity).
  split.
  - assert (He : "alice@beta.example" <> "") by discriminate.
    assert (Hw : "wrong" <> "") by discriminate.
    assert (Hbad : match account (db after_alice_registration.2.2) "client_beta_2"
                           (JStr "alice@beta.example") with
                   | None => True
                   | Some user => u_password_hash user <> "wrong"
                   end) by (vm_compute; discriminate).
    destruct (login_rejects_unknown_and_wrong_alike (L := toy_libs) alice_wrong_password
                after_alice_registration.2.2 beta_session
                [("email", JStr "alice@beta.example"); ("password", JStr "wrong")]
                "alice@beta.example" "wrong" (mkHandle 0)
                eq_refl eq_refl eq_refl eq_refl He Hw Hp Hr H1 H2 Hbad) as (w' & H & _).
    by exists w'.
  - assert (He : "bob@beta.example" <> "") by discriminate.
    assert (Hw : "correct horse" <> "") by discriminate.
    assert (Hbad : match account (db after_alice_registration.2.2) "client_beta_2"
                           (JStr "bob@beta.example") with
                   | None => True
                   | Some user => u_password_hash user <> "correct horse"
                   end) by (vm_compute; exact I).
    destruct (login_rejects_unknown_and_wrong_alike (L := toy_libs) bob_login
                after_alice_registration.2.2 beta_session
                [("email", JStr "bob@beta.example"); ("password", JStr "correct horse")]
                "bob@beta.example" "correct horse" (mkHandle 0)
                eq_refl eq_refl eq_refl eq_refl He Hw Hp Hr H1 H2 Hbad) as (w' & H & _).
    by exists w'.
Defined.

(** X27.  [login] writes the account into the session before it stores
    the session row: when the credentials are right and the server refuses
    that row, the call fails with the database error, and yet the request's
    session carries the account's id and role, so that [isAuthenticated]
    lets the request through. *)
Theorem failed_login_leaves_session_authenticated `{L : Libs} (req : Request) (w : World)
    (s : Session) (o : obj) (em pw : string) (p : Handle) (user : UserRow) :
  session req = Some s ->
  obj_get (body req) "credentials" = JObj o ->
  obj_get o "email" = JStr em -> obj_get o "password" = JStr pw ->
  em <> "" -> pw <> "" ->
  pools w !! AuthService.schema_for req w = Some p ->
  reachable (db w) = true ->
  rejects (db w) (SetSearchPath (AuthService.schema_for req w)) = false ->
  rejects (db w) (SelectUsers (AuthService.schema_for req w)) = false ->
  account (db w) (AuthService.schema_for req w) (JStr em) = Some user ->
  u_password_hash user = pw ->
  u_id user <> "" ->
  (forall r, rejects (db w) (InsertSession (AuthService.schema_for req w) r) = true) ->
  exists req' w',
    AuthService.login (req, w) = (inl DatabaseError, (req', w')) /\
    userId_of req' = JStr (u_id user) /\
    role_of req' = JStr (u_role user) /\
    AuthMiddleware.isAuthenticated req' = AuthMiddleware.Next /\
    db w' = db w.
Proof.
  intros Hs Hcred Hem Hpw Hen Hpn Hpool Hreach Hsp Hsel Hacc Hhash Hid Hrej.
  rewrite (login_after_lookup req w s o em pw p) by assumption.
  rewrite Hacc, <- Hhash, String.eqb_refl.
  destruct (login_session_row_refused req w s p Hpool user Hrej) as (w' & Hrun & Hd).
  exists (logged_in_as req s user), w'.
  split; [exact Hrun |]. split; [reflexivity |]. split; [reflexivity |].
  split; [| exact Hd].
  unfold AuthMiddleware.isAuthenticated. cbn.
  apply String.eqb_neq in Hid. by rewrite Hid.
Qed.

Lemma failed_login_leaves_session_authenticated_witness :
  exists req' w' uid,
    AuthService.login (L := toy_libs)
      (alice_login,
       with_db after_alice_registration.2.2
               (no_sessions_db (db after_alice_registration.2.2)))
    = (inl DatabaseError, (req', w')) /\
    userId_of req' = JStr uid /\
    AuthMiddleware.isAuthenticated req' = AuthMiddleware.Next.
Proof.
  set (w := with_db after_alice_registration.2.2
                    (no_sessions_db (db after_alice_registration.2.2))).
  assert (Hp : pools w !! "client_beta_2" = Some (mkHandle 0))
    by (vm_compute; reflexivity).
  assert (Hr : reachable (db w) = true) by (vm_compute; reflexivity).
  assert (H1 : rejects (db w) (SetSearchPath "client_beta_2") = false)
    by (vm_compute; reflexivity).
  assert (H2 : rejects (db w) (SelectUsers "client_beta_2") = false)
    by (vm_compute; reflexivity).
  assert (He : "alice@beta.example" <> "") by discriminate.
  assert (Hw : "correct horse" <> "") by discriminate.
  assert (Hacc : account (db w) "client_beta_2" (JStr "alice@beta.example")
                 = Some (mkUserRow "0000-0" "Alice" "user" "alice@beta.example"
                                   "correct horse" 1700000000))
    by (vm_compute; reflexivity).
  assert (Hid : "0000-0" <> "") by discriminate.
  assert (Hrej : forall r, rejects (db w) (InsertSession "client_beta_2" r) = true)
    by reflexivity.
  destruct (failed_login_leaves_session_authenticated (L := toy_libs) alice_login w
              beta_session
              [("email", JStr "alice@beta.example"); ("password", JStr "correct horse")]
              "alice@beta.example" "correct horse" (mkHandle 0) _
              eq_refl eq_refl eq_refl eq_refl He Hw Hp Hr H1 H2 Hacc eq_refl Hid Hrej)
    as (req' & w' & Hrun & Hu & _ & Hauth & _).
  exists req', w', "0000-0".
  split; [exact Hrun |]. split; [exact Hu | exact Hauth].
Defined.

(** X28.  An account that [register] has just created can log in: with
    the e-mail address and the password of the registration, on a request
    whose session resolves to the same partition, and a server that stores
    the session row, [login] succeeds and the session carries the id that
    the registration returned and the role it stored. *)
Theorem registered_account_can_log_in `{L : Libs} (req : Request) (w : World)
    resp req1 w1 (req2 : Request) (s : Session) (o : obj) (em pw : string) :
  AuthService.register (req, w) = (inr resp, (req1, w1)) ->
  obj_get (body req) "email" = JStr em ->
  obj_get (body req) "password" = JStr pw ->
  session req2 = Some s ->
  AuthService.schema_for req2 w1 = AuthService.schema_for req w ->
  obj_get (body req2) "credentials" = JObj o ->
  obj_get o "email" = JStr em -> obj_get o "password" = JStr pw ->
  (forall r, rejects (db w) (InsertSession (AuthService.schema_for req w) r) = false) ->
  exists user resp2 req3 w3,
    AuthService.login (req2, w1) = (inr resp2, (req3, w3)) /\
    obj_get (data_obj resp) "userId" = JStr (u_id user) /\
    userId_of req3 = JStr (u_id user) /\
    role_of req3 = js_or (obj_get (body req) "role") (JStr "user") /\
    obj_get (data_obj resp2) "email" = JStr em.
Proof.
  intros Hreg Hem Hpw Hs Hsn Hcred Hem2 Hpw2 Hacc.
  assert (Hne : em <> "" /\ pw <> "").
  { unfold AuthService.register in Hreg.
    apply bind_inv_inr in Hreg as (r0 & st0 & H0 & Hreg).
    inversion H0; subst r0 st0; clear H0.
    apply bind_inv_inr in Hreg as (w0 & st0 & H0 & Hreg).
    inversion H0; subst w0 st0; clear H0. cbn [fst snd] in Hreg.
    rewrite Hem, Hpw in Hreg. cbn [truthy] in Hreg.
    split; intros ->; cbn in Hreg; rewrite ?orb_true_r in Hreg; discriminate. }
  destruct Hne as [Hen Hpn].
  apply register_inv in Hreg
    as (row & p & -> & Hnone & Hn & He & Hh & Hr & -> & Htab & Hp & _ & Hreach & Hrej
        & Hsp & Hsel).
  rewrite Hem in He, Hnone. rewrite Hpw in Hh.
  inversion He as [He']. inversion Hh as [Hh'].
  assert (Hfound : account (db w1) (AuthService.schema_for req w) (JStr em) = Some row).
  { assert (Ht : table_of (users (db w1)) (AuthService.schema_for req w)
                 = table_of (users (db w)) (AuthService.schema_for req w) ++ [row])
      by (unfold table_of at 1; rewrite Htab, lookup_insert_eq; reflexivity).
    unfold account in *. rewrite Ht, (find_app_none _ _ _ Hnone).
    cbn. by rewrite He', String.eqb_refl. }
  rewrite <- Hsn in Hp, Hfound.
  rewrite (login_after_lookup req2 w1 s o em pw p) by
    (try assumption; rewrite ?Hrej, ?Hsn; assumption).
  rewrite Hfound, <- Hh', String.eqb_refl.
  destruct (login_session_row_stored req2 w1 s p Hp row) as (w3 & Hrun).
  { intros r. rewrite Hrej, Hsn. apply Hacc. }
  exists row, (login_reply row s), (logged_in_as req2 s row), w3.
  split; [exact Hrun |]. split; [reflexivity |]. split; [reflexivity |].
  split; [cbn; by rewrite Hr |]. cbn. by rewrite He'.
Qed.

Lemma registered_account_can_log_in_witness :
  exists resp req1 w1 user resp2 req3 w3,
    after_alice_registration = (inr resp, (req1, w1)) /\
    AuthService.login (L := toy_libs) (alice_login, w1) = (inr resp2, (req3, w3)) /\
    obj_get (data_obj resp) "userId" = JStr (u_id user) /\
    userId_of req3 = JStr (u_id user) /\
    role_of req3 = JStr "user".
Proof.
  assert (Hreg : AuthService.register (L := toy_libs)
                   (alice_registration, fresh_world two_tenant_db)
                 = (inr ?[resp], (?[req1], ?[w1]))) by (vm_compute; reflexivity).
  assert (Hacc : forall r,
             rejects (db (fresh_world two_tenant_db))
                     (InsertSession (AuthService.schema_for alice_registration
                                       (fresh_world two_tenant_db)) r) = false)
    by reflexivity.
  destruct (registered_account_can_log_in (L := toy_libs) _ _ _ _ _ alice_login
              beta_session
              [("email", JStr "alice@beta.example"); ("password", JStr "correct horse")]
              "alice@beta.example" "correct horse"
              Hreg eq_refl eq_refl eq_refl eq_refl eq_refl eq_refl eq_refl Hacc)
    as (user & resp2 & req3 & w3 & Hrun & Hid & Hu & Hr & _).
  eexists _, _, _, user, resp2, req3, w3.
  split; [exact Hreg |]. split; [exact Hrun |]. split; [exact Hid |].
  split; [exact Hu | exact Hr].
Defined.

(** ** Which pool a request is served from *)

(** X29.  A request whose session resolves to a tenant partition that
    cannot be provisioned is not refused: [getPoolForRequest] swallows the
    failure and serves it from the pool of the default partition, which it
    provisions and caches, while the tenant's name stays out of the cache. *)
Theorem tenant_request_falls_back_to_default_partition (req : Request) (w : World)
    (sn : string) :
  or_default (poolContext_of req) SchemaDetection.DEFAULT <> SchemaDetection.AUTH_INTERNAL ->
  AuthService.schema_for req w = sn ->
  schemas w !! sn = None ->
  schemas w !! SchemaDetection.default_schema w = None ->
  reachable (db w) = true ->
  Exists (fun q => rejects (db w) q = true)
         (CreateSchemaRaw sn ::
          (if String.eqb sn "client_template" then [] else TenantPool.ddl sn)) ->
  Forall (fun q => rejects (db w) q = false)
         (tenant_provisioning (SchemaDetection.default_schema w)) ->
  exists p w',
    getPoolForRequest req w = (inr p, w') /\
    schemas w' !! SchemaDetection.default_schema w = Some p /\
    schemas w' !! sn = None /\
    db w' = db w.
Proof.
  intros Hctx Hsn Hnone Hdnone Hreach Hbad Hok.
  destruct (getPoolForSchema_failure_not_cached sn w Hnone Hreach Hbad)
    as (e & w1 & Hfail & Hs1 & _).
  pose proof (keeps_db_run _ _ _ _ (keeps_db_getPoolForSchema sn) Hfail) as Hd1.
  pose proof (keeps_env_run _ _ _ _ (keeps_db_getPoolForSchema sn) Hfail) as He1.
  assert (Hdef : SchemaDetection.default_schema w1 = SchemaDetection.default_schema w)
    by (unfold SchemaDetection.default_schema; by rewrite He1).
  assert (Hne : sn <> SchemaDetection.default_schema w).
  { intros ->. rewrite List.Forall_forall in Hok. rewrite List.Exists_exists in Hbad.
    destruct Hbad as (q & Hin & Hq).
    assert (Hin' : In q (tenant_provisioning (SchemaDetection.default_schema w))).
    { unfold tenant_provisioning. rewrite app_comm_cons.
      apply in_or_app. by left. }
    specialize (Hok q Hin'). congruence. }
  destruct (getPoolForSchema_fresh_succeeds (SchemaDetection.default_schema w) w1)
    as (w2 & Hrun & Hs2 & Hd2).
  { by rewrite Hs1. }
  { by rewrite Hd1. }
  { by rewrite Hd1. }
  exists (mkHandle (next_handle w1)), w2.
  split; [| split; [| split]].
  - unfold getPoolForRequest.
    unfold SchemaDetection.DEFAULT, SchemaDetection.AUTH_INTERNAL in Hctx.
    unfold AuthService.schema_for, SchemaDetection.default_schema in Hsn.
    erewrite try_catch_inl;
      [| unfold resolvePoolFromSession; step; cbv zeta;
         apply String.eqb_neq in Hctx; rewrite Hctx, Hsn; exact Hfail].
    step.
    change (or_default (SEED_SCHEMA (env w1)) "client_template")
      with (SchemaDetection.default_schema w1).
    rewrite Hdef. exact Hrun.
  - rewrite Hs2. apply lookup_insert_eq.
  - rewrite Hs2, lookup_insert_ne by done. by rewrite Hs1.
  - congruence.
Qed.

Lemma tenant_request_falls_back_to_default_partition_witness :
  exists p w',
    getPoolForRequest stale_beta_request (fresh_world beta_broken_db) = (inr p, w') /\
    schemas w' !! "client_template" = Some p /\
    schemas w' !! "client_beta_2" = None /\
    db w' = beta_broken_db.
Proof.
  assert (Hctx : or_default (poolContext_of stale_beta_request) SchemaDetection.DEFAULT
                 <> SchemaDetection.AUTH_INTERNAL) by discriminate.
  apply (tenant_request_falls_back_to_default_partition stale_beta_request
           (fresh_world beta_broken_db) "client_beta_2" Hctx eq_refl eq_refl eq_refl
           eq_refl).
  - do 4 apply Exists_cons_tl. apply Exists_cons_hd. reflexivity.
  - repeat constructor.
Defined.

(** ** The ownership gate of the owner routes *)

(** X30.  [verifyClientOwnership] hands out a registry row only to a
    logged-in account, and only a row with the client id asked for: to a
    system administrator any such row, to a client owner only one whose
    owner is the account itself; to every other role none.  It never
    changes the database. *)
Theorem verifyClientOwnership_only_own_or_admin (req : Request) (cid : string)
    (w : World) (r : ClientRow) (w' : World) :
  OwnerService.verifyClientOwnership req cid w = (inr r, w') ->
  truthy (userId_of req) = true /\
  In r (cs_of (db w)) /\ client_id r = cid /\
  (SchemaDetection.isSystemAdmin req = true \/
   SchemaDetection.isClientOwner req = true /\
   exists u, userId_of req = JStr u /\ user_id r = Some u) /\
  db w' = db w.
Proof.
  unfold OwnerService.verifyClientOwnership. intros H.
  destruct (truthy (userId_of req)) eqn:Ht; [| discriminate]. cbn [negb] in H.
  split; [reflexivity |].
  destruct (SchemaDetection.isSystemAdmin req) eqn:Ha.
  - apply bind_inv_inr in H as (p & w1 & H1 & H).
    apply (keeps_db_run _ _ _ _ keeps_db_getPool) in H1.
    apply bind_inv_inr in H as (rs & w2 & H2 & H).
    pose proof (keeps_db_run _ _ _ _ (keeps_db_query_select p (SelectClientServer cid) I) H2)
      as Hd2.
    unfold query in H2. destruct (rejects (db w1) (SelectClientServer cid)); [discriminate |].
    simpl in H2. inversion H2; subst rs w2; clear H2. cbn [client_rows] in H.
    destruct (filter _ (cs_of (db w1))) as [| x l] eqn:Hf; [discriminate |].
    inversion H; subst x w'; clear H.
    assert (Hhead : head (filter (fun y => String.eqb (client_id y) cid = true)
                                 (cs_of (db w1))) = Some r) by (by rewrite Hf).
    apply head_filter_In in Hhead as [Hin Hc]. apply String.eqb_eq in Hc.
    rewrite H1 in Hin. split; [exact Hin |]. split; [exact Hc |].
    split; [by left | congruence].
  - destruct (SchemaDetection.isClientOwner req) eqn:Ho; [| discriminate].
    apply bind_inv_inr in H as (p & w1 & H1 & H).
    apply (keeps_db_run _ _ _ _ keeps_db_getPool) in H1.
    apply bind_inv_inr in H as (rs & w2 & H2 & H).
    pose proof (keeps_db_run _ _ _ _
                  (keeps_db_query_select p (SelectClientServerOfUser (userId_of req) cid) I)
                  H2) as Hd2.
    unfold query in H2.
    destruct (rejects (db w1) (SelectClientServerOfUser (userId_of req) cid));
      [discriminate |].
    destruct (userId_of req) as [| | b | z | u | xs | o] eqn:Hu; try discriminate.
    simpl in H2. inversion H2; subst rs w2; clear H2. cbn [client_rows] in H.
    destruct (filter _ (cs_of (db w1))) as [| x l] eqn:Hf; [discriminate |].
    inversion H; subst x w'; clear H.
    assert (Hhead : head (filter (fun y => owned_by u y && String.eqb (client_id y) cid
                                           = true) (cs_of (db w1))) = Some r)
      by (by rewrite Hf).
    apply head_filter_In in Hhead as [Hin Hc].
    apply andb_prop in Hc as [Hown Hc]. apply String.eqb_eq in Hc.
    rewrite H1 in Hin. split; [exact Hin |]. split; [exact Hc |].
    split; [| congruence].
    right. split; [reflexivity |]. exists u. split; [reflexivity |].
    unfold owned_by in Hown. destruct (user_id r) as [v |]; [| discriminate].
    apply String.eqb_eq in Hown. by subst.
Qed.

Lemma verifyClientOwnership_only_own_or_admin_witness :
  exists w',
    OwnerService.verifyClientOwnership carol_owner_request "client_g"
      (fresh_world owned_tenant_db) = (inr gamma_row, w') /\
    In gamma_row (cs_of (db (fresh_world owned_tenant_db))) /\
    client_id gamma_row = "client_g" /\
    (SchemaDetection.isSystemAdmin carol_owner_request = true \/
     SchemaDetection.isClientOwner carol_owner_request = true /\
     exists u, userId_of carol_owner_request = JStr u /\ user_id gamma_row = Some u) /\
    db w' = db (fresh_world owned_tenant_db).
Proof.
  assert (Hrun : OwnerService.verifyClientOwnership carol_owner_request "client_g"
                   (fresh_world owned_tenant_db) = (inr gamma_row, ?[w']))
    by (vm_compute; reflexivity).
  destruct (verifyClientOwnership_only_own_or_admin _ _ _ _ _ Hrun)
    as (_ & Hin & Hc & Hrole & Hd).
  eexists. split; [exact Hrun |]. split; [exact Hin |]. split; [exact Hc |].
  split; [exact Hrole | exact Hd].
Defined.
